(** * MarkerClusterer: a shallow embedding of [src/markerclusterer.ts]

    The clusterer groups map markers into clusters.  This file embeds the
    three classes of the source ([ClusterIcon], [Cluster], [MarkerClusterer])
    as Rocq functions over explicit state and proves properties of them.

    - JavaScript numbers are an interface ([Number]) with two instances: IEEE
      binary64 ([float], what the program runs on) and the real numbers ([R],
      used to say what the formulas mean when nothing is rounded).
    - [Math] and the map platform ([Host]: projection, [LatLngBounds], zoom,
      viewport) are not part of the repository, they are parameters.
    - Markers are shared mutable objects: they are references into a [Store].
    - A call either returns, throws a [TypeError] (a property of [null] is
      used) or does not return. *)

From Stdlib Require Import ZArith List Bool Lia String DecimalString Permutation.
From Stdlib Require Import Uint63 PrimFloat FloatAxioms SpecFloat FloatOps.
From Stdlib Require Import Reals Lra.
Import ListNotations.

Close Scope R_scope.
Local Open Scope Z_scope.

(** ** Numbers *)

(** The operations on [number] the source uses. [num_eqb] is [===],
    [num_ltb] is [<], [num_of_Z] turns an integer literal or an array length
    into a number. *)
Class Number (num : Type) : Type := {
  num_add : num -> num -> num;
  num_sub : num -> num -> num;
  num_mul : num -> num -> num;
  num_div : num -> num -> num;
  num_ltb : num -> num -> bool;
  num_eqb : num -> num -> bool;
  num_of_Z : Z -> num
}.

Declare Scope num_scope.
Delimit Scope num_scope with num.
Infix "+" := num_add : num_scope.
Infix "-" := num_sub : num_scope.
Infix "*" := num_mul : num_scope.
Infix "/" := num_div : num_scope.
Infix "<?" := num_ltb : num_scope.
Infix "=?" := num_eqb : num_scope.
Notation "# z" := (num_of_Z z) (at level 1, format "# z") : num_scope.

(** [a > b], [a <= b] and [a >= b] on numbers, through [<] and [===] as
    JavaScript defines them for numbers. *)
Definition num_gtb {num} `{Number num} (a b : num) : bool := (b <? a)%num.
Definition num_leb {num} `{Number num} (a b : num) : bool :=
  ((a <? b) || (a =? b))%num.
Definition num_geb {num} `{Number num} (a b : num) : bool := num_leb b a.

(** Truthiness of a number: false for [0], [-0] and [NaN]. *)
Definition num_truthy {num} `{Number num} (a : num) : bool :=
  ((a =? a) && negb (a =? #0))%num.

(** [x || d] on an optional number. *)
Definition num_or {num} `{Number num} (x : option num) (d : num) : num :=
  match x with
  | Some v => if num_truthy v then v else d
  | None => d
  end.

(** The order laws the proofs about the nearest cluster need: [<] is a
    strict partial order (it is not total on doubles: [NaN]) that [===]
    respects. *)
Class NumberOrder (num : Type) `{Number num} : Prop := {
  num_ltb_irrefl : forall a : num, (a <? a)%num = false;
  num_ltb_trans : forall a b c : num,
    (a <? b)%num = true -> (b <? c)%num = true -> (a <? c)%num = true;
  num_eqb_ltb : forall a b c : num,
    (a =? b)%num = true -> (b <? c)%num = true -> (a <? c)%num = true
}.

(** *** IEEE binary64 *)

Definition float_of_Z (z : Z) : float :=
  match z with
  | Z0 => PrimFloat.zero
  | Zpos _ => PrimFloat.of_uint63 (Uint63.of_Z z)
  | Zneg p => PrimFloat.opp (PrimFloat.of_uint63 (Uint63.of_Z (Zpos p)))
  end.

#[export] Instance Number_float : Number float := {
  num_add := PrimFloat.add;
  num_sub := PrimFloat.sub;
  num_mul := PrimFloat.mul;
  num_div := PrimFloat.div;
  num_ltb := PrimFloat.ltb;
  num_eqb := PrimFloat.eqb;
  num_of_Z := float_of_Z
}.

(** *** Real numbers *)

Definition R_ltb (a b : R) : bool := if Rlt_dec a b then true else false.

Definition R_eqb (a b : R) : bool := if Req_dec_T a b then true else false.

#[export] Instance Number_R : Number R := {
  num_add := Rplus;
  num_sub := Rminus;
  num_mul := Rmult;
  num_div := Rdiv;
  num_ltb := R_ltb;
  num_eqb := R_eqb;
  num_of_Z := IZR
}.

(** *** [Math] *)

(** The functions of [Math] the source calls. *)
Class Math (num : Type) : Type := {
  Math_PI : num;
  Math_sin : num -> num;
  Math_cos : num -> num;
  Math_sqrt : num -> num;
  Math_atan2 : num -> num -> num
}.

(** ** Results of a call *)

Inductive outcome (A : Type) : Type :=
| Returns (a : A)
| TypeError
| NoReturn.

Arguments Returns {A} a.
Arguments TypeError {A}.
Arguments NoReturn {A}.

Definition bind {A B} (c : outcome A) (k : A -> outcome B) : outcome B :=
  match c with
  | Returns a => k a
  | TypeError => TypeError
  | NoReturn => NoReturn
  end.

Notation "x <- c ;; k" := (bind c (fun x => k))
  (at level 61, c at next level, right associativity).
Notation "' p <- c ;; k" := (bind c (fun p => k))
  (at level 61, p pattern, c at next level, right associativity).

(** [xs.forEach(f)] where [f] updates a state and may fail. *)
Fixpoint forEach {A S} (f : A -> S -> outcome S) (xs : list A) (s : S)
  : outcome S :=
  match xs with
  | [] => Returns s
  | x :: xs' => s' <- f x s ;; forEach f xs' s'
  end.

(** ** The map platform *)

Record LatLng (num : Type) : Type := { lat : num; lng : num }.
Arguments lat {num} _.
Arguments lng {num} _.

Record Point (num : Type) : Type := { pixel_x : num; pixel_y : num }.
Arguments pixel_x {num} _.
Arguments pixel_y {num} _.

(** [new LatLngBounds(sw, ne)] with its two getters. *)
Record LatLngBounds (num : Type) : Type := {
  getSouthWest : LatLng num;
  getNorthEast : LatLng num
}.
Arguments getSouthWest {num} _.
Arguments getNorthEast {num} _.

(** A map object is known by its identity. *)
Definition MapRef : Type := nat.

(** What the program asks of the map platform: the overlay projection,
    [LatLngBounds.extend] and [LatLngBounds.contains], and the zoom and the
    viewport of the map at the time of the call. *)
Record Host (num : Type) : Type := {
  fromLatLngToDivPixel : LatLng num -> Point num;
  fromDivPixelToLatLng : Point num -> LatLng num;
  extend : LatLngBounds num -> LatLng num -> LatLngBounds num;
  contains : LatLngBounds num -> LatLng num -> bool;
  getZoom : Z;
  getBounds : LatLngBounds num
}.
Arguments fromLatLngToDivPixel {num} _ _.
Arguments fromDivPixelToLatLng {num} _ _.
Arguments extend {num} _ _ _.
Arguments contains {num} _ _ _.
Arguments getZoom {num} _.
Arguments getBounds {num} _.

(** ** Markers *)

(** A marker is a reference; what the program reads and writes of it is in
    the store. [isAdded] is the flag of [ClusterMarker]; [marker_map] is what
    [getMap()] returns, [None] for [null]. *)
Definition MarkerRef : Type := nat.

Record MarkerState (num : Type) : Type := {
  position : LatLng num;
  isAdded : bool;
  draggable : bool;
  marker_map : option MapRef
}.
Arguments position {num} _.
Arguments isAdded {num} _.
Arguments draggable {num} _.
Arguments marker_map {num} _.

Definition Store (num : Type) : Type := MarkerRef -> MarkerState num.

Section Markers.
Context {num : Type}.

Definition getPosition (st : Store num) (marker : MarkerRef) : LatLng num :=
  position (st marker).

Definition getMap (st : Store num) (marker : MarkerRef) : option MapRef :=
  marker_map (st marker).

Definition update (marker : MarkerRef) (s : MarkerState num) (st : Store num)
  : Store num :=
  fun r => if Nat.eqb r marker then s else st r.

(** [marker.setMap(map)] *)
Definition setMap (marker : MarkerRef) (map : option MapRef) (st : Store num)
  : Store num :=
  let s := st marker in
  update marker
    {| position := position s; isAdded := isAdded s;
       draggable := draggable s; marker_map := map |} st.

(** [marker.isAdded = b] *)
Definition set_isAdded (marker : MarkerRef) (b : bool) (st : Store num)
  : Store num :=
  let s := st marker in
  update marker
    {| position := position s; isAdded := b;
       draggable := draggable s; marker_map := marker_map s |} st.

(** [map1 == map2] on what [getMap()] returns. *)
Definition same_map (a b : option MapRef) : bool :=
  match a, b with
  | Some m1, Some m2 => Nat.eqb m1 m2
  | None, None => true
  | _, _ => false
  end.

(** [markers.indexOf(marker)], [None] for [-1]. *)
Fixpoint indexOf (markers : list MarkerRef) (marker : MarkerRef)
  : option nat :=
  match markers with
  | [] => None
  | m :: rest =>
      if Nat.eqb m marker then Some O
      else match indexOf rest marker with
           | Some i => Some (S i)
           | None => None
           end
  end.

(** [markers.splice(index, 1)] *)
Fixpoint splice1 (markers : list MarkerRef) (index : nat) : list MarkerRef :=
  match markers, index with
  | [], _ => []
  | _ :: rest, O => rest
  | m :: rest, S i => m :: splice1 rest i
  end.

End Markers.

(** ** Styles, summaries and the fields of the clusterer *)

Record IconStyle : Type := {
  url : string;
  height : Z;
  width : Z
}.

Inductive SumText : Type :=
| TextNumber (n : Z)
| TextString (s : string).

Record Sum : Type := { text : SumText; index : Z }.

(** [SumCalculatorFunc]: [None] when the call does not return. *)
Definition SumCalculatorFunc : Type := list MarkerRef -> Z -> option Sum.

(** The argument [MarkerClustererOptions] of the constructor; an absent
    property is [None]. *)
Record MarkerClustererOptions (num : Type) : Type := {
  opt_gridSize : option num;
  opt_maxZoom : option Z;
  opt_minClusterSize : option Z;
  opt_imagePath : option string;
  opt_imageExtension : option string;
  opt_zoomOnClick : option bool;
  opt_averageCenter : option bool;
  opt_styles : option (list IconStyle)
}.
Arguments opt_gridSize {num} _.
Arguments opt_maxZoom {num} _.
Arguments opt_minClusterSize {num} _.
Arguments opt_imagePath {num} _.
Arguments opt_imageExtension {num} _.
Arguments opt_zoomOnClick {num} _.
Arguments opt_averageCenter {num} _.
Arguments opt_styles {num} _.

(** The fields of a [MarkerClusterer] that its clusters read through their
    [markerClusterer_] reference. [maxZoom] is [None] for [null]. *)
Record Settings (num : Type) : Type := {
  map : MapRef;
  gridSize : num;
  minClusterSize : Z;
  maxZoom : option Z;
  imagePath : string;
  imageExtension : string;
  zoomOnClick : bool;
  averageCenter : bool;
  styles : list IconStyle;
  sumCalculatorFunc : SumCalculatorFunc
}.
Arguments map {num} _.
Arguments gridSize {num} _.
Arguments minClusterSize {num} _.
Arguments maxZoom {num} _.
Arguments imagePath {num} _.
Arguments imageExtension {num} _.
Arguments zoomOnClick {num} _.
Arguments averageCenter {num} _.
Arguments styles {num} _.
Arguments sumCalculatorFunc {num} _.

Section ExtendedBounds.
Context {num : Type} {N : Number num}.

(** [MarkerClusterer.getExtendedBounds]: the corners go to pixels, move out
    by the grid size and come back; the bounds are extended by both. *)
Definition getExtendedBounds (host : Host num) (mc : Settings num)
    (bounds : LatLngBounds num) : LatLngBounds num :=
  let tr := {| lat := lat (getNorthEast bounds);
               lng := lng (getNorthEast bounds) |} in
  let bl := {| lat := lat (getSouthWest bounds);
               lng := lng (getSouthWest bounds) |} in
  let trPix := fromLatLngToDivPixel host tr in
  let trPix := {| pixel_x := (pixel_x trPix + gridSize mc)%num;
                  pixel_y := (pixel_y trPix - gridSize mc)%num |} in
  let blPix := fromLatLngToDivPixel host bl in
  let blPix := {| pixel_x := (pixel_x blPix - gridSize mc)%num;
                  pixel_y := (pixel_y blPix + gridSize mc)%num |} in
  let ne := fromDivPixelToLatLng host trPix in
  let sw := fromDivPixelToLatLng host blPix in
  extend host (extend host bounds ne) sw.

(** [MarkerClusterer.isMarkerInBounds_] *)
Definition isMarkerInBounds_ (host : Host num) (st : Store num)
    (marker : MarkerRef) (bounds : LatLngBounds num) : bool :=
  contains host bounds (getPosition st marker).

End ExtendedBounds.

(** ** [ClusterIcon] *)

(** The DOM side of the icon ([div_], the CSS builder) is left to the
    rendering layer; [attached] is the map of the overlay, [None] after
    [setMap(null)]. *)
Module ClusterIcon.
Section ClusterIcon.
Context {num : Type} {N : Number num}.

Record t : Type := {
  styles_ : list IconStyle;
  padding_ : num;
  center_ : option (LatLng num);
  map_ : MapRef;
  attached : option MapRef;
  sum_ : option Sum;
  visible_ : bool;
  currentStyle : option IconStyle
}.

(** [styles_[index]], [None] for [undefined]. *)
Definition style_at (styles : list IconStyle) (index : Z) : option IconStyle :=
  if index <? 0 then None else nth_error styles (Z.to_nat index).

Definition new (map : MapRef) (styles : list IconStyle) (padding : num) : t :=
  {| styles_ := styles; padding_ := num_or (Some padding) (#0)%num;
     center_ := None; map_ := map; attached := Some map; sum_ := None;
     visible_ := false; currentStyle := None |}.

Definition hide (icon : t) : t :=
  {| styles_ := styles_ icon; padding_ := padding_ icon;
     center_ := center_ icon; map_ := map_ icon; attached := attached icon;
     sum_ := sum_ icon; visible_ := false;
     currentStyle := currentStyle icon |}.

Definition show (icon : t) : t :=
  {| styles_ := styles_ icon; padding_ := padding_ icon;
     center_ := center_ icon; map_ := map_ icon; attached := attached icon;
     sum_ := sum_ icon; visible_ := true;
     currentStyle := currentStyle icon |}.

Definition remove (icon : t) : t :=
  {| styles_ := styles_ icon; padding_ := padding_ icon;
     center_ := center_ icon; map_ := map_ icon; attached := None;
     sum_ := sum_ icon; visible_ := visible_ icon;
     currentStyle := currentStyle icon |}.

Definition useStyle (sum : Sum) (icon : t) : t :=
  let index := Z.max 0 (index sum - 1) in
  let index := Z.min (Z.of_nat (List.length (styles_ icon)) - 1) index in
  {| styles_ := styles_ icon; padding_ := padding_ icon;
     center_ := center_ icon; map_ := map_ icon; attached := attached icon;
     sum_ := sum_ icon; visible_ := visible_ icon;
     currentStyle := style_at (styles_ icon) index |}.

Definition setSum (sum : Sum) (icon : t) : t :=
  useStyle sum
    {| styles_ := styles_ icon; padding_ := padding_ icon;
       center_ := center_ icon; map_ := map_ icon; attached := attached icon;
       sum_ := Some sum; visible_ := visible_ icon;
       currentStyle := currentStyle icon |}.

Definition setCenter (center : option (LatLng num)) (icon : t) : t :=
  {| styles_ := styles_ icon; padding_ := padding_ icon;
     center_ := center; map_ := map_ icon; attached := attached icon;
     sum_ := sum_ icon; visible_ := visible_ icon;
     currentStyle := currentStyle icon |}.

End ClusterIcon.
Arguments t : clear implicits.
End ClusterIcon.

(** ** [Cluster] *)

(** [markers_] is [None] once [remove()] has set it to [null]; [center_] and
    [bounds_] are [None] while they are [null]. The [markerClusterer_]
    reference is the argument [mc] of the methods that read through it. *)
Module Cluster.
Section Cluster.
Context {num : Type} {N : Number num}.

Record t : Type := {
  map_ : MapRef;
  gridSize_ : num;
  minClusterSize_ : Z;
  averageCenter_ : bool;
  center_ : option (LatLng num);
  markers_ : option (list MarkerRef);
  bounds_ : option (LatLngBounds num);
  clusterIcon_ : ClusterIcon.t num
}.

Definition new (mc : Settings num) : t :=
  {| map_ := map mc; gridSize_ := gridSize mc;
     minClusterSize_ := minClusterSize mc;
     averageCenter_ := averageCenter mc;
     center_ := None; markers_ := Some []; bounds_ := None;
     clusterIcon_ := ClusterIcon.new (map mc) (styles mc) (gridSize mc) |}.

Definition set_center (center : option (LatLng num)) (c : t) : t :=
  {| map_ := map_ c; gridSize_ := gridSize_ c;
     minClusterSize_ := minClusterSize_ c; averageCenter_ := averageCenter_ c;
     center_ := center; markers_ := markers_ c; bounds_ := bounds_ c;
     clusterIcon_ := clusterIcon_ c |}.

Definition set_markers (markers : option (list MarkerRef)) (c : t) : t :=
  {| map_ := map_ c; gridSize_ := gridSize_ c;
     minClusterSize_ := minClusterSize_ c; averageCenter_ := averageCenter_ c;
     center_ := center_ c; markers_ := markers; bounds_ := bounds_ c;
     clusterIcon_ := clusterIcon_ c |}.

Definition set_bounds (bounds : option (LatLngBounds num)) (c : t) : t :=
  {| map_ := map_ c; gridSize_ := gridSize_ c;
     minClusterSize_ := minClusterSize_ c; averageCenter_ := averageCenter_ c;
     center_ := center_ c; markers_ := markers_ c; bounds_ := bounds;
     clusterIcon_ := clusterIcon_ c |}.

Definition set_icon (icon : ClusterIcon.t num) (c : t) : t :=
  {| map_ := map_ c; gridSize_ := gridSize_ c;
     minClusterSize_ := minClusterSize_ c; averageCenter_ := averageCenter_ c;
     center_ := center_ c; markers_ := markers_ c; bounds_ := bounds_ c;
     clusterIcon_ := icon |}.

Definition isMarkerAlreadyAdded (c : t) (marker : MarkerRef) : outcome bool :=
  match markers_ c with
  | None => TypeError
  | Some markers =>
      Returns (match indexOf markers marker with
               | Some _ => true
               | None => false
               end)
  end.

(** [calculateBounds_] is called once [center_] is set; what the platform
    makes of [new LatLngBounds(null, null)] is not modelled, the case counts
    as a failure. *)
Definition calculateBounds_ (host : Host num) (mc : Settings num) (c : t)
  : outcome t :=
  match center_ c with
  | None => TypeError
  | Some center =>
      let bounds := {| getSouthWest := center; getNorthEast := center |} in
      Returns (set_bounds (Some (getExtendedBounds host mc bounds)) c)
  end.

Definition updateIcon (host : Host num) (mc : Settings num) (c : t)
    (st : Store num) : outcome (t * Store num) :=
  let zoom := getZoom host in
  let mz := maxZoom mc in
  match markers_ c with
  | None => TypeError
  | Some markers =>
      if match mz with
         | Some mz => negb (mz =? 0) && (zoom >? mz)
         | None => false
         end
      then
        Returns (c, fold_left (fun st marker => setMap marker (Some (map_ c)) st)
                              markers st)
      else if Z.of_nat (List.length markers) <? minClusterSize_ c then
        Returns (set_icon (ClusterIcon.hide (clusterIcon_ c)) c, st)
      else
        let numStyles := Z.of_nat (List.length (styles mc)) in
        match sumCalculatorFunc mc markers numStyles with
        | None => NoReturn
        | Some sum =>
            let icon := ClusterIcon.setCenter (center_ c) (clusterIcon_ c) in
            let icon := ClusterIcon.setSum sum icon in
            Returns (set_icon (ClusterIcon.show icon) c, st)
        end
  end.

Definition addMarker (host : Host num) (mc : Settings num) (c : t)
    (marker : MarkerRef) (st : Store num) : outcome (bool * t * Store num) :=
  already <- isMarkerAlreadyAdded c marker ;;
  if already then Returns (false, c, st)
  else
    match markers_ c with
    | None => TypeError
    | Some markers =>
        c <- match center_ c with
             | None =>
                 calculateBounds_ host mc
                   (set_center (Some (getPosition st marker)) c)
             | Some center =>
                 if averageCenter_ c then
                   let l := (#(Z.of_nat (List.length markers)) + #1)%num in
                   let lat := ((lat center * (l - #1)
                                + lat (getPosition st marker)) / l)%num in
                   let lng := ((lng center * (l - #1)
                                + lng (getPosition st marker)) / l)%num in
                   calculateBounds_ host mc
                     (set_center (Some {| lat := lat; lng := lng |}) c)
                 else Returns c
             end ;;
        let st := set_isAdded marker true st in
        let markers := markers ++ [marker] in
        let c := set_markers (Some markers) c in
        let len := Z.of_nat (List.length markers) in
        let st :=
          if (len <? minClusterSize_ c)
             && negb (same_map (getMap st marker) (Some (map_ c)))
          then setMap marker (Some (map_ c)) st
          else st in
        let st :=
          if len =? minClusterSize_ c
          then fold_left (fun st m => setMap m None st) markers st
          else st in
        let st :=
          if len >=? minClusterSize_ c then setMap marker None st else st in
        ' (c, st) <- updateIcon host mc c st ;;
        Returns (true, c, st)
    end.

(** [getBounds]: the center and every member, without the padding (for a
    cluster with a center, see [calculateBounds_]). *)
Definition getBounds (host : Host num) (c : t) (st : Store num)
  : outcome (LatLngBounds num) :=
  match center_ c, markers_ c with
  | Some center, Some markers =>
      Returns (fold_left (fun b marker => extend host b (getPosition st marker))
                 markers
                 {| getSouthWest := center; getNorthEast := center |})
  | _, _ => TypeError
  end.

(** [remove]: [this.markers_.length = 0] throws when [markers_] is [null]. *)
Definition remove (c : t) : outcome t :=
  let c := set_icon (ClusterIcon.remove (clusterIcon_ c)) c in
  match markers_ c with
  | None => TypeError
  | Some _ => Returns (set_markers None c)
  end.

Definition getSize (c : t) : outcome Z :=
  match markers_ c with
  | None => TypeError
  | Some markers => Returns (Z.of_nat (List.length markers))
  end.

Definition getMarkers (c : t) : option (list MarkerRef) := markers_ c.

Definition getCenter (c : t) : option (LatLng num) := center_ c.

Definition isMarkerInClusterBounds (host : Host num) (c : t)
    (marker : MarkerRef) (st : Store num) : outcome bool :=
  match bounds_ c with
  | None => TypeError
  | Some bounds => Returns (contains host bounds (getPosition st marker))
  end.

Definition getMap (c : t) : MapRef := map_ c.

End Cluster.
Arguments t : clear implicits.
End Cluster.

(** ** [MarkerClusterer] *)

Module MarkerClusterer.
Section MarkerClusterer.
Context {num : Type} {N : Number num} {M : Math num}.

(** The loop of the default calculator; [fuel] bounds its iterations,
    [None] when they do not suffice. *)
Fixpoint digits_loop (fuel : nat) (dv : num) (index : Z) : option Z :=
  if negb (dv =? #0)%num then
    match fuel with
    | O => None
    | S fuel' => digits_loop fuel' (dv / #10)%num (index + 1)
    end
  else Some index.

Definition DEFAULT_SUMCALCULATOR_FUNCTION (fuel : nat)
    (markers : list MarkerRef) (numStyles : Z) : option Sum :=
  let index := 0 in
  let dv := (#(Z.of_nat (List.length markers)))%num in
  match digits_loop fuel dv index with
  | None => None
  | Some index =>
      Some {| text := TextNumber (Z.of_nat (List.length markers));
              index := Z.min index numStyles |}
  end.

(** Distance between two locations in km (haversine). *)
Definition distanceBetweenPoints (p1 p2 : option (LatLng num)) : num :=
  match p1, p2 with
  | Some p1, Some p2 =>
      let R := (#6371)%num in
      let dLat := ((lat p2 - lat p1) * Math_PI / #180)%num in
      let dLon := ((lng p2 - lng p1) * Math_PI / #180)%num in
      let a := (Math_sin (dLat / #2) * Math_sin (dLat / #2)
                + Math_cos (lat p1 * Math_PI / #180)
                  * Math_cos (lat p2 * Math_PI / #180)
                  * Math_sin (dLon / #2) * Math_sin (dLon / #2))%num in
      let c := (#2 * Math_atan2 (Math_sqrt a) (Math_sqrt (#1 - a)))%num in
      (R * c)%num
  | _, _ => (#0)%num
  end.

(** The [forEach] of the default clusterizer: [i] is the position of the
    cluster at the head of [clusters] in the array, [distance] and
    [clusterToAddTo] are the two variables the callback updates. *)
Fixpoint nearest (pos : LatLng num) (clusters : list (Cluster.t num))
    (i : nat) (distance : num) (clusterToAddTo : option nat)
  : num * option nat :=
  match clusters with
  | [] => (distance, clusterToAddTo)
  | cluster :: rest =>
      match Cluster.getCenter cluster with
      | Some center =>
          let d := distanceBetweenPoints (Some center) (Some pos) in
          if (d <? distance)%num then nearest pos rest (S i) d (Some i)
          else nearest pos rest (S i) distance clusterToAddTo
      | None => nearest pos rest (S i) distance clusterToAddTo
      end
  end.

(** The cluster at position [i] is replaced (its object was updated). *)
Fixpoint replace_nth {A} (i : nat) (a : A) (l : list A) : list A :=
  match l, i with
  | [], _ => []
  | _ :: rest, O => a :: rest
  | b :: rest, S i' => b :: replace_nth i' a rest
  end.

Definition ClusterizerFunc : Type :=
  MarkerRef -> list (Cluster.t num) -> Settings num -> Host num ->
  Store num -> outcome (list (Cluster.t num) * Store num).

Definition DEFAULT_CLUSTERIZER_FUNCTION : ClusterizerFunc :=
  fun marker clusters markerClusterer host st =>
  let '(distance, clusterToAddTo) :=
    nearest (getPosition st marker) clusters O (#40000)%num None in
  let create :=
    let cluster := Cluster.new markerClusterer in
    ' (_, cluster, st) <-
        Cluster.addMarker host markerClusterer cluster marker st ;;
    Returns (clusters ++ [cluster], st) in
  match clusterToAddTo with
  | Some i =>
      match nth_error clusters i with
      | Some cluster =>
          inBounds <- Cluster.isMarkerInClusterBounds host cluster marker st ;;
          if inBounds then
            ' (_, cluster, st) <-
                Cluster.addMarker host markerClusterer cluster marker st ;;
            Returns (replace_nth i cluster clusters, st)
          else create
      | None => create
      end
  | None => create
  end.

Record t : Type := {
  settings : Settings num;
  markers : list MarkerRef;
  clusters : list (Cluster.t num);
  sizes : list Z;
  ready : bool;
  prevZoom : Z;
  clusterizerFunc : ClusterizerFunc;
  (** the callbacks of [window.setTimeout] that have not run yet, each with
      the [oldClusters] it closes over *)
  timeouts : list (list (Cluster.t num))
}.

Definition set_settings (s : Settings num) (mc : t) : t :=
  {| settings := s; markers := markers mc; clusters := clusters mc;
     sizes := sizes mc; ready := ready mc; prevZoom := prevZoom mc;
     clusterizerFunc := clusterizerFunc mc; timeouts := timeouts mc |}.

Definition set_markers (ms : list MarkerRef) (mc : t) : t :=
  {| settings := settings mc; markers := ms; clusters := clusters mc;
     sizes := sizes mc; ready := ready mc; prevZoom := prevZoom mc;
     clusterizerFunc := clusterizerFunc mc; timeouts := timeouts mc |}.

Definition set_clusters (cs : list (Cluster.t num)) (mc : t) : t :=
  {| settings := settings mc; markers := markers mc; clusters := cs;
     sizes := sizes mc; ready := ready mc; prevZoom := prevZoom mc;
     clusterizerFunc := clusterizerFunc mc; timeouts := timeouts mc |}.

Definition set_ready (b : bool) (mc : t) : t :=
  {| settings := settings mc; markers := markers mc; clusters := clusters mc;
     sizes := sizes mc; ready := b; prevZoom := prevZoom mc;
     clusterizerFunc := clusterizerFunc mc; timeouts := timeouts mc |}.

Definition set_prevZoom (z : Z) (mc : t) : t :=
  {| settings := settings mc; markers := markers mc; clusters := clusters mc;
     sizes := sizes mc; ready := ready mc; prevZoom := z;
     clusterizerFunc := clusterizerFunc mc; timeouts := timeouts mc |}.

Definition set_timeouts (ts : list (list (Cluster.t num))) (mc : t) : t :=
  {| settings := settings mc; markers := markers mc; clusters := clusters mc;
     sizes := sizes mc; ready := ready mc; prevZoom := prevZoom mc;
     clusterizerFunc := clusterizerFunc mc; timeouts := ts |}.

Definition MARKER_CLUSTER_IMAGE_EXTENSION_ : string := "png".
Definition MARKER_CLUSTER_IMAGE_PATH_ : string := "../images/m".

(** [x || d] on the other kinds of option values: [0], the empty string
    and [false] are falsy, an array never is. *)
Definition Z_or (x : option Z) (d : Z) : Z :=
  match x with
  | Some v => if v =? 0 then d else v
  | None => d
  end.

Definition string_or (x : option string) (d : string) : string :=
  match x with
  | Some EmptyString => d
  | Some v => v
  | None => d
  end.

Definition bool_or (x : option bool) (d : bool) : bool :=
  match x with
  | Some true => true
  | _ => d
  end.

Definition array_or {A} (x : option (list A)) (d : list A) : list A :=
  match x with
  | Some v => v
  | None => d
  end.

(** [options.maxZoom || null] *)
Definition maxZoom_or_null (x : option Z) : option Z :=
  match x with
  | Some v => if v =? 0 then None else Some v
  | None => None
  end.

(** [setupStyles]: one style per size when none was given. *)
Definition setupStyles (imagePath imageExtension : string) (sizes : list Z)
    (styles : list IconStyle) : list IconStyle :=
  if 0 <? Z.of_nat (List.length styles) then styles
  else
    styles ++
    List.map (fun '(idx, sizeNumber) =>
                {| url := String.append imagePath
                            (String.append
                               (NilEmpty.string_of_uint (Nat.to_uint (idx + 1)))
                               (String.append "." imageExtension));
                   height := sizeNumber; width := sizeNumber |})
             (combine (seq 0 (List.length sizes)) sizes).

(** [pushMarkerTo]; the [dragend] listener it registers is [on_dragend]. *)
Definition pushMarkerTo (marker : MarkerRef) (mc : t) (st : Store num)
  : t * Store num :=
  (set_markers (markers mc ++ [marker]) mc, set_isAdded marker false st).

Definition addToClosestCluster_ (host : Host num) (marker : MarkerRef)
    (mc : t) (st : Store num) : outcome (t * Store num) :=
  ' (cs, st) <- clusterizerFunc mc marker (clusters mc) (settings mc) host st ;;
  Returns (set_clusters cs mc, st).

Definition createClusters_ (host : Host num) (mc : t) (st : Store num)
  : outcome (t * Store num) :=
  if negb (ready mc) then Returns (mc, st)
  else
    let mapBounds :=
      {| getSouthWest := getSouthWest (getBounds host);
         getNorthEast := getNorthEast (getBounds host) |} in
    let bounds := getExtendedBounds host (settings mc) mapBounds in
    forEach
      (fun marker '(mc, st) =>
         if negb (isAdded (st marker))
            && isMarkerInBounds_ host st marker bounds
         then addToClosestCluster_ host marker mc st
         else Returns (mc, st))
      (markers mc) (mc, st).

Definition redraw (host : Host num) (mc : t) (st : Store num)
  : outcome (t * Store num) :=
  createClusters_ host mc st.

Definition addMarkers (host : Host num) (ms : list MarkerRef)
    (noRedraw : bool) (mc : t) (st : Store num) : outcome (t * Store num) :=
  let '(mc, st) :=
    fold_left (fun '(mc, st) marker => pushMarkerTo marker mc st) ms (mc, st) in
  if negb noRedraw then redraw host mc st else Returns (mc, st).

Definition addMarker (host : Host num) (marker : MarkerRef)
    (noRedraw : bool) (mc : t) (st : Store num) : outcome (t * Store num) :=
  let '(mc, st) := pushMarkerTo marker mc st in
  if negb noRedraw then redraw host mc st else Returns (mc, st).

Definition removeMarker_ (marker : MarkerRef) (mc : t) (st : Store num)
  : bool * t * Store num :=
  match indexOf (markers mc) marker with
  | None => (false, mc, st)
  | Some index =>
      let st := setMap marker None st in
      (true, set_markers (splice1 (markers mc) index) mc, st)
  end.

Definition resetViewport (hideMarker : bool) (mc : t) (st : Store num)
  : outcome (t * Store num) :=
  _ <- forEach (fun cluster (_ : unit) =>
                  _ <- Cluster.remove cluster ;; Returns tt)
         (clusters mc) tt ;;
  let st :=
    fold_left (fun st marker =>
                 let st := set_isAdded marker false st in
                 if hideMarker then setMap marker None st else st)
      (markers mc) st in
  Returns (set_clusters [] mc, st).

Definition removeMarker (host : Host num) (marker : MarkerRef)
    (noRedraw : bool) (mc : t) (st : Store num)
  : outcome (bool * t * Store num) :=
  let '(removed, mc, st) := removeMarker_ marker mc st in
  if negb noRedraw && removed then
    ' (mc, st) <- resetViewport false mc st ;;
    ' (mc, st) <- redraw host mc st ;;
    Returns (true, mc, st)
  else Returns (false, mc, st).

Definition removeMarkers (host : Host num) (ms : list MarkerRef)
    (noRedraw : bool) (mc : t) (st : Store num) : outcome (t * Store num) :=
  let '(removed, mc, st) :=
    fold_left (fun '(removed, mc, st) marker =>
                 let '(r, mc, st) := removeMarker_ marker mc st in
                 (removed || r, mc, st))
      ms (false, mc, st) in
  if negb noRedraw && removed then
    ' (mc, st) <- resetViewport false mc st ;;
    redraw host mc st
  else Returns (mc, st).

Definition setReady_ (host : Host num) (b : bool) (mc : t) (st : Store num)
  : outcome (t * Store num) :=
  if negb (ready mc) then createClusters_ host (set_ready b mc) st
  else Returns (mc, st).

Definition onAdd (host : Host num) (mc : t) (st : Store num)
  : outcome (t * Store num) :=
  setReady_ host true mc st.

Definition clearMarkers (mc : t) (st : Store num) : outcome (t * Store num) :=
  ' (mc, st) <- resetViewport true mc st ;;
  Returns (set_markers [] mc, st).

(** [repaint]; the callback given to [window.setTimeout] is queued. *)
Definition repaint (host : Host num) (mc : t) (st : Store num)
  : outcome (t * Store num) :=
  let oldClusters := clusters mc in
  let mc := set_clusters [] mc in
  ' (mc, st) <- resetViewport false mc st ;;
  ' (mc, st) <- redraw host mc st ;;
  Returns (set_timeouts (timeouts mc ++ [oldClusters]) mc, st).

(** The oldest queued callback runs: it removes its old clusters. *)
Definition run_timeout (mc : t) : outcome t :=
  match timeouts mc with
  | [] => Returns mc
  | oldClusters :: rest =>
      _ <- forEach (fun oldCluster (_ : unit) =>
                      _ <- Cluster.remove oldCluster ;; Returns tt)
             oldClusters tt ;;
      Returns (set_timeouts rest mc)
  end.

(** The listener of [zoom_changed]. *)
Definition on_zoom_changed (host : Host num) (mc : t) (st : Store num)
  : outcome (t * Store num) :=
  let zoom := getZoom host in
  if negb (prevZoom mc =? zoom) then
    resetViewport false (set_prevZoom zoom mc) st
  else Returns (mc, st).

(** The listener of [idle]. *)
Definition on_idle (host : Host num) (mc : t) (st : Store num)
  : outcome (t * Store num) :=
  redraw host mc st.

(** The listener of [dragend] on a draggable marker. *)
Definition on_dragend (host : Host num) (marker : MarkerRef) (mc : t)
    (st : Store num) : outcome (t * Store num) :=
  repaint host mc (set_isAdded marker false st).

Definition DEFAULT_gridSize : num := (#60)%num.
Definition DEFAULT_minClusterSize : Z := 2.
Definition DEFAULT_zoomOnClick : bool := true.
Definition DEFAULT_averageCenter : bool := true.

Definition constructor (host : Host num) (map : MapRef)
    (ms : list MarkerRef) (options : MarkerClustererOptions num)
    (sumCalculatorFunc : SumCalculatorFunc)
    (clusterizerFunc : ClusterizerFunc) (st : Store num)
  : outcome (t * Store num) :=
  let imagePath :=
    string_or (opt_imagePath options) MARKER_CLUSTER_IMAGE_PATH_ in
  let imageExtension :=
    string_or (opt_imageExtension options) MARKER_CLUSTER_IMAGE_EXTENSION_ in
  let sizes := [53; 56; 66; 78; 90] in
  let mc :=
    {| settings :=
         {| map := map;
            gridSize := num_or (opt_gridSize options) DEFAULT_gridSize;
            minClusterSize :=
              Z_or (opt_minClusterSize options) DEFAULT_minClusterSize;
            maxZoom := maxZoom_or_null (opt_maxZoom options);
            imagePath := imagePath;
            imageExtension := imageExtension;
            zoomOnClick :=
              bool_or (opt_zoomOnClick options) DEFAULT_zoomOnClick;
            averageCenter :=
              bool_or (opt_averageCenter options) DEFAULT_averageCenter;
            styles :=
              setupStyles imagePath imageExtension sizes
                (array_or (opt_styles options) []);
            sumCalculatorFunc := sumCalculatorFunc |};
       markers := []; clusters := []; sizes := sizes; ready := false;
       prevZoom := getZoom host; clusterizerFunc := clusterizerFunc;
       timeouts := [] |} in
  match ms with
  | [] => Returns (mc, st)
  | _ :: _ => addMarkers host ms false mc st
  end.

Definition isAverageCenter (mc : t) : bool := averageCenter (settings mc).
Definition getTotalClusters (mc : t) : Z := Z.of_nat (List.length (clusters mc)).
Definition getTotalMarkers (mc : t) : Z := Z.of_nat (List.length (markers mc)).

Definition setMaxZoom (maxZoom : option Z) (mc : t) : t :=
  let s := settings mc in
  set_settings
    {| map := map s; gridSize := gridSize s;
       minClusterSize := minClusterSize s; maxZoom := maxZoom;
       imagePath := imagePath s; imageExtension := imageExtension s;
       zoomOnClick := zoomOnClick s; averageCenter := averageCenter s;
       styles := styles s; sumCalculatorFunc := sumCalculatorFunc s |} mc.

End MarkerClusterer.
Arguments t : clear implicits.
Arguments ClusterizerFunc : clear implicits.
End MarkerClusterer.

(** ** A flat platform and series for [Math], to run the program on *)

Section FlatPlatform.
Context {num : Type} {N : Number num}.

Definition num_min (a b : num) : num := if (a <? b)%num then a else b.
Definition num_max (a b : num) : num := if (a <? b)%num then b else a.

(** A rectangle grows to hold the point; no wrap-around at the
    antimeridian. *)
Definition flat_extend (b : LatLngBounds num) (p : LatLng num)
  : LatLngBounds num :=
  {| getSouthWest :=
       {| lat := num_min (lat (getSouthWest b)) (lat p);
          lng := num_min (lng (getSouthWest b)) (lng p) |};
     getNorthEast :=
       {| lat := num_max (lat (getNorthEast b)) (lat p);
          lng := num_max (lng (getNorthEast b)) (lng p) |} |}.

Definition flat_contains (b : LatLngBounds num) (p : LatLng num) : bool :=
  num_leb (lat (getSouthWest b)) (lat p)
  && num_leb (lat p) (lat (getNorthEast b))
  && num_leb (lng (getSouthWest b)) (lng p)
  && num_leb (lng p) (lng (getNorthEast b)).

(** One pixel per degree, [y] growing to the south. *)
Definition flat_host (zoom : Z) (viewport : LatLngBounds num) : Host num :=
  {| fromLatLngToDivPixel :=
       fun p => {| pixel_x := lng p; pixel_y := (#0 - lat p)%num |};
     fromDivPixelToLatLng :=
       fun q => {| lat := (#0 - pixel_y q)%num; lng := pixel_x q |};
     extend := flat_extend;
     contains := flat_contains;
     getZoom := zoom;
     getBounds := viewport |}.

(** The store in which marker [i] is at the [i]-th position of the list,
    on no map, not added. *)
Definition store_of (positions : list (LatLng num)) : Store num :=
  fun marker =>
    {| position := nth marker positions {| lat := (#0)%num; lng := (#0)%num |};
       isAdded := false; draggable := false; marker_map := None |}.

(** A calculator that always returns: the count, in the first style. *)
Definition count_calculator : SumCalculatorFunc :=
  fun markers numStyles =>
    Some {| text := TextNumber (Z.of_nat (List.length markers));
            index := Z.min 1 numStyles |}.

End FlatPlatform.

(** [Math] on doubles by the first terms of the series, for arguments near
    zero ([atan2] for non-negative arguments). *)
Definition series_sin (x : float) : float :=
  (x - x * x * x / 6 + x * x * x * x * x / 120)%float.

Definition series_cos (x : float) : float :=
  (1 - x * x / 2 + x * x * x * x / 24)%float.

Definition series_atan (t : float) : float :=
  (t - t * t * t / 3 + t * t * t * t * t / 5)%float.

Definition float_PI : float := 0x1.921fb54442d18p+1%float.

Definition series_atan2 (y x : float) : float :=
  if (x =? 0)%float then
    if (y =? 0)%float then 0%float else (float_PI / 2)%float
  else
    let t := (y / x)%float in
    if (t <=? 1)%float then series_atan t
    else (float_PI / 2 - series_atan (1 / t))%float.

Definition Math_series : Math float := {|
  Math_PI := float_PI;
  Math_sin := series_sin;
  Math_cos := series_cos;
  Math_sqrt := PrimFloat.sqrt;
  Math_atan2 := series_atan2
|}.

(** * Properties *)

(** ** Lists of markers *)

Lemma indexOf_None (markers : list MarkerRef) (marker : MarkerRef) :
  indexOf markers marker = None <-> ~ In marker markers.
Proof.
  induction markers as [|m rest IH]; simpl.
  - tauto.
  - destruct (Nat.eqb_spec m marker) as [->|Hne].
    + split; [discriminate | intros H; exfalso; apply H; now left].
    + destruct (indexOf rest marker) eqn:E.
      * split; [discriminate|]. intros H. exfalso. apply H. right.
        destruct (in_dec Nat.eq_dec marker rest) as [Hin|Hnin]; [exact Hin|].
        apply IH in Hnin. discriminate.
      * split; [|reflexivity]. intros _ [Heq|Hin]; [congruence|].
        now apply IH in Hin.
Qed.

Lemma indexOf_Some (markers : list MarkerRef) (marker : MarkerRef) :
  In marker markers -> exists i, indexOf markers marker = Some i.
Proof.
  intros Hin. destruct (indexOf markers marker) as [i|] eqn:E.
  - now exists i.
  - apply indexOf_None in E. contradiction.
Qed.

Lemma splice1_incl (markers : list MarkerRef) (index : nat) :
  incl (splice1 markers index) markers.
Proof.
  revert index. induction markers as [|m rest IH]; intros [|i]; simpl.
  - apply incl_refl.
  - apply incl_refl.
  - apply incl_tl, incl_refl.
  - intros a [->|Ha]; [now left | right; now apply (IH i)].
Qed.

(** ** [Cluster] *)

Section ClusterFacts.
Context {num : Type} {N : Number num}.
Variable host : Host num.
Variable mc : Settings num.

(** The calculator of [mc] returns on the member list [markers]. *)
Definition calculator_returns (markers : list MarkerRef) : Prop :=
  sumCalculatorFunc mc markers (Z.of_nat (List.length (styles mc))) <> None.

(** [mz && zoom > mz] in [updateIcon]. *)
Definition beyond_maxZoom : bool :=
  match maxZoom mc with
  | Some mz => negb (mz =? 0) && (getZoom host >? mz)
  | None => false
  end.

(** Two clusters that differ in their icon only. *)
Definition same_but_icon (c c' : Cluster.t num) : Prop :=
  c' = Cluster.set_icon (Cluster.clusterIcon_ c') c.

Lemma same_but_icon_fields (c c' : Cluster.t num) :
  same_but_icon c c' ->
  Cluster.markers_ c' = Cluster.markers_ c
  /\ Cluster.center_ c' = Cluster.center_ c
  /\ Cluster.bounds_ c' = Cluster.bounds_ c
  /\ Cluster.minClusterSize_ c' = Cluster.minClusterSize_ c
  /\ Cluster.averageCenter_ c' = Cluster.averageCenter_ c
  /\ Cluster.map_ c' = Cluster.map_ c.
Proof. intros ->. now repeat split. Qed.

Lemma updateIcon_returns (c : Cluster.t num) (st : Store num)
    (markers : list MarkerRef) :
  Cluster.markers_ c = Some markers ->
  beyond_maxZoom = true
  \/ Z.of_nat (List.length markers) < Cluster.minClusterSize_ c
  \/ calculator_returns markers ->
  exists c' st',
    Cluster.updateIcon host mc c st = Returns (c', st')
    /\ same_but_icon c c'.
Proof.
  intros Hms Hret. unfold Cluster.updateIcon. rewrite Hms.
  fold beyond_maxZoom.
  destruct beyond_maxZoom.
  - eexists _, _. split; [reflexivity|]. now destruct c.
  - destruct (Z.ltb_spec (Z.of_nat (List.length markers))
                (Cluster.minClusterSize_ c)) as [Hlt|Hge].
    + eexists _, _. split; [reflexivity|]. reflexivity.
    + destruct Hret as [Hz|[Hlt|Hcalc]]; [discriminate | lia |].
      unfold calculator_returns in Hcalc.
      destruct (sumCalculatorFunc mc markers _); [|contradiction].
      eexists _, _. split; [reflexivity|]. reflexivity.
Qed.

Lemma addMarker_member (c : Cluster.t num) (marker : MarkerRef)
    (st : Store num) (markers : list MarkerRef) :
  Cluster.markers_ c = Some markers ->
  In marker markers ->
  Cluster.addMarker host mc c marker st = Returns (false, c, st).
Proof.
  intros Hms Hin. unfold Cluster.addMarker, Cluster.isMarkerAlreadyAdded.
  rewrite Hms. destruct (indexOf_Some _ _ Hin) as [i ->]. reflexivity.
Qed.

(** The center after [marker] has joined [c], whose members were
    [markers]. *)
Definition center_after (c : Cluster.t num) (markers : list MarkerRef)
    (pos : LatLng num) : LatLng num :=
  match Cluster.center_ c with
  | None => pos
  | Some center =>
      if Cluster.averageCenter_ c then
        let l := (#(Z.of_nat (List.length markers)) + #1)%num in
        {| lat := ((lat center * (l - #1) + lat pos) / l)%num;
           lng := ((lng center * (l - #1) + lng pos) / l)%num |}
      else center
  end.

(** The bounds after the join: computed anew from the new center when the
    center was set, left as they were otherwise. *)
Definition bounds_after (c : Cluster.t num) (markers : list MarkerRef)
    (pos : LatLng num) : option (LatLngBounds num) :=
  match Cluster.center_ c, Cluster.averageCenter_ c with
  | Some _, false => Cluster.bounds_ c
  | _, _ =>
      let center := center_after c markers pos in
      Some (getExtendedBounds host mc
              {| getSouthWest := center; getNorthEast := center |})
  end.

(** What [addMarker] does to the markers' maps before the icon is
    refreshed. *)
Definition shown_or_hidden (c : Cluster.t num) (markers : list MarkerRef)
    (marker : MarkerRef) (st : Store num) : Store num :=
  let len := Z.of_nat (List.length markers) in
  let st :=
    if (len <? Cluster.minClusterSize_ c)
       && negb (same_map (getMap st marker) (Some (Cluster.map_ c)))
    then setMap marker (Some (Cluster.map_ c)) st
    else st in
  let st :=
    if len =? Cluster.minClusterSize_ c
    then fold_left (fun st m => setMap m None st) markers st
    else st in
  if len >=? Cluster.minClusterSize_ c then setMap marker None st else st.

(** [addMarker] of a marker that is not a member, step by step. *)
Lemma addMarker_new (c : Cluster.t num) (marker : MarkerRef)
    (st : Store num) (markers : list MarkerRef) :
  Cluster.markers_ c = Some markers ->
  ~ In marker markers ->
  Cluster.addMarker host mc c marker st =
  (let members := markers ++ [marker] in
   let c1 :=
     Cluster.set_markers (Some members)
       (Cluster.set_bounds (bounds_after c markers (getPosition st marker))
          (Cluster.set_center
             (Some (center_after c markers (getPosition st marker))) c)) in
   ' (c2, st2) <-
       Cluster.updateIcon host mc c1
         (shown_or_hidden c members marker (set_isAdded marker true st)) ;;
   Returns (true, c2, st2)).
Proof.
  intros Hms Hnin. apply indexOf_None in Hnin.
  unfold Cluster.addMarker, Cluster.isMarkerAlreadyAdded.
  rewrite Hms, Hnin. cbn [bind].
  unfold center_after, bounds_after, shown_or_hidden,
    Cluster.calculateBounds_.
  destruct c as [m g k avg ctr ms bd ic]. cbn in Hms. subst ms. cbn.
  destruct ctr as [center|]; cbn; [destruct avg; cbn|]; reflexivity.
Qed.

End ClusterFacts.

(** ** Markers joining a cluster one after the other *)

Section Joins.
Context {num : Type} {N : Number num}.
Variable host : Host num.
Variable mc : Settings num.

(** [cluster.addMarker(m)] for every [m] of [ms], in this order. *)
Fixpoint joins (ms : list MarkerRef) (c : Cluster.t num) (st : Store num)
  : outcome (Cluster.t num * Store num) :=
  match ms with
  | [] => Returns (c, st)
  | m :: rest =>
      ' (_, c, st) <- Cluster.addMarker host mc c m st ;;
      joins rest c st
  end.

Lemma getPosition_setMap (m : MarkerRef) (v : option MapRef)
    (st : Store num) (r : MarkerRef) :
  getPosition (setMap m v st) r = getPosition st r.
Proof.
  unfold getPosition, setMap, update.
  destruct (Nat.eqb_spec r m) as [->|]; reflexivity.
Qed.

Lemma getPosition_set_isAdded (m : MarkerRef) (b : bool) (st : Store num)
    (r : MarkerRef) :
  getPosition (set_isAdded m b st) r = getPosition st r.
Proof.
  unfold getPosition, set_isAdded, update.
  destruct (Nat.eqb_spec r m) as [->|]; reflexivity.
Qed.

Lemma getPosition_fold_setMap (v : option MapRef) (ms : list MarkerRef)
    (st : Store num) (r : MarkerRef) :
  getPosition (fold_left (fun st m => setMap m v st) ms st) r
  = getPosition st r.
Proof.
  revert st. induction ms as [|m rest IH]; intros st; simpl.
  - reflexivity.
  - rewrite IH. apply getPosition_setMap.
Qed.

Lemma getPosition_shown_or_hidden (c : Cluster.t num)
    (ms : list MarkerRef) (m : MarkerRef) (st : Store num) (r : MarkerRef) :
  getPosition (shown_or_hidden c ms m st) r = getPosition st r.
Proof.
  unfold shown_or_hidden.
  repeat match goal with
         | |- context [if ?b then _ else _] => destruct b
         end;
    rewrite ?getPosition_setMap, ?getPosition_fold_setMap,
      ?getPosition_setMap; reflexivity.
Qed.

Lemma updateIcon_position (c c' : Cluster.t num) (st st' : Store num) :
  Cluster.updateIcon host mc c st = Returns (c', st') ->
  forall r, getPosition st' r = getPosition st r.
Proof.
  unfold Cluster.updateIcon. intros H r.
  destruct (Cluster.markers_ c) as [ms|]; [|discriminate].
  destruct (match maxZoom mc with Some _ => _ | None => _ end).
  - injection H as _ <-. apply getPosition_fold_setMap.
  - destruct (_ <? _).
    + now injection H as _ <-.
    + destruct (sumCalculatorFunc mc ms _); [|discriminate].
      now injection H as _ <-.
Qed.

Lemma addMarker_position (c c' : Cluster.t num) (m : MarkerRef) (b : bool)
    (st st' : Store num) :
  Cluster.addMarker host mc c m st = Returns (b, c', st') ->
  forall r, getPosition st' r = getPosition st r.
Proof.
  intros H r.
  destruct (Cluster.markers_ c) as [ms|] eqn:Hms.
  - destruct (in_dec Nat.eq_dec m ms) as [Hin|Hnin].
    + rewrite (addMarker_member host mc c m st ms Hms Hin) in H.
      now injection H as _ _ <-.
    + rewrite (addMarker_new host mc c m st ms Hms Hnin) in H.
      cbv zeta in H.
      destruct (Cluster.updateIcon _ _ _ _) as [[c2 st2]| |] eqn:E;
        try discriminate.
      cbn in H. injection H as _ _ <-.
      rewrite (updateIcon_position _ _ _ _ E).
      rewrite getPosition_shown_or_hidden. apply getPosition_set_isAdded.
  - unfold Cluster.addMarker, Cluster.isMarkerAlreadyAdded in H.
    rewrite Hms in H. discriminate.
Qed.

(** One more member: the outcome of [addMarker] when the icon refresh
    returns. *)
Lemma addMarker_joined (c : Cluster.t num) (m : MarkerRef) (st : Store num)
    (ms : list MarkerRef) :
  Cluster.markers_ c = Some ms ->
  ~ In m ms ->
  beyond_maxZoom host mc = true
  \/ Z.of_nat (List.length (ms ++ [m])) < Cluster.minClusterSize_ c
  \/ calculator_returns mc (ms ++ [m]) ->
  exists c' st',
    Cluster.addMarker host mc c m st = Returns (true, c', st')
    /\ Cluster.updateIcon host mc
         (Cluster.set_markers (Some (ms ++ [m]))
            (Cluster.set_bounds
               (bounds_after host mc c ms (getPosition st m))
               (Cluster.set_center
                  (Some (center_after c ms (getPosition st m))) c)))
         (shown_or_hidden c (ms ++ [m]) m (set_isAdded m true st))
       = Returns (c', st')
    /\ Cluster.markers_ c' = Some (ms ++ [m])
    /\ Cluster.center_ c' = Some (center_after c ms (getPosition st m))
    /\ Cluster.bounds_ c' = bounds_after host mc c ms (getPosition st m)
    /\ Cluster.minClusterSize_ c' = Cluster.minClusterSize_ c
    /\ Cluster.averageCenter_ c' = Cluster.averageCenter_ c
    /\ Cluster.map_ c' = Cluster.map_ c.
Proof.
  intros Hms Hnin Hret.
  rewrite (addMarker_new host mc c m st ms Hms Hnin). cbv zeta.
  match goal with
  | |- context [Cluster.updateIcon host mc ?c1 ?st1] =>
      destruct (updateIcon_returns host mc c1 st1 (ms ++ [m]) eq_refl Hret)
        as (c' & st' & Hupd & Hsame)
  end.
  exists c', st'. rewrite Hupd. split; [reflexivity|].
  split; [reflexivity|].
  apply same_but_icon_fields in Hsame. cbn in Hsame. tauto.
Qed.

End Joins.

(** ** The center as a mean, when nothing is rounded *)

Section AverageCenterR.
Variable host : Host R.
Variable mc : Settings R.

Definition sum_lat (ps : list (LatLng R)) : R :=
  fold_right Rplus 0%R (List.map lat ps).

Definition sum_lng (ps : list (LatLng R)) : R :=
  fold_right Rplus 0%R (List.map lng ps).

(** The arithmetic mean of the positions, component by component. *)
Definition mean (ps : list (LatLng R)) : LatLng R :=
  {| lat := (sum_lat ps / IZR (Z.of_nat (List.length ps)))%R;
     lng := (sum_lng ps / IZR (Z.of_nat (List.length ps)))%R |}.

Lemma sum_lat_app (ps qs : list (LatLng R)) :
  sum_lat (ps ++ qs) = (sum_lat ps + sum_lat qs)%R.
Proof.
  unfold sum_lat. induction ps as [|p ps IH]; simpl.
  - lra.
  - rewrite IH. lra.
Qed.

Lemma sum_lng_app (ps qs : list (LatLng R)) :
  sum_lng (ps ++ qs) = (sum_lng ps + sum_lng qs)%R.
Proof.
  unfold sum_lng. induction ps as [|p ps IH]; simpl.
  - lra.
  - rewrite IH. lra.
Qed.

Lemma sum_lat_perm (ps qs : list (LatLng R)) :
  Permutation ps qs -> sum_lat ps = sum_lat qs.
Proof.
  unfold sum_lat. induction 1; simpl; first [lra | congruence].
Qed.

Lemma sum_lng_perm (ps qs : list (LatLng R)) :
  Permutation ps qs -> sum_lng ps = sum_lng qs.
Proof.
  unfold sum_lng. induction 1; simpl; first [lra | congruence].
Qed.

Lemma mean_perm (ps qs : list (LatLng R)) :
  Permutation ps qs -> mean ps = mean qs.
Proof.
  intros H. unfold mean.
  rewrite (sum_lat_perm _ _ H), (sum_lng_perm _ _ H),
    (Permutation_length H).
  reflexivity.
Qed.

(** The incremental mean of [addMarker] keeps the center at the mean. *)
Lemma center_after_mean (c : Cluster.t R) (ps : list (LatLng R))
    (ms : list MarkerRef) (p : LatLng R) :
  List.length ms = List.length ps ->
  Cluster.averageCenter_ c = true ->
  Cluster.center_ c = match ps with [] => None | _ => Some (mean ps) end ->
  center_after c ms p = mean (ps ++ [p]).
Proof.
  intros Hlen Havg Hc. unfold center_after. rewrite Hc, Havg.
  destruct ps as [|q ps].
  - unfold mean, sum_lat, sum_lng. destruct p as [a b]. cbn. f_equal; field.
  - cbn iota.
    assert (Hn : (0 < IZR (Z.of_nat (List.length (q :: ps))))%R).
    { apply IZR_lt. cbn [List.length]. lia. }
    remember (q :: ps) as qs eqn:Hqs. clear Hqs Hc.
    unfold mean. rewrite sum_lat_app, sum_lng_app, length_app.
    cbn [List.length Nat.add]. rewrite Nat.add_1_r, Nat2Z.inj_succ, succ_IZR.
    rewrite Hlen. cbn [num_add num_sub num_mul num_div num_of_Z Number_R].
    cbn [lat lng]. unfold sum_lat, sum_lng. cbn [List.map fold_right].
    set (n := IZR (Z.of_nat (List.length qs))) in *.
    f_equal; field; lra.
Qed.

(** Markers that are not members yet join one after the other: all the
    calls return, and the center ends at the mean of all positions. *)
Lemma joins_mean (rest : list MarkerRef) :
  forall (prefix : list MarkerRef) (c : Cluster.t R) (st : Store R),
  Cluster.markers_ c = Some prefix ->
  Cluster.averageCenter_ c = true ->
  Cluster.center_ c =
    match prefix with
    | [] => None
    | _ => Some (mean (List.map (getPosition st) prefix))
    end ->
  NoDup (prefix ++ rest) ->
  (forall k, calculator_returns mc (prefix ++ firstn k rest)) ->
  exists c' st',
    joins host mc rest c st = Returns (c', st')
    /\ Cluster.markers_ c' = Some (prefix ++ rest)
    /\ Cluster.center_ c' =
         match prefix ++ rest with
         | [] => None
         | _ => Some (mean (List.map (getPosition st) (prefix ++ rest)))
         end.
Proof.
  induction rest as [|m rest IH]; intros prefix c st Hms Havg Hc Hnd Hcalc.
  - exists c, st. rewrite app_nil_r. now repeat split.
  - assert (Hnin : ~ In m prefix).
    { intros Hin. apply NoDup_remove_2 in Hnd. apply Hnd.
      apply in_or_app. now left. }
    destruct (addMarker_joined host mc c m st prefix Hms Hnin)
      as (c1 & st1 & Hadd & _ & Hms1 & Hc1 & _ & _ & Havg1 & _).
    { right. right. apply (Hcalc 1%nat). }
    cbn [joins]. rewrite Hadd. cbn [bind].
    assert (Hpos : forall r, getPosition st1 r = getPosition st r)
      by (apply (addMarker_position host mc _ _ _ _ _ _ Hadd)).
    destruct (IH (prefix ++ [m]) c1 st1) as (c' & st' & Hj & Hms' & Hc').
    + exact Hms1.
    + congruence.
    + rewrite Hc1.
      rewrite (center_after_mean c (List.map (getPosition st) prefix)
                 prefix (getPosition st m)).
      * rewrite (map_ext _ _ Hpos), map_app. cbn [List.map].
        destruct prefix; reflexivity.
      * now rewrite length_map.
      * exact Havg.
      * rewrite Hc. now destruct prefix.
    + now rewrite <- app_assoc.
    + intros k. rewrite <- app_assoc. apply (Hcalc (S k)).
    + exists c', st'. rewrite <- app_assoc in Hms', Hc'. cbn [app] in *.
      split; [exact Hj|]. split; [exact Hms'|].
      rewrite Hc'. destruct (prefix ++ m :: rest); [reflexivity|].
      now rewrite (map_ext _ _ Hpos).
Qed.

End AverageCenterR.

(** ** Which markers are on the map *)

Section Visibility.
Context {num : Type} {N : Number num}.
Variable host : Host num.
Variable mc : Settings num.

Lemma getMap_setMap_same (m : MarkerRef) (v : option MapRef)
    (st : Store num) :
  getMap (setMap m v st) m = v.
Proof. unfold getMap, setMap, update. now rewrite Nat.eqb_refl. Qed.

Lemma getMap_setMap_other (m r : MarkerRef) (v : option MapRef)
    (st : Store num) :
  r <> m -> getMap (setMap m v st) r = getMap st r.
Proof.
  intros Hne. unfold getMap, setMap, update.
  now destruct (Nat.eqb_spec r m).
Qed.

Lemma getMap_set_isAdded (m r : MarkerRef) (b : bool) (st : Store num) :
  getMap (set_isAdded m b st) r = getMap st r.
Proof.
  unfold getMap, set_isAdded, update.
  destruct (Nat.eqb_spec r m) as [->|]; reflexivity.
Qed.

Lemma getMap_fold_setMap (v : option MapRef) (ms : list MarkerRef)
    (st : Store num) (r : MarkerRef) :
  getMap (fold_left (fun st m => setMap m v st) ms st) r
  = if in_dec Nat.eq_dec r ms then v else getMap st r.
Proof.
  revert st. induction ms as [|m rest IH]; intros st; cbn [fold_left].
  - reflexivity.
  - rewrite IH.
    destruct (in_dec Nat.eq_dec r rest) as [Hr|Hr];
      destruct (in_dec Nat.eq_dec r (m :: rest)) as [Hm|Hm];
      try reflexivity.
    + exfalso. apply Hm. now right.
    + destruct Hm as [->|Hin]; [apply getMap_setMap_same | contradiction].
    + apply getMap_setMap_other. intros ->. apply Hm. now left.
Qed.

Lemma same_map_true (a : option MapRef) (m : MapRef) :
  same_map a (Some m) = true -> a = Some m.
Proof.
  destruct a as [m'|]; cbn; [|discriminate].
  intros H. apply Nat.eqb_eq in H. now subst.
Qed.

(** The refresh of the icon when the zoom is not beyond the maximum. *)
Lemma updateIcon_within (c : Cluster.t num) (st : Store num)
    (ms : list MarkerRef) :
  Cluster.markers_ c = Some ms ->
  beyond_maxZoom host mc = false ->
  Z.of_nat (List.length ms) < Cluster.minClusterSize_ c
  \/ calculator_returns mc ms ->
  exists c',
    Cluster.updateIcon host mc c st = Returns (c', st)
    /\ same_but_icon c c'
    /\ ClusterIcon.visible_ (Cluster.clusterIcon_ c')
       = negb (Z.of_nat (List.length ms) <? Cluster.minClusterSize_ c).
Proof.
  intros Hms Hz Hret. unfold Cluster.updateIcon. rewrite Hms.
  fold (beyond_maxZoom host mc). rewrite Hz.
  destruct (Z.ltb_spec (Z.of_nat (List.length ms))
              (Cluster.minClusterSize_ c)) as [Hlt|Hge].
  - eexists. repeat split.
  - destruct Hret as [Hlt|Hcalc]; [lia|].
    unfold calculator_returns in Hcalc.
    destruct (sumCalculatorFunc mc ms _); [|contradiction].
    eexists. repeat split.
Qed.

(** What is on the map once the members [ms] have joined a cluster with
    threshold [k] on map [map]: below the threshold every member and no
    icon, from the threshold on the icon and no member. *)
Definition crisp (k : Z) (map : MapRef) (ms : list MarkerRef)
    (c : Cluster.t num) (st : Store num) : Prop :=
  (Z.of_nat (List.length ms) < k ->
   (forall m, In m ms -> getMap st m = Some map)
   /\ ClusterIcon.visible_ (Cluster.clusterIcon_ c) = false)
  /\ (k <= Z.of_nat (List.length ms) -> ms <> [] ->
      (forall m, In m ms -> getMap st m = None)
      /\ ClusterIcon.visible_ (Cluster.clusterIcon_ c) = true).

Lemma addMarker_crisp (c : Cluster.t num) (m : MarkerRef) (st : Store num)
    (ms : list MarkerRef) :
  Cluster.markers_ c = Some ms ->
  ~ In m ms ->
  beyond_maxZoom host mc = false ->
  calculator_returns mc (ms ++ [m]) ->
  crisp (Cluster.minClusterSize_ c) (Cluster.map_ c) ms c st ->
  exists c' st',
    Cluster.addMarker host mc c m st = Returns (true, c', st')
    /\ Cluster.markers_ c' = Some (ms ++ [m])
    /\ Cluster.minClusterSize_ c' = Cluster.minClusterSize_ c
    /\ Cluster.map_ c' = Cluster.map_ c
    /\ crisp (Cluster.minClusterSize_ c) (Cluster.map_ c) (ms ++ [m]) c' st'.
Proof.
  intros Hms Hnin Hz Hcalc [Hbelow Habove].
  destruct (addMarker_joined host mc c m st ms Hms Hnin)
    as (c' & st' & Hadd & Hupd & Hms' & _ & _ & Hk & _ & Hmap).
  { right. right. exact Hcalc. }
  exists c', st'. split; [exact Hadd|]. split; [exact Hms'|].
  split; [exact Hk|]. split; [exact Hmap|].
  match type of Hupd with
  | Cluster.updateIcon _ _ ?c1 ?st1 = _ =>
      destruct (updateIcon_within c1 st1 (ms ++ [m]) eq_refl Hz)
        as (c'' & Hupd' & _ & Hvis); [now right|];
      rewrite Hupd in Hupd'; injection Hupd' as <- Hst
  end.
  cbn [Cluster.minClusterSize_ Cluster.set_markers Cluster.set_bounds
       Cluster.set_center] in Hvis.
  set (k := Cluster.minClusterSize_ c) in *.
  set (map := Cluster.map_ c) in *.
  assert (Hlen : Z.of_nat (List.length (ms ++ [m]))
                 = Z.of_nat (List.length ms) + 1)
    by (rewrite length_app; cbn [List.length]; lia).
  unfold shown_or_hidden in Hst. fold k map in Hst.
  split.
  - intros Hlt. rewrite Hvis.
    destruct (Z.ltb_spec (Z.of_nat (List.length (ms ++ [m]))) k); [|lia].
    split; [|reflexivity].
    destruct (Z.eqb_spec (Z.of_nat (List.length (ms ++ [m]))) k); [lia|].
    destruct (Z.geb_spec (Z.of_nat (List.length (ms ++ [m]))) k); [lia|].
    cbn [andb] in Hst.
    intros r Hr. apply in_app_or in Hr.
    destruct Hr as [Hr|[<-|[]]].
    + assert (Hne : r <> m) by (intros ->; contradiction).
      destruct (Hbelow ltac:(lia)) as [Hshown _].
      rewrite Hst.
      destruct (negb _).
      * rewrite getMap_setMap_other, getMap_set_isAdded by exact Hne.
        now apply Hshown.
      * rewrite getMap_set_isAdded. now apply Hshown.
    + rewrite Hst.
      destruct (same_map (getMap (set_isAdded m true st) m) (Some map))
        eqn:Esame; cbn [negb].
      * now apply same_map_true.
      * apply getMap_setMap_same.
  - intros Hge _. rewrite Hvis.
    destruct (Z.ltb_spec (Z.of_nat (List.length (ms ++ [m]))) k); [lia|].
    split; [|reflexivity].
    destruct (Z.geb_spec (Z.of_nat (List.length (ms ++ [m]))) k); [|lia].
    cbn [andb] in Hst.
    intros r Hr. rewrite Hst.
    destruct (Nat.eq_dec r m) as [->|Hne]; [apply getMap_setMap_same|].
    rewrite getMap_setMap_other by exact Hne.
    destruct (Z.eqb_spec (Z.of_nat (List.length (ms ++ [m]))) k) as [He|He].
    + rewrite getMap_fold_setMap.
      destruct (in_dec Nat.eq_dec r (ms ++ [m])); [reflexivity|contradiction].
    + rewrite getMap_set_isAdded.
      apply in_app_or in Hr. destruct Hr as [Hr|[<-|[]]]; [|contradiction].
      destruct (Habove ltac:(lia)) as [Hhidden _].
      * intros ->. destruct Hr.
      * now apply Hhidden.
Qed.

Lemma joins_crisp (rest : list MarkerRef) :
  forall (prefix : list MarkerRef) (c : Cluster.t num) (st : Store num),
  Cluster.markers_ c = Some prefix ->
  NoDup (prefix ++ rest) ->
  beyond_maxZoom host mc = false ->
  (forall j, calculator_returns mc (prefix ++ firstn j rest)) ->
  crisp (Cluster.minClusterSize_ c) (Cluster.map_ c) prefix c st ->
  exists c' st',
    joins host mc rest c st = Returns (c', st')
    /\ Cluster.markers_ c' = Some (prefix ++ rest)
    /\ crisp (Cluster.minClusterSize_ c) (Cluster.map_ c) (prefix ++ rest)
         c' st'.
Proof.
  induction rest as [|m rest IH]; intros prefix c st Hms Hnd Hz Hcalc Hcrisp.
  - exists c, st. rewrite app_nil_r.
    split; [reflexivity|]. split; [exact Hms | exact Hcrisp].
  - assert (Hnin : ~ In m prefix).
    { intros Hin. apply NoDup_remove_2 in Hnd. apply Hnd.
      apply in_or_app. now left. }
    destruct (addMarker_crisp c m st prefix Hms Hnin Hz (Hcalc 1%nat) Hcrisp)
      as (c1 & st1 & Hadd & Hms1 & Hk & Hmap & Hcrisp1).
    cbn [joins]. rewrite Hadd. cbn [bind].
    destruct (IH (prefix ++ [m]) c1 st1) as (c' & st' & Hj & Hms' & Hc').
    + exact Hms1.
    + now rewrite <- app_assoc.
    + exact Hz.
    + intros j. rewrite <- app_assoc. apply (Hcalc (S j)).
    + now rewrite Hk, Hmap.
    + exists c', st'. rewrite <- app_assoc in Hms', Hc'.
      rewrite Hk, Hmap in Hc'.
      split; [exact Hj|]. split; [exact Hms' | exact Hc'].
Qed.

End Visibility.

(** ** The order of doubles and of real numbers *)

Ltac compare_cases :=
  repeat match goal with
         | H : context [Z.compare ?a ?b] |- _ =>
             destruct (Z.compare_spec a b); try subst
         | |- context [Z.compare ?a ?b] =>
             destruct (Z.compare_spec a b); try subst
         | H : context [Pos.compare_cont Eq ?a ?b] |- _ =>
             change (Pos.compare_cont Eq a b) with (Pos.compare a b) in H;
             destruct (Pos.compare_spec a b); try subst
         | |- context [Pos.compare_cont Eq ?a ?b] =>
             change (Pos.compare_cont Eq a b) with (Pos.compare a b);
             destruct (Pos.compare_spec a b); try subst
         end.

Lemma SFltb_irrefl (x : spec_float) : SFltb x x = false.
Proof.
  unfold SFltb, SFcompare.
  destruct x as [s|s| |s m e]; try destruct s; try reflexivity;
    rewrite Z.compare_refl;
    change (Pos.compare_cont Eq m m) with (Pos.compare m m);
    rewrite Pos.compare_refl; reflexivity.
Qed.

Lemma SFltb_trans (x y z : spec_float) :
  SFltb x y = true -> SFltb y z = true -> SFltb x z = true.
Proof.
  unfold SFltb, SFcompare.
  destruct x as [sx|sx| |sx mx ex]; destruct y as [sy|sy| |sy my ey];
    destruct z as [sz|sz| |sz mz ez];
    try destruct sx; try destruct sy; try destruct sz;
    cbn; try discriminate; try reflexivity;
    intros H1 H2; compare_cases; cbn in *;
      try discriminate; try reflexivity; try lia.
Qed.

Lemma SFeqb_ltb (x y z : spec_float) :
  SFeqb x y = true -> SFltb y z = true -> SFltb x z = true.
Proof.
  unfold SFeqb, SFltb, SFcompare.
  destruct x as [sx|sx| |sx mx ex]; destruct y as [sy|sy| |sy my ey];
    destruct z as [sz|sz| |sz mz ez];
    try destruct sx; try destruct sy; try destruct sz;
    cbn; try discriminate; try reflexivity;
    intros H1 H2; compare_cases; cbn in *;
      try discriminate; try reflexivity; try lia.
Qed.

#[export] Instance NumberOrder_float : NumberOrder float.
Proof.
  split; cbn [num_ltb num_eqb Number_float]; intros;
    rewrite ?ltb_spec, ?eqb_spec in *.
  - apply SFltb_irrefl.
  - eapply SFltb_trans; eassumption.
  - eapply SFeqb_ltb; eassumption.
Qed.

#[export] Instance NumberOrder_R : NumberOrder R.
Proof.
  split; cbn [num_ltb num_eqb Number_R]; unfold R_ltb, R_eqb; intros.
  - destruct (Rlt_dec a a); [lra | reflexivity].
  - destruct (Rlt_dec a b), (Rlt_dec b c), (Rlt_dec a c);
      try discriminate; try reflexivity; lra.
  - destruct (Req_dec_T a b), (Rlt_dec b c), (Rlt_dec a c);
      try discriminate; try reflexivity; lra.
Qed.

(** [Math] on the real numbers. [Math.atan2(y, x)] is the angle of the
    point [(x, y)]. *)
Definition R_atan2 (y x : R) : R :=
  if Rlt_dec 0 x then atan (y / x)
  else if Rlt_dec x 0 then
    if Rle_dec 0 y then (atan (y / x) + PI)%R else (atan (y / x) - PI)%R
  else if Rlt_dec 0 y then (PI / 2)%R
  else if Rlt_dec y 0 then (- PI / 2)%R
  else 0%R.

Definition Math_R : Math R := {|
  Math_PI := PI;
  Math_sin := sin;
  Math_cos := cos;
  Math_sqrt := sqrt;
  Math_atan2 := R_atan2
|}.

Lemma R_atan2_quadrant (y x : R) :
  (0 <= y)%R -> (0 <= x)%R -> (0 <= R_atan2 y x <= PI / 2)%R.
Proof.
  intros Hy Hx. unfold R_atan2. pose proof PI_RGT_0 as Hpi.
  destruct (Rlt_dec 0 x) as [Hpos|Hnpos].
  - pose proof (atan_bound (y / x)) as [_ Hub].
    split; [|lra].
    destruct (Req_dec_T y 0) as [->|Hne].
    + unfold Rdiv. rewrite Rmult_0_l, atan_0. lra.
    + rewrite <- atan_0. apply Rlt_le, atan_increasing.
      apply Rdiv_lt_0_compat; lra.
  - destruct (Rlt_dec x 0); [lra|].
    destruct (Rlt_dec 0 y); [lra|].
    destruct (Rlt_dec y 0); lra.
Qed.

(** The haversine distance of any two points is below the 40000 the
    running minimum of the default clusterizer starts at: it is at most
    half the circumference, [6371 * PI]. *)
Lemma distance_below_40000 (p1 p2 : LatLng R) :
  (MarkerClusterer.distanceBetweenPoints (M := Math_R) (Some p1) (Some p2)
   < 40000)%R.
Proof.
  unfold MarkerClusterer.distanceBetweenPoints.
  cbn [num_add num_sub num_mul num_div num_of_Z Number_R
       Math_PI Math_sin Math_cos Math_sqrt Math_atan2 Math_R].
  match goal with
  | |- (_ * (2 * R_atan2 ?y ?x) < _)%R =>
      pose proof (R_atan2_quadrant y x (sqrt_pos _) (sqrt_pos _)) as [_ H]
  end.
  pose proof PI_4. lra.
Qed.

(** ** Clusters that can take a marker *)

Section WellFormed.
Context {num : Type} {N : Number num}.
Variable host : Host num.
Variable mc : Settings num.

(** [remove()] has not been called on the cluster. *)
Definition live (c : Cluster.t num) : Prop :=
  exists ms, Cluster.markers_ c = Some ms.

(** A cluster as [new Cluster] and [addMarker] leave it: not removed, and
    with bounds as soon as it has a center. *)
Definition well_formed (c : Cluster.t num) : Prop :=
  live c /\ (Cluster.center_ c <> None -> Cluster.bounds_ c <> None).

(** Every member of the cluster is among [all]. *)
Definition members_within (all : list MarkerRef) (c : Cluster.t num) : Prop :=
  forall ms, Cluster.markers_ c = Some ms -> incl ms all.

Lemma new_well_formed : well_formed (Cluster.new mc).
Proof. split; [now exists [] | intros H; now elim H]. Qed.

Lemma addMarker_well_formed (c : Cluster.t num) (marker : MarkerRef)
    (st : Store num) :
  well_formed c ->
  (forall ms, Cluster.markers_ c = Some ms ->
              calculator_returns mc (ms ++ [marker])) ->
  exists ok c' st',
    Cluster.addMarker host mc c marker st = Returns (ok, c', st')
    /\ well_formed c'
    /\ (exists ms', Cluster.markers_ c' = Some ms' /\ In marker ms')
    /\ (forall ms ms',
          Cluster.markers_ c = Some ms -> Cluster.markers_ c' = Some ms' ->
          incl ms' (ms ++ [marker])).
Proof.
  intros [[ms Hms] Hbounds] Hcalc.
  destruct (in_dec Nat.eq_dec marker ms) as [Hin|Hnin].
  - exists false, c, st.
    rewrite (addMarker_member host mc c marker st ms Hms Hin).
    split; [reflexivity|]. split; [split; [now exists ms | exact Hbounds]|].
    split; [now exists ms|].
    intros ms0 ms' H0 H'. rewrite Hms in H0, H'.
    injection H0 as <-. injection H' as <-. now apply incl_appl, incl_refl.
  - destruct (addMarker_joined host mc c marker st ms Hms Hnin)
      as (c' & st' & Hadd & _ & Hms' & Hc' & Hb' & _).
    { right. right. now apply Hcalc. }
    exists true, c', st'. split; [exact Hadd|]. split.
    + split; [now exists (ms ++ [marker])|].
      intros _. rewrite Hb'. unfold bounds_after.
      destruct (Cluster.center_ c) eqn:Ec;
        [destruct (Cluster.averageCenter_ c)|]; try discriminate.
      apply Hbounds. discriminate.
    + split.
      * exists (ms ++ [marker]). split; [exact Hms'|].
        apply in_or_app. right. now left.
      * intros ms0 ms' H0 H'. rewrite Hms in H0. rewrite Hms' in H'.
        injection H0 as <-. injection H' as <-. apply incl_refl.
Qed.

End WellFormed.

(** ** The nearest cluster *)

Section Nearest.
Context {num : Type} {N : Number num} {Ord : NumberOrder num} {M : Math num}.

(** The distance from the center of a cluster to [pos], as the loop of
    the default clusterizer computes it. *)
Definition distance_to (pos : LatLng num) (c : Cluster.t num) : num :=
  MarkerClusterer.distanceBetweenPoints (Cluster.getCenter c) (Some pos).

Lemma num_ltb_asym (a b : num) :
  (a <? b)%num = true -> (b <? a)%num = false.
Proof.
  intros H. destruct (b <? a)%num eqn:E; [|reflexivity].
  rewrite <- (num_ltb_irrefl a). symmetry.
  now apply (num_ltb_trans a b a).
Qed.

Lemma num_eqb_not_ltb (a b : num) :
  (a =? b)%num = true -> (b <? a)%num = false.
Proof.
  intros H. destruct (b <? a)%num eqn:E; [|reflexivity].
  rewrite <- (num_ltb_irrefl a). symmetry.
  now apply (num_eqb_ltb a b a).
Qed.

(** What the loop leaves in [distance] and [clusterToAddTo]: either what
    they held, and no cluster with a center is closer than [distance]; or a
    cluster with a center that is closer than [distance] was, than which no
    cluster with a center is closer, and from which every cluster before
    it is at another distance. *)
Lemma nearest_spec (pos : LatLng num) (clusters : list (Cluster.t num)) :
  forall (i0 : nat) (d0 : num) (best0 : option nat) (d : num)
    (best : option nat),
  MarkerClusterer.nearest pos clusters i0 d0 best0 = (d, best) ->
  (d = d0 /\ best = best0
   /\ forall c, In c clusters -> Cluster.center_ c <> None ->
                (distance_to pos c <? d0)%num = false)
  \/ (exists j c,
        best = Some (i0 + j)%nat
        /\ nth_error clusters j = Some c
        /\ Cluster.center_ c <> None
        /\ d = distance_to pos c
        /\ (d <? d0)%num = true
        /\ (forall c', In c' clusters -> Cluster.center_ c' <> None ->
                       (distance_to pos c' <? d)%num = false)
        /\ (forall j' c', (j' < j)%nat -> nth_error clusters j' = Some c' ->
                          Cluster.center_ c' <> None ->
                          (distance_to pos c' =? d)%num = false)).
Proof.
  induction clusters as [|c rest IH]; intros i0 d0 best0 d best H.
  - cbn in H. injection H as <- <-. left. repeat split. intros c [].
  - cbn [MarkerClusterer.nearest] in H.
    unfold Cluster.getCenter in H.
    destruct (Cluster.center_ c) as [center|] eqn:Ec.
    + fold (Cluster.getCenter c) in H. rewrite <- Ec in H.
      change (MarkerClusterer.distanceBetweenPoints (Cluster.center_ c)
                (Some pos)) with (distance_to pos c) in H.
      destruct (distance_to pos c <? d0)%num eqn:Elt.
      * apply IH in H.
        destruct H as [(-> & -> & Hrest)
                      |(j & c' & -> & Hnth & Hc' & -> & Hlt & Hmin & Hfirst)].
        -- right. exists 0%nat, c. rewrite Nat.add_0_r.
           repeat split; try assumption; try congruence.
           ++ intros c' [<-|Hin] Hc'; [apply num_ltb_irrefl|].
              now apply Hrest.
           ++ intros j' c' Hj'. lia.
        -- right. exists (S j), c'.
           rewrite Nat.add_succ_r. repeat split; try assumption.
           ++ now apply (num_ltb_trans _ (distance_to pos c)).
           ++ intros c'' [<-|Hin] Hc''; [now apply num_ltb_asym|].
              now apply Hmin.
           ++ intros [|j'] c'' Hj' Hnth' Hc''.
              ** cbn in Hnth'. injection Hnth' as <-.
                 destruct (distance_to pos c =? distance_to pos c')%num
                   eqn:E; [|reflexivity].
                 apply num_eqb_not_ltb in E. congruence.
              ** cbn in Hnth'. apply (Hfirst j'); [lia|assumption..].
      * apply IH in H.
        destruct H as [(-> & -> & Hrest)
                      |(j & c' & -> & Hnth & Hc' & -> & Hlt & Hmin & Hfirst)].
        -- left. repeat split.
           intros c' [<-|Hin] Hc'; [exact Elt | now apply Hrest].
        -- right. exists (S j), c'.
           rewrite Nat.add_succ_r. repeat split; try assumption.
           ++ intros c'' [<-|Hin] Hc''; [|now apply Hmin].
              destruct (distance_to pos c <? distance_to pos c')%num
                eqn:E; [|reflexivity].
              rewrite <- Elt. symmetry.
              now apply (num_ltb_trans _ (distance_to pos c')).
           ++ intros [|j'] c'' Hj' Hnth' Hc''.
              ** cbn in Hnth'. injection Hnth' as <-.
                 destruct (distance_to pos c =? distance_to pos c')%num
                   eqn:E; [|reflexivity].
                 rewrite <- Elt. symmetry.
                 now apply (num_eqb_ltb _ (distance_to pos c')).
              ** cbn in Hnth'. apply (Hfirst j'); [lia|assumption..].
    + apply IH in H.
      destruct H as [(-> & -> & Hrest)
                    |(j & c' & -> & Hnth & Hc' & -> & Hlt & Hmin & Hfirst)].
      * left. repeat split.
        intros c' [<-|Hin] Hc'; [congruence | now apply Hrest].
      * right. exists (S j), c'.
        rewrite Nat.add_succ_r. repeat split; try assumption.
        -- intros c'' [<-|Hin] Hc''; [congruence | now apply Hmin].
        -- intros [|j'] c'' Hj' Hnth' Hc''.
           ++ cbn in Hnth'. injection Hnth' as <-. congruence.
           ++ cbn in Hnth'. apply (Hfirst j'); [lia|assumption..].
Qed.

End Nearest.

(** ** The default clusterizer *)

Section DefaultClusterizer.
Context {num : Type} {N : Number num} {Ord : NumberOrder num} {M : Math num}.
Variable host : Host num.
Variable mc : Settings num.

Lemma replace_nth_In {A} (l : list A) :
  forall (i : nat) (a b : A),
  nth_error l i = Some b -> In a (MarkerClusterer.replace_nth i a l).
Proof.
  induction l as [|x l IH]; intros [|i] a b H; cbn in *; try discriminate.
  - now left.
  - right. now apply (IH i a b).
Qed.

Lemma replace_nth_Forall {A} (P : A -> Prop) (l : list A) :
  forall (i : nat) (a : A),
  Forall P l -> P a -> Forall P (MarkerClusterer.replace_nth i a l).
Proof.
  induction l as [|x l IH]; intros [|i] a Hl Ha; cbn; try constructor;
    inversion Hl; subst; auto.
Qed.

(** A new cluster is made for [marker] and pushed to the array. *)
Definition joins_new_cluster (clusters clusters' : list (Cluster.t num))
    (marker : MarkerRef) (st st' : Store num) : Prop :=
  exists c',
    Cluster.addMarker host mc (Cluster.new mc) marker st
    = Returns (true, c', st')
    /\ Cluster.markers_ c' = Some [marker]
    /\ clusters' = clusters ++ [c'].

(** [clusterToAddTo] after the loop over [clusters] for a marker at [pos]:
    [Some i] when the cluster at position [i] has a center nearer to [pos]
    than 40000, no cluster with a center is nearer to [pos], and every
    cluster with a center before it is at another distance; [None] when no
    cluster with a center is nearer to [pos] than 40000. *)
Definition first_nearest (pos : LatLng num) (clusters : list (Cluster.t num))
    (clusterToAddTo : option nat) : Prop :=
  match clusterToAddTo with
  | Some i =>
      exists c,
        nth_error clusters i = Some c
        /\ Cluster.center_ c <> None
        /\ (distance_to pos c <? #40000)%num = true
        /\ (forall c', In c' clusters -> Cluster.center_ c' <> None ->
              (distance_to pos c' <? distance_to pos c)%num = false)
        /\ (forall j c', (j < i)%nat -> nth_error clusters j = Some c' ->
              Cluster.center_ c' <> None ->
              (distance_to pos c' =? distance_to pos c)%num = false)
  | None =>
      forall c, In c clusters -> Cluster.center_ c <> None ->
        (distance_to pos c <? #40000)%num = false
  end.

(** What becomes of [clusters] and the markers: the cluster chosen takes
    [marker] by [addMarker] when [marker] is in its bounds, and a new cluster
    is made and pushed otherwise. *)
Definition added_or_created (clusters : list (Cluster.t num))
    (marker : MarkerRef) (st : Store num) (clusterToAddTo : option nat)
    (clusters' : list (Cluster.t num)) (st' : Store num) : Prop :=
  match clusterToAddTo with
  | Some i =>
      exists c,
        nth_error clusters i = Some c
        /\ ((Cluster.isMarkerInClusterBounds host c marker st = Returns true
             /\ exists ok c',
                  Cluster.addMarker host mc c marker st = Returns (ok, c', st')
                  /\ clusters' = MarkerClusterer.replace_nth i c' clusters)
            \/ (Cluster.isMarkerInClusterBounds host c marker st
                = Returns false
                /\ joins_new_cluster clusters clusters' marker st st'))
  | None => joins_new_cluster clusters clusters' marker st st'
  end.

Lemma default_clusterizer_spec (clusters : list (Cluster.t num))
    (marker : MarkerRef) (st : Store num) :
  Forall well_formed clusters ->
  (forall c ms, In c clusters -> Cluster.markers_ c = Some ms ->
                calculator_returns mc (ms ++ [marker])) ->
  calculator_returns mc [marker] ->
  exists (clusterToAddTo : option nat) (clusters' : list (Cluster.t num))
    (st' : Store num),
    MarkerClusterer.DEFAULT_CLUSTERIZER_FUNCTION marker clusters mc host st
    = Returns (clusters', st')
    /\ first_nearest (getPosition st marker) clusters clusterToAddTo
    /\ added_or_created clusters marker st clusterToAddTo clusters' st'
    /\ exists c' ms,
         In c' clusters' /\ Cluster.markers_ c' = Some ms /\ In marker ms.
Proof.
  unfold first_nearest, added_or_created. intros Hwf Hcalc Hcalc1.
  assert (Hnew : exists c' st',
             Cluster.addMarker host mc (Cluster.new mc) marker st
             = Returns (true, c', st')
             /\ Cluster.markers_ c' = Some [marker]).
  { destruct (addMarker_joined host mc (Cluster.new mc) marker st [])
      as (c' & st' & Hadd & _ & Hms & _); [reflexivity | intros [] | |].
    - right. right. exact Hcalc1.
    - now exists c', st'. }
  destruct Hnew as (cn & stn & Haddn & Hmsn).
  assert (Hcreate : joins_new_cluster clusters (clusters ++ [cn]) marker st stn
                    /\ exists c' ms, In c' (clusters ++ [cn])
                                     /\ Cluster.markers_ c' = Some ms
                                     /\ In marker ms).
  { split; [now exists cn|]. exists cn, [marker].
    split; [apply in_or_app; right; now left|]. split; [exact Hmsn|now left]. }
  unfold MarkerClusterer.DEFAULT_CLUSTERIZER_FUNCTION.
  destruct (MarkerClusterer.nearest (getPosition st marker) clusters 0
              (#40000)%num None) as [d best] eqn:Enear.
  apply nearest_spec in Enear.
  destruct Enear as [(_ & -> & Hnone)
                    |(i & c & -> & Hnth & Hc & -> & Hlt & Hmin & Hfirst)].
  - exists None, (clusters ++ [cn]), stn. rewrite Haddn. cbn [bind].
    split; [reflexivity|]. split; [exact Hnone|]. exact Hcreate.
  - cbn [Nat.add]. rewrite Hnth.
    assert (Hin : In c clusters) by (eapply nth_error_In; eassumption).
    assert (Hwfc : well_formed c)
      by (rewrite Forall_forall in Hwf; now apply Hwf).
    destruct Hwfc as [Hlive Hb].
    unfold Cluster.isMarkerInClusterBounds.
    destruct (Cluster.bounds_ c) as [bounds|] eqn:Eb;
      [|now elim (Hb Hc)].
    cbn [bind].
    destruct (contains host bounds (getPosition st marker)) eqn:Econt.
    + destruct (addMarker_well_formed host mc c marker st)
        as (ok & c' & st' & Hadd & _ & (ms' & Hms' & Hin') & _).
      { split; [exact Hlive|]. intros _. rewrite Eb. discriminate. }
      { intros ms Hms. now apply (Hcalc c). }
      exists (Some i), (MarkerClusterer.replace_nth i c' clusters), st'.
      rewrite Hadd. cbn [bind]. split; [reflexivity|].
      split; [exists c; now repeat split|].
      split.
      * exists c. split; [exact Hnth|]. left.
        split; [now rewrite Eb, Econt|]. now exists ok, c'.
      * exists c', ms'. split; [|now split].
        now apply (replace_nth_In clusters i c' c).
    + exists (Some i), (clusters ++ [cn]), stn. rewrite Haddn. cbn [bind].
      split; [reflexivity|].
      split; [exists c; now repeat split|].
      split; [|apply Hcreate].
      exists c. split; [exact Hnth|]. right.
      split; [now rewrite Eb, Econt|]. apply Hcreate.
Qed.

End DefaultClusterizer.

(** ** The clusterer keeps its clusters in order *)

Section Engine.
Context {num : Type} {N : Number num} {M : Math num}.

Lemma forEach_invariant {A S : Type} (I : S -> Prop)
    (f : A -> S -> outcome S) (xs : list A) :
  (forall x s, In x xs -> I s -> exists s', f x s = Returns s' /\ I s') ->
  forall s, I s -> exists s', forEach f xs s = Returns s' /\ I s'.
Proof.
  induction xs as [|x xs IH]; intros Hf s Hs; cbn [forEach].
  - now exists s.
  - destruct (Hf x s (or_introl eq_refl) Hs) as (s1 & -> & Hs1). cbn [bind].
    apply IH; [|exact Hs1]. intros y s2 Hy. apply Hf. now right.
Qed.

Lemma nearest_index (pos : LatLng num) (clusters : list (Cluster.t num)) :
  forall (i0 : nat) (d0 : num) (best0 : option nat) (d : num) (i : nat),
  MarkerClusterer.nearest pos clusters i0 d0 best0 = (d, Some i) ->
  best0 = Some i
  \/ exists c, nth_error clusters (i - i0) = Some c
               /\ (i0 <= i)%nat /\ Cluster.center_ c <> None.
Proof.
  induction clusters as [|c rest IH]; intros i0 d0 best0 d i H.
  - cbn in H. injection H as _ ->. now left.
  - cbn [MarkerClusterer.nearest] in H. unfold Cluster.getCenter in H.
    assert (Hshift : forall b,
               b = Some i
               \/ (exists c', nth_error rest (i - S i0) = Some c'
                              /\ (S i0 <= i)%nat
                              /\ Cluster.center_ c' <> None) ->
               b = Some i0 \/ b = best0 ->
               Cluster.center_ c <> None \/ b = best0 ->
               best0 = Some i
               \/ exists c', nth_error (c :: rest) (i - i0) = Some c'
                             /\ (i0 <= i)%nat /\ Cluster.center_ c' <> None).
    { intros b [Hb|(c' & Hnth & Hle & Hc')] Hb0 Hc.
      - destruct Hb0 as [Hb0|Hb0]; [|left; congruence].
        destruct Hc as [Hc|Hc]; [|left; congruence].
        right. exists c. assert (i = i0) by congruence. subst i.
        rewrite Nat.sub_diag. now repeat split.
      - right. exists c'. replace (i - i0)%nat with (S (i - S i0)) by lia.
        repeat split; [exact Hnth | lia | exact Hc']. }
    destruct (Cluster.center_ c) as [center|] eqn:Ec.
    + destruct (_ <? _)%num.
      * apply IH in H. apply (Hshift (Some i0) H); [now left|].
        left. discriminate.
      * apply IH in H. apply (Hshift best0 H); now right.
    + apply IH in H. apply (Hshift best0 H); now right.
Qed.

(** The default clusterizer on clusters that can take the marker: it
    returns, the clusters can take further markers, and the only member
    that is new is the marker. *)
Lemma default_clusterizer_sound (host : Host num) (mc : Settings num)
    (clusters : list (Cluster.t num)) (marker : MarkerRef) (st : Store num) :
  Forall well_formed clusters ->
  (forall ms, calculator_returns mc ms) ->
  exists clusters' st',
    MarkerClusterer.DEFAULT_CLUSTERIZER_FUNCTION marker clusters mc host st
    = Returns (clusters', st')
    /\ Forall well_formed clusters'
    /\ forall all, In marker all ->
         Forall (members_within all) clusters ->
         Forall (members_within all) clusters'.
Proof.
  intros Hwf Hcalc.
  assert (Htake : forall c, well_formed c ->
            exists ok c' st',
              Cluster.addMarker host mc c marker st = Returns (ok, c', st')
              /\ well_formed c'
              /\ forall all, In marker all -> members_within all c ->
                             members_within all c').
  { intros c Hc.
    destruct (addMarker_well_formed host mc c marker st Hc)
      as (ok & c' & st' & Hadd & Hwf' & _ & Hincl);
      [intros; apply Hcalc|].
    exists ok, c', st'. split; [exact Hadd|]. split; [exact Hwf'|].
    intros all Hin Hall ms' Hms'. destruct Hc as [[ms Hms] _].
    intros m Hm. apply (Hincl ms ms' Hms Hms') in Hm.
    apply in_app_or in Hm. destruct Hm as [Hm|[<-|[]]]; [|exact Hin].
    now apply (Hall ms Hms). }
  assert (Hcreate : exists c' st',
            Cluster.addMarker host mc (Cluster.new mc) marker st
            = Returns (true, c', st')
            /\ Forall well_formed (clusters ++ [c'])
            /\ forall all, In marker all ->
                 Forall (members_within all) clusters ->
                 Forall (members_within all) (clusters ++ [c'])).
  { destruct (Htake (Cluster.new mc) (new_well_formed mc))
      as (ok & c' & st' & Hadd & Hwf' & Hin').
    assert (ok = true) as ->.
    { rewrite (addMarker_new host mc (Cluster.new mc) marker st [])
        in Hadd; [|reflexivity|intros []].
      cbv zeta in Hadd.
      destruct (Cluster.updateIcon _ _ _ _) as [[c2 st2]| |];
        cbn in Hadd; congruence. }
    exists c', st'. split; [exact Hadd|]. split.
    - apply Forall_app. split; [exact Hwf|]. now constructor.
    - intros all Hin Hall. apply Forall_app. split; [exact Hall|].
      constructor; [|constructor]. apply Hin'; [exact Hin|].
      intros ms Hms. cbn in Hms. injection Hms as <-. intros m []. }
  destruct Hcreate as (cn & stn & Haddn & Hwfn & Hinn).
  unfold MarkerClusterer.DEFAULT_CLUSTERIZER_FUNCTION.
  destruct (MarkerClusterer.nearest (getPosition st marker) clusters 0
              (#40000)%num None) as [d [i|]] eqn:Enear.
  - apply nearest_index in Enear.
    destruct Enear as [Hnone|(c & Hnth & _ & Hc)]; [discriminate|].
    rewrite Nat.sub_0_r in Hnth. rewrite Hnth.
    assert (Hwfc : well_formed c).
    { rewrite Forall_forall in Hwf. apply Hwf.
      eapply nth_error_In; eassumption. }
    unfold Cluster.isMarkerInClusterBounds.
    destruct (Cluster.bounds_ c) as [bounds|] eqn:Eb;
      [|now elim (proj2 Hwfc Hc)].
    cbn [bind]. destruct (contains host bounds (getPosition st marker)).
    + destruct (Htake c Hwfc) as (ok & c' & st' & Hadd & Hwf' & Hin').
      exists (MarkerClusterer.replace_nth i c' clusters), st'.
      rewrite Hadd. cbn [bind]. split; [reflexivity|]. split.
      * now apply replace_nth_Forall.
      * intros all Hin Hall. apply replace_nth_Forall; [exact Hall|].
        apply Hin'; [exact Hin|]. rewrite Forall_forall in Hall.
        apply Hall. eapply nth_error_In; eassumption.
    + exists (clusters ++ [cn]), stn. rewrite Haddn. cbn [bind].
      now repeat split.
  - exists (clusters ++ [cn]), stn. rewrite Haddn. cbn [bind].
    now repeat split.
Qed.

(** What every operation of the clusterer keeps: its clusters can take
    markers, the clusters held by pending timeouts have not been removed,
    the clusterizer is the default one and the calculator returns. *)
Definition consistent (mc : MarkerClusterer.t num) : Prop :=
  Forall well_formed (MarkerClusterer.clusters mc)
  /\ Forall (Forall live) (MarkerClusterer.timeouts mc)
  /\ MarkerClusterer.clusterizerFunc mc
     = MarkerClusterer.DEFAULT_CLUSTERIZER_FUNCTION
  /\ forall ms, calculator_returns (MarkerClusterer.settings mc) ms.

(** Every member of a cluster of the clusterer is one of its markers. *)
Definition clusters_within_markers (mc : MarkerClusterer.t num) : Prop :=
  Forall (members_within (MarkerClusterer.markers mc))
    (MarkerClusterer.clusters mc).

(** [mc'] is [mc] but for its clusters. *)
Definition same_but_clusters (mc mc' : MarkerClusterer.t num) : Prop :=
  mc' = MarkerClusterer.set_clusters (MarkerClusterer.clusters mc') mc.

Lemma same_but_clusters_refl (mc : MarkerClusterer.t num) :
  same_but_clusters mc mc.
Proof. now destruct mc. Qed.

Lemma same_but_clusters_trans (a b c : MarkerClusterer.t num) :
  same_but_clusters a b -> same_but_clusters b c -> same_but_clusters a c.
Proof. unfold same_but_clusters. intros -> ->. reflexivity. Qed.

Lemma forEach_remove (cs : list (Cluster.t num)) :
  Forall live cs ->
  forEach (fun cluster (_ : unit) => _ <- Cluster.remove cluster ;; Returns tt)
    cs tt = Returns tt.
Proof.
  induction 1 as [|c cs [ms Hms] _ IH]; cbn [forEach]; [reflexivity|].
  unfold Cluster.remove. cbn. rewrite Hms. cbn. exact IH.
Qed.

Lemma createClusters_consistent (host : Host num) (mc : MarkerClusterer.t num)
    (st : Store num) :
  consistent mc ->
  exists mc' st',
    MarkerClusterer.createClusters_ host mc st = Returns (mc', st')
    /\ consistent mc'
    /\ same_but_clusters mc mc'
    /\ (clusters_within_markers mc -> clusters_within_markers mc').
Proof.
  intros Hcons. unfold MarkerClusterer.createClusters_.
  destruct (negb (MarkerClusterer.ready mc)).
  { exists mc, st. split; [reflexivity|]. split; [exact Hcons|].
    split; [apply same_but_clusters_refl | auto]. }
  match goal with
  | |- context [forEach ?f ?xs ?init] =>
      destruct (forEach_invariant
                  (fun s => consistent (fst s)
                            /\ same_but_clusters mc (fst s)
                            /\ (clusters_within_markers mc ->
                                clusters_within_markers (fst s)))
                  f xs) with (s := init)
        as ([mc' st'] & Hrun & H1 & H2 & H3)
  end.
  - intros marker [mc1 st1] Hin (Hc1 & Hs1 & Hw1). cbn [fst] in *.
    destruct (_ && _);
      [|exists (mc1, st1); cbn [fst]; split; [reflexivity|];
        split; [assumption|]; split; assumption].
    unfold MarkerClusterer.addToClosestCluster_.
    destruct Hc1 as (Hwf & Ht & Hfun & Hcalc). rewrite Hfun.
    destruct (default_clusterizer_sound host (MarkerClusterer.settings mc1)
                (MarkerClusterer.clusters mc1) marker st1 Hwf Hcalc)
      as (cs' & st2 & -> & Hwf' & Hin').
    cbn [bind]. eexists. split; [reflexivity|]. cbn [fst].
    split; [|split].
    + split; [exact Hwf'|]. split; [exact Ht|]. split; assumption.
    + rewrite Hs1. reflexivity.
    + intros Hw. unfold clusters_within_markers. cbn.
      apply Hin'; [|now apply Hw1].
      rewrite Hs1. cbn. exact Hin.
  - cbn [fst]. split; [exact Hcons|].
    split; [apply same_but_clusters_refl | auto].
  - exists mc', st'. cbn [fst] in *.
    split; [exact Hrun|]. split; [exact H1|]. split; assumption.
Qed.

Lemma resetViewport_returns (hideMarker : bool) (mc : MarkerClusterer.t num)
    (st : Store num) :
  consistent mc ->
  exists st',
    MarkerClusterer.resetViewport hideMarker mc st
    = Returns (MarkerClusterer.set_clusters [] mc, st').
Proof.
  intros (Hwf & _). unfold MarkerClusterer.resetViewport.
  rewrite forEach_remove.
  - cbn [bind]. eexists. reflexivity.
  - eapply Forall_impl; [|exact Hwf]. now intros c [Hl _].
Qed.

Lemma set_clusters_nil_consistent (mc : MarkerClusterer.t num) :
  consistent mc ->
  consistent (MarkerClusterer.set_clusters [] mc)
  /\ clusters_within_markers (MarkerClusterer.set_clusters [] mc).
Proof.
  intros (_ & Ht & Hfun & Hcalc). split; [|constructor].
  repeat split; try assumption. constructor.
Qed.

Lemma pushMarkerTo_consistent (marker : MarkerRef)
    (mc : MarkerClusterer.t num) (st : Store num) :
  consistent mc ->
  consistent (fst (MarkerClusterer.pushMarkerTo marker mc st))
  /\ (clusters_within_markers mc ->
      clusters_within_markers (fst (MarkerClusterer.pushMarkerTo marker mc st))).
Proof.
  intros Hcons. split; [exact Hcons|].
  unfold clusters_within_markers. cbn. intros Hw.
  eapply Forall_impl; [|exact Hw].
  intros c Hc ms Hms. apply incl_appl. now apply Hc.
Qed.

Lemma removeMarker__consistent (marker : MarkerRef)
    (mc : MarkerClusterer.t num) (st : Store num) :
  consistent mc ->
  consistent (snd (fst (MarkerClusterer.removeMarker_ marker mc st)))
  /\ (fst (fst (MarkerClusterer.removeMarker_ marker mc st)) = false ->
      MarkerClusterer.removeMarker_ marker mc st = (false, mc, st)).
Proof.
  intros Hcons. unfold MarkerClusterer.removeMarker_.
  destruct (indexOf (MarkerClusterer.markers mc) marker); cbn.
  - split; [exact Hcons | discriminate].
  - split; [exact Hcons | reflexivity].
Qed.

End Engine.

(** ** The operations of the clusterer *)

Section Operations.
Context {num : Type} {N : Number num} {M : Math num}.
Variable host : Host num.

(** The call returns a clusterer that is consistent and whose clusters
    hold markers of the clusterer only. *)
Definition keeps_clusters_within_markers
    (r : outcome (MarkerClusterer.t num * Store num)) : Prop :=
  exists mc' st',
    r = Returns (mc', st')
    /\ consistent mc' /\ clusters_within_markers mc'.

Lemma same_but_clusters_fields (mc mc' : MarkerClusterer.t num) :
  same_but_clusters mc mc' ->
  MarkerClusterer.markers mc' = MarkerClusterer.markers mc
  /\ MarkerClusterer.timeouts mc' = MarkerClusterer.timeouts mc
  /\ MarkerClusterer.settings mc' = MarkerClusterer.settings mc.
Proof. intros ->. now repeat split. Qed.

Lemma redraw_keeps (mc : MarkerClusterer.t num) (st : Store num) :
  consistent mc -> clusters_within_markers mc ->
  keeps_clusters_within_markers (MarkerClusterer.redraw host mc st).
Proof.
  intros Hc Hw. unfold MarkerClusterer.redraw.
  destruct (createClusters_consistent host mc st Hc)
    as (mc' & st' & Hrun & Hc' & _ & Hw').
  exists mc', st'. split; [exact Hrun|]. split; [exact Hc' | now apply Hw'].
Qed.

Lemma resetViewport_keeps (hideMarker : bool) (mc : MarkerClusterer.t num)
    (st : Store num) :
  consistent mc ->
  keeps_clusters_within_markers
    (MarkerClusterer.resetViewport hideMarker mc st).
Proof.
  intros Hc. destruct (resetViewport_returns hideMarker mc st Hc) as (st' & ->).
  exists (MarkerClusterer.set_clusters [] mc), st'.
  split; [reflexivity|]. now apply set_clusters_nil_consistent.
Qed.

Lemma reset_then_redraw_keeps (mc : MarkerClusterer.t num) (st : Store num) :
  consistent mc ->
  keeps_clusters_within_markers
    (' (mc, st) <- MarkerClusterer.resetViewport false mc st ;;
     MarkerClusterer.redraw host mc st).
Proof.
  intros Hc.
  destruct (resetViewport_keeps false mc st Hc) as (mc1 & st1 & -> & Hc1 & Hw1).
  cbn [bind]. now apply redraw_keeps.
Qed.

Lemma pushMarkers_consistent (ms : list MarkerRef) :
  forall (mc : MarkerClusterer.t num) (st : Store num),
  consistent mc ->
  consistent
    (fst (fold_left
            (fun '(mc, st) marker => MarkerClusterer.pushMarkerTo marker mc st)
            ms (mc, st)))
  /\ (clusters_within_markers mc ->
      clusters_within_markers
        (fst (fold_left
                (fun '(mc, st) marker =>
                   MarkerClusterer.pushMarkerTo marker mc st)
                ms (mc, st)))).
Proof.
  induction ms as [|m ms IH]; intros mc st Hc; cbn [fold_left].
  - now split.
  - destruct (pushMarkerTo_consistent m mc st Hc) as [Hc1 Hw1].
    unfold MarkerClusterer.pushMarkerTo in *. cbn [fst] in *.
    destruct (IH _ (set_isAdded m false st) Hc1) as [Hc2 Hw2].
    split; [exact Hc2 | auto].
Qed.

Lemma removeMarkers_fold (ms : list MarkerRef) :
  forall (removed : bool) (mc : MarkerClusterer.t num) (st : Store num),
  consistent mc ->
  let r :=
    fold_left
      (fun '(removed, mc, st) marker =>
         let '(r, mc, st) := MarkerClusterer.removeMarker_ marker mc st in
         (removed || r, mc, st))
      ms (removed, mc, st) in
  consistent (snd (fst r))
  /\ (fst (fst r) = false -> removed = false /\ r = (false, mc, st)).
Proof.
  induction ms as [|m ms IH]; intros removed mc st Hc; cbn [fold_left].
  - cbn. split; [exact Hc|]. now intros ->.
  - destruct (removeMarker__consistent m mc st Hc) as [Hc1 Hsame].
    destruct (MarkerClusterer.removeMarker_ m mc st) as [[r mc1] st1].
    cbn [fst snd] in *.
    destruct (IH (removed || r) mc1 st1 Hc1) as [Hc2 Hf].
    split; [exact Hc2|].
    intros Hfalse. destruct (Hf Hfalse) as [Hor ->].
    apply orb_false_iff in Hor. destruct Hor as [-> ->].
    specialize (Hsame eq_refl). now injection Hsame as -> ->.
Qed.

End Operations.

(** ** A clusterer with the default options, on doubles *)

Definition no_options : MarkerClustererOptions float :=
  {| opt_gridSize := None; opt_maxZoom := None; opt_minClusterSize := None;
     opt_imagePath := None; opt_imageExtension := None;
     opt_zoomOnClick := None; opt_averageCenter := None;
     opt_styles := None |}.

Definition whole_map : LatLngBounds float :=
  {| getSouthWest := {| lat := (-90)%float; lng := (-180)%float |};
     getNorthEast := {| lat := 90%float; lng := 180%float |} |}.

(** The flat platform showing the whole map at zoom 3. *)
Definition demo_host : Host float := flat_host 3 whole_map.

(** What the constructor makes of no options (see
    [constructor_default_settings]); the default calculator runs with
    fuel for 400 iterations. *)
Definition default_settings : Settings float :=
  {| map := 0%nat; gridSize := 60%float; minClusterSize := 2;
     maxZoom := None; imagePath := "../images/m"; imageExtension := "png";
     zoomOnClick := true; averageCenter := true;
     styles :=
       [ {| url := "../images/m1.png"; height := 53; width := 53 |};
         {| url := "../images/m2.png"; height := 56; width := 56 |};
         {| url := "../images/m3.png"; height := 66; width := 66 |};
         {| url := "../images/m4.png"; height := 78; width := 78 |};
         {| url := "../images/m5.png"; height := 90; width := 90 |} ];
     sumCalculatorFunc :=
       MarkerClusterer.DEFAULT_SUMCALCULATOR_FUNCTION (num := float) 400 |}.

(** The value a call returned, [d] when it did not return. *)
Definition returned {A} (o : outcome A) (d : A) : A :=
  match o with
  | Returns a => a
  | _ => d
  end.

Definition has_returned {A} (o : outcome A) : bool :=
  match o with
  | Returns _ => true
  | _ => false
  end.

Lemma returned_eq {A} (o : outcome A) (d : A) :
  has_returned o = true -> o = Returns (returned o d).
Proof. destruct o; cbn; congruence. Qed.

(** Three markers whose latitudes are the doubles nearest to 0.1, 0.2 and
    0.3, at longitude 0. *)
Definition tenths : Store float :=
  store_of
    [ {| lat := 0x1.999999999999ap-4%float; lng := 0%float |};
      {| lat := 0x1.999999999999ap-3%float; lng := 0%float |};
      {| lat := 0x1.3333333333333p-2%float; lng := 0%float |} ].

(** The cluster of the default clusterer that marker 0 has joined. *)
Definition demo_cluster_1 : Cluster.t float * Store float :=
  returned
    (joins demo_host default_settings [0%nat] (Cluster.new default_settings)
       tenths)
    (Cluster.new default_settings, tenths).

Lemma constructor_default_settings (clusterizer : MarkerClusterer.ClusterizerFunc float) :
  exists mc,
    MarkerClusterer.constructor demo_host 0%nat [] no_options
      (MarkerClusterer.DEFAULT_SUMCALCULATOR_FUNCTION (num := float) 400)
      clusterizer tenths = Returns (mc, tenths)
    /\ MarkerClusterer.settings mc = default_settings.
Proof. eexists. split; reflexivity. Qed.

(** * The claims *)

(** C5. A marker that is already a member of a cluster is not added again:
    [addMarker] returns [false] and leaves the cluster (so its member count,
    member sequence, center and bounds) and the markers as they were. *)
Theorem addMarker_again_changes_nothing :
  forall {num : Type} {N : Number num} (host : Host num) (mc : Settings num)
    (c : Cluster.t num) (marker : MarkerRef) (st : Store num)
    (markers : list MarkerRef),
  Cluster.markers_ c = Some markers ->
  In marker markers ->
  exists c' st',
    Cluster.addMarker host mc c marker st = Returns (false, c', st')
    /\ st' = st
    /\ Cluster.getSize c' = Cluster.getSize c
    /\ Cluster.markers_ c' = Cluster.markers_ c
    /\ Cluster.center_ c' = Cluster.center_ c
    /\ Cluster.bounds_ c' = Cluster.bounds_ c
    /\ c' = c.
Proof.
  intros num N host mc c marker st markers Hms Hin.
  exists c, st. rewrite (addMarker_member host mc c marker st markers Hms Hin).
  repeat split; reflexivity.
Qed.

Lemma addMarker_again_changes_nothing_witness :
  exists c' st',
    Cluster.addMarker demo_host default_settings (fst demo_cluster_1) 0%nat
      (snd demo_cluster_1) = Returns (false, c', st')
    /\ st' = snd demo_cluster_1
    /\ Cluster.getSize c' = Cluster.getSize (fst demo_cluster_1)
    /\ Cluster.markers_ c' = Cluster.markers_ (fst demo_cluster_1)
    /\ Cluster.center_ c' = Cluster.center_ (fst demo_cluster_1)
    /\ Cluster.bounds_ c' = Cluster.bounds_ (fst demo_cluster_1)
    /\ c' = fst demo_cluster_1.
Proof.
  apply (addMarker_again_changes_nothing demo_host default_settings
           (fst demo_cluster_1) 0%nat (snd demo_cluster_1) [0%nat]).
  - vm_compute. reflexivity.
  - simpl. auto.
Defined.

(** The three markers of [tenths] join a cluster of the default clusterer
    in the order 0, 1, 2 and in the order 2, 1, 0. *)
Definition tenths_upwards : outcome (Cluster.t float * Store float) :=
  joins demo_host default_settings [0; 1; 2]%nat
    (Cluster.new default_settings) tenths.

Definition tenths_downwards : outcome (Cluster.t float * Store float) :=
  joins demo_host default_settings [2; 1; 0]%nat
    (Cluster.new default_settings) tenths.




(** The default settings after [setMaxZoom(2)]: the zoom of [demo_host],
    3, is beyond it. *)
Definition maxZoom_2_settings : Settings float :=
  MarkerClusterer.settings
    (MarkerClusterer.setMaxZoom (Some 2)
       {| MarkerClusterer.settings := default_settings;
          MarkerClusterer.markers := []; MarkerClusterer.clusters := [];
          MarkerClusterer.sizes := [53; 56; 66; 78; 90];
          MarkerClusterer.ready := false; MarkerClusterer.prevZoom := 3;
          MarkerClusterer.clusterizerFunc :=
            MarkerClusterer.DEFAULT_CLUSTERIZER_FUNCTION (M := Math_series);
          MarkerClusterer.timeouts := [] |}).

(** With a maximum zoom of 2 and the map at zoom 3, the second member of a
    cluster with threshold 2 is not hidden, nor is the first, and no icon
    is shown. *)
Lemma beyond_maxZoom_members_stay_on_map :
  exists c st,
    joins demo_host maxZoom_2_settings [0; 1]%nat
      (Cluster.new maxZoom_2_settings) tenths = Returns (c, st)
    /\ Cluster.minClusterSize_ c = 2
    /\ Cluster.markers_ c = Some [0; 1]%nat
    /\ getMap st 0%nat = Some 0%nat
    /\ getMap st 1%nat = Some 0%nat
    /\ ClusterIcon.visible_ (Cluster.clusterIcon_ c) = false
    /\ ~ ((forall m, In m [0; 1]%nat -> getMap st m = None)
          /\ ClusterIcon.visible_ (Cluster.clusterIcon_ c) = true).
Proof.
  eexists _, _. split; [vm_compute; reflexivity|].
  repeat (split; [vm_compute; reflexivity|]).
  intros [_ H]. vm_compute in H. discriminate.
Qed.

(** C3 (amended). Unless a maximum zoom is set and the zoom of the map is
    beyond it: when distinct markers have joined a new cluster one after
    the other, then, as long as the member count is below the threshold
    [minClusterSize], every member is on the map and the icon is not
    visible; and as soon as the count has reached the threshold, no member
    is on the map and the icon is visible. This holds after each join: the
    members are any prefix of the markers that join. *)
Theorem threshold_transition :
  forall {num : Type} {N : Number num} (host : Host num) (mc : Settings num)
    (ms : list MarkerRef) (st : Store num),
  NoDup ms ->
  beyond_maxZoom host mc = false ->
  (forall j, calculator_returns mc (firstn j ms)) ->
  exists c st',
    joins host mc ms (Cluster.new mc) st = Returns (c, st')
    /\ Cluster.markers_ c = Some ms
    /\ (Z.of_nat (List.length ms) < minClusterSize mc ->
        (forall m, In m ms -> getMap st' m = Some (map mc))
        /\ ClusterIcon.visible_ (Cluster.clusterIcon_ c) = false)
    /\ (minClusterSize mc <= Z.of_nat (List.length ms) -> ms <> [] ->
        (forall m, In m ms -> getMap st' m = None)
        /\ ClusterIcon.visible_ (Cluster.clusterIcon_ c) = true).
Proof.
  intros num N host mc ms st Hnd Hz Hcalc.
  destruct (joins_crisp host mc ms [] (Cluster.new mc) st)
    as (c & st' & Hj & Hms & Hbelow & Habove);
    try reflexivity; try assumption.
  - split; [|intros _ H; now elim H].
    intros _. split; [intros m []|reflexivity].
  - exists c, st'. cbn [app] in *.
    split; [exact Hj|]. split; [exact Hms|]. split; assumption.
Qed.

(** Markers 0, 1, 2 join a cluster of the default clusterer. *)
Lemma threshold_transition_witness :
  exists c st',
    tenths_upwards = Returns (c, st')
    /\ Cluster.markers_ c = Some [0; 1; 2]%nat
    /\ (forall m, In m [0; 1; 2]%nat -> getMap st' m = None)
    /\ ClusterIcon.visible_ (Cluster.clusterIcon_ c) = true.
Proof.
  destruct (threshold_transition demo_host default_settings [0; 1; 2]%nat
              tenths) as (c & st' & Hj & Hms & _ & Habove).
  - repeat constructor; simpl; intuition discriminate.
  - vm_compute. reflexivity.
  - intros [|[|[|[|j]]]]; unfold calculator_returns; vm_compute;
      discriminate.
  - exists c, st'. split; [exact Hj|]. split; [exact Hms|].
    apply Habove; [vm_compute; discriminate | discriminate].
Defined.

(** The cluster of the default clusterer that markers 0 and 1 have joined:
    its icon is visible. *)
Definition demo_cluster_2 : Cluster.t float * Store float :=
  returned
    (joins demo_host default_settings [0; 1]%nat
       (Cluster.new default_settings) tenths)
    (Cluster.new default_settings, tenths).

(** An icon that is visible stays visible when the refresh finds the zoom
    beyond the maximum. *)
Lemma beyond_maxZoom_icon_stays_visible :
  exists c st,
    beyond_maxZoom demo_host maxZoom_2_settings = true
    /\ Cluster.updateIcon demo_host maxZoom_2_settings (fst demo_cluster_2)
         (snd demo_cluster_2) = Returns (c, st)
    /\ getMap st 0%nat = Some 0%nat
    /\ getMap st 1%nat = Some 0%nat
    /\ ClusterIcon.visible_ (Cluster.clusterIcon_ c) = true
    /\ ClusterIcon.visible_ (Cluster.clusterIcon_ c) <> false.
Proof.
  eexists _, _. split; [vm_compute; reflexivity|].
  split; [vm_compute; reflexivity|].
  repeat (split; [vm_compute; reflexivity|]).
  vm_compute. discriminate.
Qed.

(** C9 (amended). Every refresh of the icon of a cluster decides anew. If
    a maximum zoom is set (not [null], not 0) and the zoom of the map is
    beyond it, every member is put on the map and nothing else changes: the
    icon stays as it was, visible or not. Otherwise, if the member count is
    below [minClusterSize_], the icon is hidden. Otherwise the calculator is
    asked for a summary of the members and the number of styles, and the icon
    takes the center of the cluster and the summary and is shown. *)
Theorem updateIcon_policy :
  forall {num : Type} {N : Number num} (host : Host num) (mc : Settings num)
    (c : Cluster.t num) (st : Store num) (ms : list MarkerRef),
  Cluster.markers_ c = Some ms ->
  (beyond_maxZoom host mc = true ->
   exists st',
     Cluster.updateIcon host mc c st = Returns (c, st')
     /\ (forall m, In m ms -> getMap st' m = Some (Cluster.map_ c))
     /\ (forall m, ~ In m ms -> getMap st' m = getMap st m))
  /\ (beyond_maxZoom host mc = false ->
      Z.of_nat (List.length ms) < Cluster.minClusterSize_ c ->
      Cluster.updateIcon host mc c st
      = Returns (Cluster.set_icon (ClusterIcon.hide (Cluster.clusterIcon_ c)) c,
                 st)
      /\ ClusterIcon.visible_ (ClusterIcon.hide (Cluster.clusterIcon_ c))
         = false)
  /\ (beyond_maxZoom host mc = false ->
      Cluster.minClusterSize_ c <= Z.of_nat (List.length ms) ->
      forall sum,
        sumCalculatorFunc mc ms (Z.of_nat (List.length (styles mc)))
        = Some sum ->
        exists c',
          Cluster.updateIcon host mc c st = Returns (c', st)
          /\ same_but_icon c c'
          /\ ClusterIcon.visible_ (Cluster.clusterIcon_ c') = true
          /\ ClusterIcon.center_ (Cluster.clusterIcon_ c')
             = Cluster.center_ c
          /\ ClusterIcon.sum_ (Cluster.clusterIcon_ c') = Some sum).
Proof.
  intros num N host mc c st ms Hms.
  unfold Cluster.updateIcon. rewrite Hms. fold (beyond_maxZoom host mc).
  split; [|split].
  - intros ->. eexists. split; [reflexivity|]. split.
    + intros m Hin. rewrite getMap_fold_setMap.
      destruct (in_dec Nat.eq_dec m ms); [reflexivity|contradiction].
    + intros m Hnin. rewrite getMap_fold_setMap.
      destruct (in_dec Nat.eq_dec m ms); [contradiction|reflexivity].
  - intros -> Hlt. apply Z.ltb_lt in Hlt. rewrite Hlt. now split.
  - intros -> Hge sum Hsum. apply Z.ltb_ge in Hge. rewrite Hge, Hsum.
    eexists. repeat split.
Qed.

(** The icon of the cluster of markers 0 and 1 is refreshed. *)
Lemma updateIcon_policy_witness :
  exists c',
    Cluster.updateIcon demo_host default_settings (fst demo_cluster_2)
      (snd demo_cluster_2) = Returns (c', snd demo_cluster_2)
    /\ ClusterIcon.visible_ (Cluster.clusterIcon_ c') = true
    /\ ClusterIcon.sum_ (Cluster.clusterIcon_ c')
       = Some {| text := TextNumber 2; index := 5 |}.
Proof.
  destruct (updateIcon_policy demo_host default_settings (fst demo_cluster_2)
              (snd demo_cluster_2) [0; 1]%nat) as (_ & _ & Hshow).
  - vm_compute. reflexivity.
  - destruct (Hshow ltac:(vm_compute; reflexivity)
                ltac:(vm_compute; discriminate)
                {| text := TextNumber 2; index := 5 |})
      as (c' & Hupd & _ & Hvis & _ & Hsum).
    + vm_compute. reflexivity.
    + exists c'. now repeat split.
Defined.

(** ** The default calculator *)

Lemma digits_loop_more_fuel {num : Type} {N : Number num} (fuel : nat) :
  forall (dv : num) (index r : Z) (fuel' : nat),
  MarkerClusterer.digits_loop fuel dv index = Some r ->
  (fuel <= fuel')%nat ->
  MarkerClusterer.digits_loop fuel' dv index = Some r.
Proof.
  induction fuel as [|fuel IH]; intros dv index r fuel' H Hle.
  - destruct fuel'; cbn in *; destruct (negb _); congruence.
  - destruct fuel' as [|fuel']; [lia|].
    cbn in *. destruct (negb _); [|exact H].
    apply IH; [exact H | lia].
Qed.

(** Over the real numbers a count that is not zero never becomes zero by
    divisions by ten: the loop ends on doubles only because the quotient
    underflows. *)
Lemma digits_loop_without_rounding (fuel : nat) :
  forall (dv : R) (index : Z),
  dv <> 0%R ->
  MarkerClusterer.digits_loop (num := R) fuel dv index = None.
Proof.
  induction fuel as [|fuel IH]; intros dv index Hdv; cbn;
    unfold R_eqb; destruct (Req_dec_T dv 0) as [E|_];
    try contradiction; cbn.
  - reflexivity.
  - apply IH. intros H. apply Hdv.
    apply (Rmult_eq_reg_r (/ 10)%R); [|lra].
    unfold Rdiv in H. rewrite H. lra.
Qed.

(** The style index as the specification words it: the number of decimal
    digits of the member count, [floor(log10(count)) + 1], at most the number
    of styles ([fuel] bounds the digits counted). *)
Fixpoint decimal_digits (fuel : nat) (count : Z) : Z :=
  match fuel with
  | O => 0
  | S fuel' => if count =? 0 then 0 else 1 + decimal_digits fuel' (count / 10)
  end.

Definition index_by_magnitude (count numStyles : Z) : Z :=
  Z.min (decimal_digits (Z.to_nat count) count) numStyles.

(** C4. For three markers and five styles (the styles of a clusterer made
    without options) the default calculator returns the text 3 and the index
    5, where the number of decimal digits of 3, clamped, is 1: the loop
    divides a double by ten until it is zero, 325 times, and does not
    truncate the quotient. *)
Theorem default_calculator_counts_divisions_to_underflow :
  MarkerClusterer.digits_loop (num := float) 400 3%float 0 = Some 325
  /\ (forall fuel, (400 <= fuel)%nat ->
      MarkerClusterer.DEFAULT_SUMCALCULATOR_FUNCTION (num := float) fuel
        [0; 1; 2]%nat 5
      = Some {| text := TextNumber 3; index := 5 |})
  /\ index_by_magnitude 3 5 = 1.
Proof.
  assert (H : MarkerClusterer.digits_loop (num := float) 400 3%float 0
              = Some 325) by (vm_compute; reflexivity).
  split; [exact H|]. split; [|reflexivity].
  intros fuel Hle. unfold MarkerClusterer.DEFAULT_SUMCALCULATOR_FUNCTION.
  change (#(Z.of_nat (List.length [0%nat; 1%nat; 2%nat])))%num with 3%float.
  now rewrite (digits_loop_more_fuel 400 3%float 0 325 fuel H Hle).
Qed.

(** ** The constructor *)

(** The options [{averageCenter: false}]. *)
Definition fixed_center_options : MarkerClustererOptions float :=
  {| opt_gridSize := None; opt_maxZoom := None; opt_minClusterSize := None;
     opt_imagePath := None; opt_imageExtension := None;
     opt_zoomOnClick := None; opt_averageCenter := Some false;
     opt_styles := None |}.

(** Whatever the options say, a clusterer made without markers is in
    average-center mode. *)
Lemma constructor_averageCenter {num : Type} {N : Number num} {M : Math num}
    (host : Host num) (map : MapRef) (options : MarkerClustererOptions num)
    (calculator : SumCalculatorFunc)
    (clusterizer : MarkerClusterer.ClusterizerFunc num) (st : Store num) :
  exists mc,
    MarkerClusterer.constructor host map [] options calculator clusterizer st
    = Returns (mc, st)
    /\ MarkerClusterer.isAverageCenter mc = true.
Proof.
  eexists. split; [reflexivity|].
  unfold MarkerClusterer.isAverageCenter. cbn.
  now destruct (opt_averageCenter options) as [[|]|].
Qed.

(** A cluster in fixed-center mode keeps the center its first member gave
    it. *)
Lemma fixed_center_is_kept {num : Type} {N : Number num} (host : Host num)
    (mc : Settings num) (c c' : Cluster.t num) (marker : MarkerRef)
    (ok : bool) (st st' : Store num) (center : LatLng num) :
  Cluster.averageCenter_ c = false ->
  Cluster.center_ c = Some center ->
  Cluster.addMarker host mc c marker st = Returns (ok, c', st') ->
  Cluster.center_ c' = Some center /\ Cluster.bounds_ c' = Cluster.bounds_ c.
Proof.
  intros Havg Hc H.
  destruct (Cluster.markers_ c) as [ms|] eqn:Hms.
  - destruct (in_dec Nat.eq_dec marker ms) as [Hin|Hnin].
    + rewrite (addMarker_member host mc c marker st ms Hms Hin) in H.
      injection H as _ <- _. now split.
    + rewrite (addMarker_new host mc c marker st ms Hms Hnin) in H.
      cbv zeta in H.
      destruct (Cluster.updateIcon _ _ _ _) as [[c2 st2]| |] eqn:E;
        try discriminate.
      cbn in H. injection H as _ <- _.
      assert (Hsame : same_but_icon
                (Cluster.set_markers (Some (ms ++ [marker]))
                   (Cluster.set_bounds
                      (bounds_after host mc c ms (getPosition st marker))
                      (Cluster.set_center
                         (Some (center_after c ms (getPosition st marker)))
                         c))) c2).
      { unfold Cluster.updateIcon in E. cbn in E.
        destruct (match maxZoom mc with Some _ => _ | None => _ end).
        - injection E as <- _. reflexivity.
        - destruct (_ <? _).
          + injection E as <- _. reflexivity.
          + destruct (sumCalculatorFunc mc _ _); [|discriminate].
            injection E as <- _. reflexivity. }
      apply same_but_icon_fields in Hsame.
      destruct Hsame as (_ & Hc2 & Hb2 & _).
      rewrite Hc2, Hb2. cbn. unfold center_after, bounds_after.
      now rewrite Hc, Havg.
  - unfold Cluster.addMarker, Cluster.isMarkerAlreadyAdded in H.
    rewrite Hms in H. discriminate.
Qed.

(** C6. A clusterer constructed with [averageCenter: false] is in
    average-center mode all the same ([false || true] is [true]): when marker
    1 joins the cluster of marker 0, the center leaves the position of
    marker 0, latitude 0.1, for latitude 0.15000000000000002. *)
Theorem averageCenter_false_is_not_honoured :
  exists mc c st,
    MarkerClusterer.constructor demo_host 0%nat [] fixed_center_options
      (MarkerClusterer.DEFAULT_SUMCALCULATOR_FUNCTION (num := float) 400)
      (MarkerClusterer.DEFAULT_CLUSTERIZER_FUNCTION (M := Math_series))
      tenths = Returns (mc, tenths)
    /\ MarkerClusterer.isAverageCenter mc = true
    /\ joins demo_host (MarkerClusterer.settings mc) [0; 1]%nat
         (Cluster.new (MarkerClusterer.settings mc)) tenths = Returns (c, st)
    /\ getPosition tenths 0%nat
       = {| lat := 0x1.999999999999ap-4%float; lng := 0%float |}
    /\ Cluster.center_ c
       = Some {| lat := 0x1.3333333333334p-3%float; lng := 0%float |}.
Proof.
  eexists _, _, _. split; [reflexivity|].
  split; [reflexivity|]. split; [vm_compute; reflexivity|].
  split; vm_compute; reflexivity.
Qed.

(** ** The default clusterizer on a marker *)



(** ** Removing markers *)

(** A clusterer that has nothing. *)
Definition empty_clusterer (calculator : SumCalculatorFunc)
  : MarkerClusterer.t float :=
  {| MarkerClusterer.settings :=
       {| map := 0%nat; gridSize := 60%float; minClusterSize := 2;
          maxZoom := None; imagePath := "../images/m";
          imageExtension := "png"; zoomOnClick := true;
          averageCenter := true; styles := styles default_settings;
          sumCalculatorFunc := calculator |};
     MarkerClusterer.markers := []; MarkerClusterer.clusters := [];
     MarkerClusterer.sizes := [53; 56; 66; 78; 90];
     MarkerClusterer.ready := false; MarkerClusterer.prevZoom := 3;
     MarkerClusterer.clusterizerFunc :=
       MarkerClusterer.DEFAULT_CLUSTERIZER_FUNCTION (M := Math_series);
     MarkerClusterer.timeouts := [] |}.

(** The clusterer [new MarkerClusterer(map, [0, 1, 2], {}, calculator)]
    once the map has called [onAdd]: the three markers of [tenths] are in
    one cluster. *)
Definition clusterer_of (calculator : SumCalculatorFunc)
  : MarkerClusterer.t float * Store float :=
  returned
    (' (mc, st) <-
        MarkerClusterer.constructor demo_host 0%nat [0; 1; 2]%nat no_options
          calculator
          (MarkerClusterer.DEFAULT_CLUSTERIZER_FUNCTION (M := Math_series))
          tenths ;;
     MarkerClusterer.onAdd demo_host mc st)
    (empty_clusterer calculator, tenths).

Definition demo_clusterer : MarkerClusterer.t float * Store float :=
  clusterer_of (MarkerClusterer.DEFAULT_SUMCALCULATOR_FUNCTION (num := float) 400).

Lemma demo_clusterer_clusters :
  List.map Cluster.markers_ (MarkerClusterer.clusters (fst demo_clusterer))
  = [Some [0; 1; 2]%nat]
  /\ MarkerClusterer.markers (fst demo_clusterer) = [0; 1; 2]%nat.
Proof. split; vm_compute; reflexivity. Qed.

(** [removeMarker(0, true)] on the clusterer of markers 0, 1 and 2. *)
Definition demo_removal
  : outcome (bool * MarkerClusterer.t float * Store float) :=
  MarkerClusterer.removeMarker demo_host 0%nat true (fst demo_clusterer)
    (snd demo_clusterer).

(** The clusterer and the markers after it. *)
Definition demo_after_removal : MarkerClusterer.t float :=
  snd (fst (returned demo_removal
              (false, fst demo_clusterer, snd demo_clusterer))).

Definition demo_store_after_removal : Store float :=
  snd (returned demo_removal (false, fst demo_clusterer, snd demo_clusterer)).

Lemma demo_removal_returns_false :
  demo_removal = Returns (false, demo_after_removal, demo_store_after_removal).
Proof. vm_compute. reflexivity. Qed.

(** C7. [removeMarker(marker, true)] returns [false] whether the marker
    was found or not. When marker 0 is removed in this way from the
    clusterer of markers 0, 1 and 2, it is taken off the map and out of
    [markers], and the call returns [false]. *)
Theorem removeMarker_without_redraw_returns_false :
  (forall {num : Type} {N : Number num} {M : Math num} (host : Host num)
     (marker : MarkerRef) (mc : MarkerClusterer.t num) (st : Store num),
     exists mc' st',
       MarkerClusterer.removeMarker host marker true mc st
       = Returns (false, mc', st')
       /\ (forall index,
             indexOf (MarkerClusterer.markers mc) marker = Some index ->
             MarkerClusterer.removeMarker_ marker mc st = (true, mc', st')
             /\ MarkerClusterer.markers mc'
                = splice1 (MarkerClusterer.markers mc) index
             /\ getMap st' marker = None))
  /\ (exists mc' st',
        demo_removal = Returns (false, mc', st')
        /\ In 0%nat (MarkerClusterer.markers (fst demo_clusterer))
        /\ MarkerClusterer.markers mc' = [1; 2]%nat
        /\ getMap st' 0%nat = None).
Proof.
  split.
  - intros num N M host marker mc st.
    unfold MarkerClusterer.removeMarker, MarkerClusterer.removeMarker_.
    destruct (indexOf (MarkerClusterer.markers mc) marker) as [i|].
    + eexists _, _. split; [reflexivity|].
      intros index Hi. injection Hi as <-. split; [reflexivity|].
      split; [reflexivity|]. apply getMap_setMap_same.
    + eexists _, _. split; [reflexivity|]. discriminate.
  - exists demo_after_removal, demo_store_after_removal.
    split; [exact demo_removal_returns_false|].
    split; [|split; vm_compute; reflexivity].
    assert (E : MarkerClusterer.markers (fst demo_clusterer) = [0; 1; 2]%nat)
      by (vm_compute; reflexivity).
    rewrite E. now left.
Qed.

Lemma map_singleton {A B} (f : A -> B) (l : list A) (v : B) :
  List.map f l = [v] -> exists a, In a l /\ f a = v.
Proof.
  destruct l as [|a [|b l]]; cbn; try discriminate.
  intros H. injection H as H. exists a. split; [now left | exact H].
Qed.

(** After [removeMarker(0, true)] marker 0 is still a member of the
    cluster and no longer one of the markers of the clusterer. *)
Lemma removal_without_redraw_leaves_member :
  exists mc' st',
    demo_removal = Returns (false, mc', st')
    /\ List.map Cluster.markers_ (MarkerClusterer.clusters mc')
       = [Some [0; 1; 2]%nat]
    /\ MarkerClusterer.markers mc' = [1; 2]%nat
    /\ ~ clusters_within_markers mc'.
Proof.
  exists demo_after_removal, demo_store_after_removal.
  assert (Hcs : List.map Cluster.markers_
                  (MarkerClusterer.clusters demo_after_removal)
                = [Some [0; 1; 2]%nat]) by (vm_compute; reflexivity).
  assert (Hms : MarkerClusterer.markers demo_after_removal = [1; 2]%nat)
    by (vm_compute; reflexivity).
  split; [exact demo_removal_returns_false|].
  split; [exact Hcs|]. split; [exact Hms|].
  unfold clusters_within_markers. rewrite Hms. intros H.
  destruct (map_singleton _ _ _ Hcs) as (c & Hin & Hc).
  rewrite Forall_forall in H.
  specialize (H c Hin _ Hc 0%nat (or_introl eq_refl)).
  cbn in H. intuition discriminate.
Qed.

(** The constructor with the default clusterizer and a calculator that
    always returns makes a consistent clusterer. *)
Lemma constructor_keeps {num : Type} {N : Number num} {M : Math num}
    (host : Host num) (map : MapRef) (ms : list MarkerRef)
    (options : MarkerClustererOptions num) (calculator : SumCalculatorFunc)
    (st : Store num) :
  (forall markers numStyles, calculator markers numStyles <> None) ->
  keeps_clusters_within_markers
    (MarkerClusterer.constructor host map ms options calculator
       MarkerClusterer.DEFAULT_CLUSTERIZER_FUNCTION st).
Proof.
  intros Hcalc. unfold MarkerClusterer.constructor.
  match goal with
  | |- context [match ms with [] => Returns (?mc0, _) | _ => _ end] =>
      assert (Hc0 : consistent mc0 /\ clusters_within_markers mc0)
        by (split; [repeat split; try constructor; intros ?; apply Hcalc
                   | constructor]);
      set (mc := mc0) in *
  end.
  destruct Hc0 as [Hc0 Hw0]. destruct ms as [|m ms].
  - now exists mc, st.
  - unfold MarkerClusterer.addMarkers.
    destruct (pushMarkers_consistent (m :: ms) mc st Hc0) as [Hc1 Hw1].
    destruct (fold_left _ (m :: ms) (mc, st)) as [mc1 st1].
    cbn [negb fst] in *. apply redraw_keeps; auto.
Qed.

(** C8 (amended). In a clusterer with the default clusterizer and a
    calculator that always returns, every member of a cluster of the
    clusterer is one of its markers, and this is kept by [addMarker] and
    [addMarkers] (with or without a redraw), by [removeMarker] and
    [removeMarkers] with a redraw, by [resetViewport], by [repaint] and by
    [redraw] (the recomputation of the clusters). It is not kept by a
    removal without redraw, see [removal_without_redraw_leaves_member]. *)
Theorem clusters_stay_within_markers :
  forall {num : Type} {N : Number num} {M : Math num} (host : Host num)
    (mc : MarkerClusterer.t num) (st : Store num),
  consistent mc ->
  clusters_within_markers mc ->
  (forall marker noRedraw,
     keeps_clusters_within_markers
       (MarkerClusterer.addMarker host marker noRedraw mc st))
  /\ (forall ms noRedraw,
        keeps_clusters_within_markers
          (MarkerClusterer.addMarkers host ms noRedraw mc st))
  /\ (forall marker,
        exists removed mc' st',
          MarkerClusterer.removeMarker host marker false mc st
          = Returns (removed, mc', st')
          /\ consistent mc' /\ clusters_within_markers mc')
  /\ (forall ms,
        keeps_clusters_within_markers
          (MarkerClusterer.removeMarkers host ms false mc st))
  /\ (forall hideMarker,
        keeps_clusters_within_markers
          (MarkerClusterer.resetViewport hideMarker mc st))
  /\ keeps_clusters_within_markers (MarkerClusterer.repaint host mc st)
  /\ keeps_clusters_within_markers (MarkerClusterer.redraw host mc st).
Proof.
  intros num N M host mc st Hc Hw.
  split; [|split; [|split; [|split; [|split; [|split]]]]].
  - intros marker noRedraw. unfold MarkerClusterer.addMarker.
    destruct (pushMarkerTo_consistent marker mc st Hc) as [Hc1 Hw1].
    unfold MarkerClusterer.pushMarkerTo in *. cbn [fst] in *.
    destruct noRedraw; cbn [negb].
    + eexists _, _. split; [reflexivity|]. split; [exact Hc1 | auto].
    + apply redraw_keeps; auto.
  - intros ms noRedraw. unfold MarkerClusterer.addMarkers.
    destruct (pushMarkers_consistent ms mc st Hc) as [Hc1 Hw1].
    destruct (fold_left _ ms (mc, st)) as [mc1 st1]. cbn [fst] in *.
    destruct noRedraw; cbn [negb].
    + eexists _, _. split; [reflexivity|]. split; [exact Hc1 | auto].
    + apply redraw_keeps; auto.
  - intros marker. unfold MarkerClusterer.removeMarker.
    destruct (removeMarker__consistent marker mc st Hc) as [Hc1 Hsame].
    destruct (MarkerClusterer.removeMarker_ marker mc st) as [[r mc1] st1].
    cbn [fst snd negb andb] in *. destruct r.
    + destruct (reset_then_redraw_keeps host mc1 st1 Hc1)
        as (mc2 & st2 & Hrun & Hc2 & Hw2).
      destruct (MarkerClusterer.resetViewport false mc1 st1)
        as [[mc3 st3]| |]; cbn [bind] in *; try discriminate.
      rewrite Hrun. cbn [bind]. now exists true, mc2, st2.
    + specialize (Hsame eq_refl). injection Hsame as -> ->.
      now exists false, mc, st.
  - intros ms. unfold MarkerClusterer.removeMarkers.
    destruct (removeMarkers_fold ms false mc st Hc) as [Hc1 Hsame].
    cbv zeta in Hc1, Hsame.
    destruct (fold_left _ ms (false, mc, st)) as [[r mc1] st1].
    cbn [fst snd negb andb] in *. destruct r.
    + now apply reset_then_redraw_keeps.
    + destruct (Hsame eq_refl) as [_ E]. injection E as -> ->.
      now exists mc, st.
  - intros hideMarker. now apply resetViewport_keeps.
  - unfold MarkerClusterer.repaint.
    destruct (set_clusters_nil_consistent mc Hc) as [Hc0 _].
    destruct (resetViewport_returns false _ st Hc0) as (st1 & ->).
    cbn [bind].
    destruct (createClusters_consistent host
                (MarkerClusterer.set_clusters []
                   (MarkerClusterer.set_clusters [] mc)) st1)
      as (mc2 & st2 & Hrun & Hc2 & Hs2 & Hw2).
    { now apply set_clusters_nil_consistent. }
    unfold MarkerClusterer.redraw. rewrite Hrun. cbn [bind].
    eexists _, _. split; [reflexivity|].
    destruct Hc2 as (Hwf2 & Ht2 & Hfun2 & Hcalc2).
    apply same_but_clusters_fields in Hs2. destruct Hs2 as (Hm2 & Htm2 & _).
    split.
    + repeat split; try assumption. cbn. rewrite Htm2. cbn.
      apply Forall_app. split; [apply Hc|].
      constructor; [|constructor].
      eapply Forall_impl; [|apply Hc]. now intros c [Hl _].
    + apply Hw2. constructor.
  - now apply redraw_keeps.
Qed.

(** [well_formed] and [members_within], decided. *)
Definition well_formedb {num : Type} (c : Cluster.t num) : bool :=
  match Cluster.markers_ c with
  | None => false
  | Some _ =>
      match Cluster.center_ c, Cluster.bounds_ c with
      | Some _, None => false
      | _, _ => true
      end
  end.

Definition members_withinb {num : Type} (all : list MarkerRef)
    (c : Cluster.t num) : bool :=
  match Cluster.markers_ c with
  | None => true
  | Some ms => forallb (fun m => existsb (Nat.eqb m) all) ms
  end.

Lemma well_formedb_sound {num : Type} (cs : list (Cluster.t num)) :
  forallb well_formedb cs = true -> Forall well_formed cs.
Proof.
  intros H. rewrite forallb_forall in H. apply Forall_forall.
  intros c Hc. specialize (H c Hc). unfold well_formedb in H.
  destruct (Cluster.markers_ c) as [ms|] eqn:Ems; [|discriminate].
  split; [now exists ms|].
  destruct (Cluster.center_ c), (Cluster.bounds_ c); congruence.
Qed.

Lemma members_withinb_sound {num : Type} (all : list MarkerRef)
    (cs : list (Cluster.t num)) :
  forallb (members_withinb all) cs = true -> Forall (members_within all) cs.
Proof.
  intros H. rewrite forallb_forall in H. apply Forall_forall.
  intros c Hc ms Hms m Hm. specialize (H c Hc). unfold members_withinb in H.
  rewrite Hms in H. rewrite forallb_forall in H. specialize (H m Hm).
  apply existsb_exists in H. destruct H as (x & Hx & E).
  apply Nat.eqb_eq in E. now subst.
Qed.

(** The clusterer of markers 0, 1 and 2 whose calculator is
    [count_calculator]. *)
Definition counting_clusterer : MarkerClusterer.t float :=
  fst (clusterer_of count_calculator).

Definition counting_store : Store float :=
  snd (clusterer_of count_calculator).

Lemma counting_clusterer_consistent :
  consistent (M := Math_series) counting_clusterer
  /\ clusters_within_markers counting_clusterer.
Proof.
  split; [split; [|split; [|split]]|].
  - apply well_formedb_sound. vm_compute. reflexivity.
  - assert (E : MarkerClusterer.timeouts counting_clusterer = [])
      by (vm_compute; reflexivity).
    rewrite E. constructor.
  - vm_compute. reflexivity.
  - intros ms. unfold calculator_returns.
    assert (E : sumCalculatorFunc (MarkerClusterer.settings counting_clusterer)
                = count_calculator) by (vm_compute; reflexivity).
    rewrite E. discriminate.
  - apply members_withinb_sound. vm_compute. reflexivity.
Qed.

(** Marker 1 is added once more to the clusterer of markers 0, 1 and 2,
    and the clusterer is repainted. *)
Lemma clusters_stay_within_markers_witness :
  keeps_clusters_within_markers (M := Math_series)
    (MarkerClusterer.addMarker demo_host 1%nat false counting_clusterer
       counting_store)
  /\ keeps_clusters_within_markers (M := Math_series)
       (MarkerClusterer.repaint demo_host counting_clusterer counting_store).
Proof.
  destruct (clusters_stay_within_markers (M := Math_series) demo_host
              counting_clusterer
              counting_store (proj1 counting_clusterer_consistent)
              (proj2 counting_clusterer_consistent))
    as (Hadd & _ & _ & _ & _ & Hrepaint & _).
  split; [apply Hadd | exact Hrepaint].
Defined.

(** ** Removing clusters *)

Lemma repaint_queues {num : Type} {N : Number num} {M : Math num}
    (host : Host num) (mc : MarkerClusterer.t num) (st : Store num) :
  consistent mc ->
  exists mc' st',
    MarkerClusterer.repaint host mc st = Returns (mc', st')
    /\ consistent mc'
    /\ MarkerClusterer.timeouts mc'
       = MarkerClusterer.timeouts mc ++ [MarkerClusterer.clusters mc].
Proof.
  intros Hc. unfold MarkerClusterer.repaint.
  destruct (set_clusters_nil_consistent mc Hc) as [Hc0 _].
  destruct (resetViewport_returns false _ st Hc0) as (st1 & ->).
  cbn [bind].
  destruct (createClusters_consistent host
              (MarkerClusterer.set_clusters []
                 (MarkerClusterer.set_clusters [] mc)) st1)
    as (mc2 & st2 & Hrun & Hc2 & Hs2 & _).
  { now apply set_clusters_nil_consistent. }
  unfold MarkerClusterer.redraw. rewrite Hrun. cbn [bind].
  eexists _, _. split; [reflexivity|].
  destruct Hc2 as (Hwf2 & Ht2 & Hfun2 & Hcalc2).
  apply same_but_clusters_fields in Hs2. destruct Hs2 as (_ & Htm2 & _).
  cbn in Htm2. split.
  - repeat split; try assumption. cbn. rewrite Htm2.
    apply Forall_app. split; [apply Hc|].
    constructor; [|constructor].
    eapply Forall_impl; [|apply Hc]. now intros c [Hl _].
  - cbn. now rewrite Htm2.
Qed.

Lemma run_timeout_returns {num : Type} {N : Number num} {M : Math num}
    (mc : MarkerClusterer.t num) :
  consistent mc ->
  exists mc',
    MarkerClusterer.run_timeout mc = Returns mc'
    /\ consistent mc'
    /\ MarkerClusterer.timeouts mc' = tl (MarkerClusterer.timeouts mc)
    /\ MarkerClusterer.clusters mc' = MarkerClusterer.clusters mc
    /\ MarkerClusterer.markers mc' = MarkerClusterer.markers mc.
Proof.
  intros (Hwf & Ht & Hfun & Hcalc). unfold MarkerClusterer.run_timeout.
  destruct (MarkerClusterer.timeouts mc) as [|old rest] eqn:E.
  - exists mc. rewrite E. repeat split; try assumption. now rewrite E.
  - inversion Ht as [|? ? Hold Hrest]; subst.
    rewrite (forEach_remove old Hold). cbn [bind].
    eexists. split; [reflexivity|]. now repeat split.
Qed.




(** * Further properties *)

(** ** The style of an icon *)

(** X1. [setSum] records the summary and picks the style at position
    [min(styles.length - 1, max(0, sum.index - 1))]: with at least one style
    the icon always has a style, whatever the index of the summary (indexes
    0 and 1 give the first style, an index above the number of styles gives
    the last); with no style the icon has none. The visibility, the center
    and the styles of the icon do not change. *)
Theorem setSum_picks_style_in_range :
  forall {num : Type} {N : Number num} (icon : ClusterIcon.t num) (sum : Sum),
  ClusterIcon.sum_ (ClusterIcon.setSum sum icon) = Some sum
  /\ ClusterIcon.visible_ (ClusterIcon.setSum sum icon)
     = ClusterIcon.visible_ icon
  /\ ClusterIcon.center_ (ClusterIcon.setSum sum icon)
     = ClusterIcon.center_ icon
  /\ ClusterIcon.styles_ (ClusterIcon.setSum sum icon)
     = ClusterIcon.styles_ icon
  /\ (ClusterIcon.styles_ icon = [] ->
      ClusterIcon.currentStyle (ClusterIcon.setSum sum icon) = None)
  /\ (ClusterIcon.styles_ icon <> [] ->
      exists style,
        ClusterIcon.currentStyle (ClusterIcon.setSum sum icon) = Some style
        /\ nth_error (ClusterIcon.styles_ icon)
             (Z.to_nat
                (Z.min (Z.of_nat (List.length (ClusterIcon.styles_ icon)) - 1)
                   (Z.max 0 (index sum - 1))))
           = Some style).
Proof.
  intros num N icon sum. unfold ClusterIcon.setSum, ClusterIcon.useStyle.
  cbn. repeat (split; [reflexivity|]). split.
  - intros ->. cbn. unfold ClusterIcon.style_at.
    destruct (_ <? _); [reflexivity|]. now destruct (Z.to_nat _).
  - intros Hne. unfold ClusterIcon.style_at.
    set (n := Z.of_nat (List.length (ClusterIcon.styles_ icon))).
    assert (Hn : 0 < n).
    { subst n. destruct (ClusterIcon.styles_ icon); [contradiction|].
      cbn [List.length]. lia. }
    set (i := Z.min (n - 1) (Z.max 0 (index sum - 1))).
    assert (Hi : 0 <= i < n) by lia.
    destruct (Z.ltb_spec i 0); [lia|].
    destruct (nth_error (ClusterIcon.styles_ icon) (Z.to_nat i)) eqn:E.
    + eexists. split; reflexivity.
    + apply nth_error_None in E. lia.
Qed.

(** ** The default calculator, whenever it returns *)

Lemma digits_loop_counts_up {num : Type} {N : Number num} (fuel : nat) :
  forall (dv : num) (index k : Z),
  MarkerClusterer.digits_loop fuel dv index = Some k -> index <= k.
Proof.
  induction fuel as [|fuel IH]; intros dv index k H; cbn in H;
    destruct (negb _); try discriminate.
  - injection H as <-. lia.
  - apply IH in H. lia.
  - injection H as <-. lia.
Qed.



(** ** The haversine distance over the real numbers *)

Lemma haversine_term_sym (x y : R) :
  (sin ((x - y) * PI / 180 / 2) * sin ((x - y) * PI / 180 / 2))%R
  = (sin ((y - x) * PI / 180 / 2) * sin ((y - x) * PI / 180 / 2))%R.
Proof.
  replace ((x - y) * PI / 180 / 2)%R with (- ((y - x) * PI / 180 / 2))%R
    by lra.
  rewrite sin_neg. lra.
Qed.

(** X3. Read over the real numbers, [distanceBetweenPoints] is a distance
    as one expects it: it lies between 0 and half the circumference
    [6371 * PI], it is 0 from a point to itself, and it is the same in both
    directions. When one of the points is [null] it is 0. *)
Theorem distanceBetweenPoints_over_reals :
  (forall p1 p2 : LatLng R,
     (0 <= MarkerClusterer.distanceBetweenPoints (M := Math_R)
             (Some p1) (Some p2) <= 6371 * PI)%R)
  /\ (forall p : LatLng R,
        MarkerClusterer.distanceBetweenPoints (M := Math_R) (Some p) (Some p)
        = 0%R)
  /\ (forall p1 p2 : LatLng R,
        MarkerClusterer.distanceBetweenPoints (M := Math_R) (Some p1) (Some p2)
        = MarkerClusterer.distanceBetweenPoints (M := Math_R)
            (Some p2) (Some p1))
  /\ (forall p : option (LatLng R),
        MarkerClusterer.distanceBetweenPoints (M := Math_R) None p = 0%R
        /\ MarkerClusterer.distanceBetweenPoints (M := Math_R) p None = 0%R).
Proof.
  split; [|split; [|split]].
  - intros p1 p2. unfold MarkerClusterer.distanceBetweenPoints.
    cbn [num_add num_sub num_mul num_div num_of_Z Number_R
         Math_PI Math_sin Math_cos Math_sqrt Math_atan2 Math_R].
    match goal with
    | |- (_ <= _ * (2 * R_atan2 ?y ?x) <= _)%R =>
        pose proof (R_atan2_quadrant y x (sqrt_pos _) (sqrt_pos _)) as [H0 H1]
    end.
    pose proof PI_RGT_0. split; nra.
  - intros p. unfold MarkerClusterer.distanceBetweenPoints.
    cbn [num_add num_sub num_mul num_div num_of_Z Number_R
         Math_PI Math_sin Math_cos Math_sqrt Math_atan2 Math_R].
    replace ((lat p - lat p) * PI / 180 / 2)%R with 0%R by lra.
    replace ((lng p - lng p) * PI / 180 / 2)%R with 0%R by lra.
    rewrite sin_0.
    replace (0 * 0 + cos (lat p * PI / 180) * cos (lat p * PI / 180) * 0 * 0)%R
      with 0%R by lra.
    rewrite Rminus_0_r, sqrt_0, sqrt_1. unfold R_atan2.
    destruct (Rlt_dec 0 1); [|lra].
    unfold Rdiv. rewrite Rmult_0_l, atan_0. lra.
  - intros p1 p2. unfold MarkerClusterer.distanceBetweenPoints.
    cbn [num_add num_sub num_mul num_div num_of_Z Number_R
         Math_PI Math_sin Math_cos Math_sqrt Math_atan2 Math_R].
    assert (E : (sin ((lat p2 - lat p1) * PI / 180 / 2)
                 * sin ((lat p2 - lat p1) * PI / 180 / 2)
                 + cos (lat p1 * PI / 180) * cos (lat p2 * PI / 180)
                   * sin ((lng p2 - lng p1) * PI / 180 / 2)
                   * sin ((lng p2 - lng p1) * PI / 180 / 2))%R
                = (sin ((lat p1 - lat p2) * PI / 180 / 2)
                   * sin ((lat p1 - lat p2) * PI / 180 / 2)
                   + cos (lat p2 * PI / 180) * cos (lat p1 * PI / 180)
                     * sin ((lng p1 - lng p2) * PI / 180 / 2)
                     * sin ((lng p1 - lng p2) * PI / 180 / 2))%R).
    { rewrite (haversine_term_sym (lat p2) (lat p1)).
      rewrite !Rmult_assoc.
      rewrite (haversine_term_sym (lng p2) (lng p1)). ring. }
    now rewrite E.
  - intros p. split; [reflexivity | now destruct p].
Qed.

(** ** The flag [isAdded] *)

Section Flags.
Context {num : Type} {N : Number num}.
Variable host : Host num.
Variable mc : Settings num.

Lemma isAdded_setMap (m : MarkerRef) (v : option MapRef) (st : Store num)
    (r : MarkerRef) :
  isAdded (setMap m v st r) = isAdded (st r).
Proof.
  unfold setMap, update. destruct (Nat.eqb_spec r m) as [->|]; reflexivity.
Qed.

Lemma isAdded_fold_setMap (v : option MapRef) (ms : list MarkerRef)
    (st : Store num) (r : MarkerRef) :
  isAdded (fold_left (fun st m => setMap m v st) ms st r) = isAdded (st r).
Proof.
  revert st. induction ms as [|m ms IH]; intros st; cbn [fold_left].
  - reflexivity.
  - rewrite IH. apply isAdded_setMap.
Qed.

Lemma isAdded_set_isAdded (m : MarkerRef) (b : bool) (st : Store num)
    (r : MarkerRef) :
  isAdded (set_isAdded m b st r) = if Nat.eqb r m then b else isAdded (st r).
Proof.
  unfold set_isAdded, update. destruct (Nat.eqb r m); reflexivity.
Qed.

Lemma isAdded_shown_or_hidden (c : Cluster.t num) (ms : list MarkerRef)
    (m : MarkerRef) (st : Store num) (r : MarkerRef) :
  isAdded (shown_or_hidden c ms m st r) = isAdded (st r).
Proof.
  unfold shown_or_hidden.
  repeat match goal with
         | |- context [if ?b then _ else _] => destruct b
         end;
    rewrite ?isAdded_setMap, ?isAdded_fold_setMap, ?isAdded_setMap;
    reflexivity.
Qed.

Lemma updateIcon_isAdded (c c' : Cluster.t num) (st st' : Store num) :
  Cluster.updateIcon host mc c st = Returns (c', st') ->
  forall r, isAdded (st' r) = isAdded (st r).
Proof.
  unfold Cluster.updateIcon. intros H r.
  destruct (Cluster.markers_ c) as [ms|]; [|discriminate].
  destruct (match maxZoom mc with Some _ => _ | None => _ end).
  - injection H as _ <-. apply isAdded_fold_setMap.
  - destruct (_ <? _).
    + now injection H as _ <-.
    + destruct (sumCalculatorFunc mc ms _); [|discriminate].
      now injection H as _ <-.
Qed.

(** [addMarker] flags the marker it adds and no other marker. *)
Lemma addMarker_isAdded (c c' : Cluster.t num) (m : MarkerRef) (ok : bool)
    (st st' : Store num) :
  Cluster.addMarker host mc c m st = Returns (ok, c', st') ->
  (ok = true -> isAdded (st' m) = true)
  /\ (ok = false -> st' = st)
  /\ (forall r, r <> m -> isAdded (st' r) = isAdded (st r)).
Proof.
  intros H.
  destruct (Cluster.markers_ c) as [ms|] eqn:Hms.
  - destruct (in_dec Nat.eq_dec m ms) as [Hin|Hnin].
    + rewrite (addMarker_member host mc c m st ms Hms Hin) in H.
      injection H as <- _ <-. now repeat split.
    + rewrite (addMarker_new host mc c m st ms Hms Hnin) in H.
      cbv zeta in H.
      destruct (Cluster.updateIcon _ _ _ _) as [[c2 st2]| |] eqn:E;
        try discriminate.
      cbn in H. injection H as <- _ <-.
      pose proof (updateIcon_isAdded _ _ _ _ E) as Hupd.
      split; [|split; [discriminate|]].
      * intros _. rewrite Hupd, isAdded_shown_or_hidden, isAdded_set_isAdded.
        now rewrite Nat.eqb_refl.
      * intros r Hr.
        rewrite Hupd, isAdded_shown_or_hidden, isAdded_set_isAdded.
        now destruct (Nat.eqb_spec r m).
  - unfold Cluster.addMarker, Cluster.isMarkerAlreadyAdded in H.
    rewrite Hms in H. discriminate.
Qed.

End Flags.

(** ** A cluster and its members *)

(** X4. The first marker that joins a new cluster, in either center mode,
    becomes its only member, gives the cluster its position as center and
    the grid-extended bounds of that point as bounds, and is flagged
    [isAdded]; its position is not changed.  This needs the update of the
    icon to return: the zoom is beyond [maxZoom], or the minimum cluster
    size is above 1, or the calculator returns on the one marker. *)
Theorem first_member_sets_center :
  forall {num : Type} {N : Number num} (host : Host num) (mc : Settings num)
    (marker : MarkerRef) (st : Store num),
  beyond_maxZoom host mc = true
  \/ 1 < minClusterSize mc
  \/ calculator_returns mc [marker] ->
  exists c' st',
    Cluster.addMarker host mc (Cluster.new mc) marker st
    = Returns (true, c', st')
    /\ Cluster.markers_ c' = Some [marker]
    /\ Cluster.center_ c' = Some (getPosition st marker)
    /\ Cluster.bounds_ c'
       = Some (getExtendedBounds host mc
                 {| getSouthWest := getPosition st marker;
                    getNorthEast := getPosition st marker |})
    /\ isAdded (st' marker) = true
    /\ getPosition st' marker = getPosition st marker.
Proof.
  intros num N host mc marker st Hret.
  destruct (addMarker_joined host mc (Cluster.new mc) marker st [])
    as (c' & st' & Hadd & _ & Hms & Hc & Hb & _);
    [reflexivity | intros [] | exact Hret |].
  exists c', st'. split; [exact Hadd|]. split; [exact Hms|].
  split; [exact Hc|]. split; [exact Hb|]. split.
  - now apply (addMarker_isAdded host mc _ _ _ _ _ _ Hadd).
  - apply (addMarker_position host mc _ _ _ _ _ _ Hadd).
Qed.

Lemma first_member_sets_center_witness :
  exists c' st',
    Cluster.addMarker demo_host default_settings
      (Cluster.new default_settings) 2%nat tenths = Returns (true, c', st')
    /\ Cluster.markers_ c' = Some [2%nat]
    /\ Cluster.center_ c' = Some (getPosition tenths 2%nat)
    /\ Cluster.bounds_ c'
       = Some (getExtendedBounds demo_host default_settings
                 {| getSouthWest := getPosition tenths 2%nat;
                    getNorthEast := getPosition tenths 2%nat |})
    /\ isAdded (st' 2%nat) = true
    /\ getPosition st' 2%nat = getPosition tenths 2%nat.
Proof.
  apply (first_member_sets_center demo_host default_settings 2%nat tenths).
  right. left. vm_compute. reflexivity.
Defined.

(** The settings of a clusterer whose [averageCenter] is [false]. *)
Definition fixed_center_settings : Settings float :=
  {| map := 0%nat; gridSize := 60%float; minClusterSize := 2;
     maxZoom := None; imagePath := "../images/m"; imageExtension := "png";
     zoomOnClick := true; averageCenter := false;
     styles := styles default_settings;
     sumCalculatorFunc := count_calculator |}.

(** The cluster of such a clusterer that marker 0 has joined. *)
Definition fixed_cluster_1 : Cluster.t float * Store float :=
  returned
    (joins demo_host fixed_center_settings [0%nat]
       (Cluster.new fixed_center_settings) tenths)
    (Cluster.new fixed_center_settings, tenths).

(** X5. In fixed-center mode (the cluster was made while [isAverageCenter()]
    was [false]) [addMarker] on a cluster that has not been removed and has
    a center and bounds returns, when the calculator does, and changes
    neither the center nor the bounds, whether the marker is added or was a
    member already. *)
Theorem fixed_center_mode_keeps_center :
  forall {num : Type} {N : Number num} (host : Host num) (mc : Settings num)
    (c : Cluster.t num) (marker : MarkerRef) (st : Store num)
    (center : LatLng num),
  well_formed c ->
  Cluster.averageCenter_ c = false ->
  Cluster.center_ c = Some center ->
  (forall ms, Cluster.markers_ c = Some ms ->
              calculator_returns mc (ms ++ [marker])) ->
  exists ok c' st',
    Cluster.addMarker host mc c marker st = Returns (ok, c', st')
    /\ Cluster.center_ c' = Some center
    /\ Cluster.bounds_ c' = Cluster.bounds_ c.
Proof.
  intros num N host mc c marker st center Hwf Havg Hc Hcalc.
  destruct (addMarker_well_formed host mc c marker st Hwf Hcalc)
    as (ok & c' & st' & Hadd & _).
  exists ok, c', st'. split; [exact Hadd|].
  now apply (fixed_center_is_kept host mc c c' marker ok st st' center).
Qed.

Lemma fixed_center_mode_keeps_center_witness :
  exists ok c' st',
    Cluster.addMarker demo_host fixed_center_settings (fst fixed_cluster_1)
      1%nat (snd fixed_cluster_1) = Returns (ok, c', st')
    /\ Cluster.center_ c'
       = Some {| lat := 0x1.999999999999ap-4%float; lng := 0%float |}
    /\ Cluster.bounds_ c' = Cluster.bounds_ (fst fixed_cluster_1).
Proof.
  apply (fixed_center_mode_keeps_center demo_host fixed_center_settings
           (fst fixed_cluster_1) 1%nat (snd fixed_cluster_1)).
  - split; [exists [0%nat]; vm_compute; reflexivity|].
    intros _. vm_compute. discriminate.
  - vm_compute. reflexivity.
  - vm_compute. reflexivity.
  - intros ms _. unfold calculator_returns. cbn. discriminate.
Defined.

(** X6. The members of a cluster stay without repetition: on a cluster whose
    members are distinct, and with a calculator that returns, [addMarker]
    returns [true] exactly when the marker was not a member, the member list
    is then the old one with the marker at its end, and is the old one
    otherwise; in both cases the members are distinct afterwards and
    [getSize()] is their number. *)
Theorem members_stay_distinct :
  forall {num : Type} {N : Number num} (host : Host num) (mc : Settings num)
    (c : Cluster.t num) (marker : MarkerRef) (st : Store num)
    (ms : list MarkerRef),
  Cluster.markers_ c = Some ms ->
  NoDup ms ->
  calculator_returns mc (ms ++ [marker]) ->
  exists ok c' st',
    Cluster.addMarker host mc c marker st = Returns (ok, c', st')
    /\ (ok = true <-> ~ In marker ms)
    /\ Cluster.markers_ c' = Some (if ok then ms ++ [marker] else ms)
    /\ NoDup (if ok then ms ++ [marker] else ms)
    /\ Cluster.getSize c'
       = Returns (Z.of_nat (List.length ms) + (if ok then 1 else 0)).
Proof.
  intros num N host mc c marker st ms Hms Hnd Hcalc.
  destruct (in_dec Nat.eq_dec marker ms) as [Hin|Hnin].
  - exists false, c, st.
    rewrite (addMarker_member host mc c marker st ms Hms Hin).
    split; [reflexivity|]. split; [split; [discriminate | contradiction]|].
    split; [exact Hms|]. split; [exact Hnd|].
    unfold Cluster.getSize. rewrite Hms. f_equal. lia.
  - destruct (addMarker_joined host mc c marker st ms Hms Hnin)
      as (c' & st' & Hadd & _ & Hms' & _); [now right; right|].
    exists true, c', st'. split; [exact Hadd|]. split; [tauto|].
    split; [exact Hms'|]. split.
    + apply NoDup_app; [exact Hnd | repeat constructor; intros [] |].
      intros x Hx [<-|[]]. contradiction.
    + unfold Cluster.getSize. rewrite Hms'. f_equal.
      rewrite length_app. cbn [List.length]. lia.
Qed.

Lemma members_stay_distinct_witness :
  exists ok c' st',
    Cluster.addMarker demo_host default_settings (fst demo_cluster_1) 1%nat
      (snd demo_cluster_1) = Returns (ok, c', st')
    /\ (ok = true <-> ~ In 1%nat [0%nat])
    /\ Cluster.markers_ c' = Some (if ok then [0%nat] ++ [1%nat] else [0%nat])
    /\ NoDup (if ok then [0%nat] ++ [1%nat] else [0%nat])
    /\ Cluster.getSize c'
       = Returns (Z.of_nat (List.length [0%nat]) + (if ok then 1 else 0)).
Proof.
  apply (members_stay_distinct demo_host default_settings
           (fst demo_cluster_1) 1%nat (snd demo_cluster_1) [0%nat]).
  - vm_compute. reflexivity.
  - repeat constructor. intros [].
  - unfold calculator_returns. vm_compute. discriminate.
Defined.

(** The cluster of markers 0 and 1 after [remove()]. *)
Definition removed_cluster : Cluster.t float :=
  returned (Cluster.remove (fst demo_cluster_2)) (fst demo_cluster_2).

(** X7. Once [remove()] has set [markers_] to [null], the methods of the
    cluster that read its members throw a [TypeError]:
    [isMarkerAlreadyAdded], [addMarker], [updateIcon] and [getSize], for
    every marker, zoom and setting. *)
Theorem removed_cluster_throws :
  forall {num : Type} {N : Number num} (host : Host num) (mc : Settings num)
    (c : Cluster.t num) (marker : MarkerRef) (st : Store num),
  Cluster.markers_ c = None ->
  Cluster.isMarkerAlreadyAdded c marker = TypeError
  /\ Cluster.addMarker host mc c marker st = TypeError
  /\ Cluster.updateIcon host mc c st = TypeError
  /\ Cluster.getSize c = TypeError.
Proof.
  intros num N host mc c marker st Hms.
  unfold Cluster.addMarker, Cluster.isMarkerAlreadyAdded, Cluster.updateIcon,
    Cluster.getSize.
  rewrite Hms. now repeat split.
Qed.

Lemma removed_cluster_throws_witness :
  Cluster.isMarkerAlreadyAdded removed_cluster 0%nat = TypeError
  /\ Cluster.addMarker demo_host default_settings removed_cluster 0%nat tenths
     = TypeError
  /\ Cluster.updateIcon demo_host default_settings removed_cluster tenths
     = TypeError
  /\ Cluster.getSize removed_cluster = TypeError.
Proof.
  apply (removed_cluster_throws demo_host default_settings removed_cluster
           0%nat tenths).
  vm_compute. reflexivity.
Defined.

(** ** One call of the default clusterizer *)

Section ClusterizerStep.
Context {num : Type} {N : Number num} {M : Math num}.
Variable host : Host num.
Variable mc : Settings num.

(** The marker goes to the cluster at position [i] of the array. *)
Definition added_at (clusters clusters' : list (Cluster.t num))
    (marker : MarkerRef) (st st' : Store num) : Prop :=
  exists i c ok c',
    nth_error clusters i = Some c
    /\ well_formed c
    /\ Cluster.addMarker host mc c marker st = Returns (ok, c', st')
    /\ clusters' = MarkerClusterer.replace_nth i c' clusters.

(** The marker goes to a new cluster at the end of the array. *)
Definition added_to_new (clusters clusters' : list (Cluster.t num))
    (marker : MarkerRef) (st st' : Store num) : Prop :=
  exists c',
    Cluster.addMarker host mc (Cluster.new mc) marker st
    = Returns (true, c', st')
    /\ Cluster.markers_ c' = Some [marker]
    /\ clusters' = clusters ++ [c'].

Lemma default_clusterizer_step (clusters : list (Cluster.t num))
    (marker : MarkerRef) (st : Store num) :
  Forall well_formed clusters ->
  (forall ms, calculator_returns mc ms) ->
  exists clusters' st',
    MarkerClusterer.DEFAULT_CLUSTERIZER_FUNCTION marker clusters mc host st
    = Returns (clusters', st')
    /\ (added_at clusters clusters' marker st st'
        \/ added_to_new clusters clusters' marker st st').
Proof.
  intros Hwf Hcalc.
  assert (Hnew : exists c' st',
             Cluster.addMarker host mc (Cluster.new mc) marker st
             = Returns (true, c', st')
             /\ Cluster.markers_ c' = Some [marker]).
  { destruct (addMarker_joined host mc (Cluster.new mc) marker st [])
      as (c' & st' & Hadd & _ & Hms & _); [reflexivity | intros [] | |].
    - right. right. apply Hcalc.
    - now exists c', st'. }
  destruct Hnew as (cn & stn & Haddn & Hmsn).
  unfold MarkerClusterer.DEFAULT_CLUSTERIZER_FUNCTION.
  destruct (MarkerClusterer.nearest (getPosition st marker) clusters 0
              (#40000)%num None) as [d [i|]] eqn:Enear.
  - apply nearest_index in Enear.
    destruct Enear as [Hnone|(c & Hnth & _ & Hc)]; [discriminate|].
    rewrite Nat.sub_0_r in Hnth. rewrite Hnth.
    assert (Hwfc : well_formed c).
    { rewrite Forall_forall in Hwf. apply Hwf.
      eapply nth_error_In; eassumption. }
    unfold Cluster.isMarkerInClusterBounds.
    destruct (Cluster.bounds_ c) as [bounds|] eqn:Eb;
      [|now elim (proj2 Hwfc Hc)].
    cbn [bind]. destruct (contains host bounds (getPosition st marker)).
    + destruct (addMarker_well_formed host mc c marker st Hwfc)
        as (ok & c' & st' & Hadd & _); [intros; apply Hcalc|].
      exists (MarkerClusterer.replace_nth i c' clusters), st'.
      rewrite Hadd. cbn [bind]. split; [reflexivity|]. left.
      now exists i, c, ok, c'.
    + exists (clusters ++ [cn]), stn. rewrite Haddn. cbn [bind].
      split; [reflexivity|]. right. now exists cn.
  - exists (clusters ++ [cn]), stn. rewrite Haddn. cbn [bind].
    split; [reflexivity|]. right. now exists cn.
Qed.

Lemma replace_nth_length {A} (l : list A) :
  forall (i : nat) (a : A),
  List.length (MarkerClusterer.replace_nth i a l) = List.length l.
Proof.
  induction l as [|x l IH]; intros [|i] a; cbn; try reflexivity.
  now rewrite IH.
Qed.

Lemma replace_nth_nth_error {A} (l : list A) :
  forall (i j : nat) (a b : A),
  nth_error l i = Some b ->
  nth_error (MarkerClusterer.replace_nth i a l) j
  = if Nat.eqb j i then Some a else nth_error l j.
Proof.
  induction l as [|x l IH]; intros [|i] [|j] a b H; cbn in *;
    try discriminate; try reflexivity.
  now apply (IH i j a b).
Qed.

End ClusterizerStep.

(** X8. The default clusterizer never drops or moves a cluster: on clusters
    that have not been removed, and with a calculator that returns, it
    returns, every cluster of the array stays at its index, as it was or as
    [addMarker] of the marker made it, and the array keeps its length or has
    one more cluster.  On an empty array the result is one new cluster
    holding just the marker. *)
Theorem default_clusterizer_keeps_clusters :
  forall {num : Type} {N : Number num} {M : Math num} (host : Host num)
    (mc : Settings num) (clusters : list (Cluster.t num))
    (marker : MarkerRef) (st : Store num),
  Forall well_formed clusters ->
  (forall ms, calculator_returns mc ms) ->
  exists clusters' st',
    MarkerClusterer.DEFAULT_CLUSTERIZER_FUNCTION marker clusters mc host st
    = Returns (clusters', st')
    /\ (List.length clusters' = List.length clusters
        \/ List.length clusters' = S (List.length clusters))
    /\ (forall j c, nth_error clusters j = Some c ->
          exists c',
            nth_error clusters' j = Some c'
            /\ (c' = c
                \/ exists ok,
                     Cluster.addMarker host mc c marker st
                     = Returns (ok, c', st')))
    /\ (clusters = [] ->
        exists c',
          clusters' = [c'] /\ Cluster.markers_ c' = Some [marker]).
Proof.
  intros num N M host mc clusters marker st Hwf Hcalc.
  destruct (default_clusterizer_step host mc clusters marker st Hwf Hcalc)
    as (clusters' & st' & Hrun & Hcase).
  exists clusters', st'. split; [exact Hrun|].
  destruct Hcase as [(i & c & ok & c' & Hnth & _ & Hadd & ->)
                    |(c' & Hadd & Hms & ->)].
  - split; [left; apply replace_nth_length|]. split.
    + intros j cj Hj. rewrite (replace_nth_nth_error clusters i j c' c Hnth).
      destruct (Nat.eqb_spec j i) as [->|Hne].
      * exists c'. split; [reflexivity|]. right. exists ok.
        rewrite Hnth in Hj. injection Hj as <-. exact Hadd.
      * exists cj. split; [exact Hj | now left].
    + intros ->. destruct i; discriminate.
  - split; [right; rewrite length_app; cbn; lia|]. split.
    + intros j cj Hj. exists cj. split; [|now left].
      rewrite nth_error_app1; [exact Hj|].
      apply nth_error_Some. congruence.
    + intros ->. now exists c'.
Qed.

Lemma default_clusterizer_keeps_clusters_witness :
  exists clusters' st',
    MarkerClusterer.DEFAULT_CLUSTERIZER_FUNCTION (M := Math_series) 1%nat
      [fst fixed_cluster_1] fixed_center_settings demo_host
      (snd fixed_cluster_1) = Returns (clusters', st')
    /\ (List.length clusters' = List.length [fst fixed_cluster_1]
        \/ List.length clusters' = S (List.length [fst fixed_cluster_1]))
    /\ (forall j c, nth_error [fst fixed_cluster_1] j = Some c ->
          exists c',
            nth_error clusters' j = Some c'
            /\ (c' = c
                \/ exists ok,
                     Cluster.addMarker demo_host fixed_center_settings c 1%nat
                       (snd fixed_cluster_1) = Returns (ok, c', st')))
    /\ ([fst fixed_cluster_1] = [] ->
        exists c',
          clusters' = [c'] /\ Cluster.markers_ c' = Some [1%nat]).
Proof.
  apply (default_clusterizer_keeps_clusters (M := Math_series) demo_host
           fixed_center_settings [fst fixed_cluster_1] 1%nat
           (snd fixed_cluster_1)).
  - constructor; [|constructor].
    split; [exists [0%nat]; vm_compute; reflexivity|].
    intros _. vm_compute. discriminate.
  - intros ms. unfold calculator_returns. cbn. discriminate.
Defined.

(** ** Removing markers from the clusterer *)

Lemma indexOf_split (ms : list MarkerRef) (m : MarkerRef) :
  forall i,
  indexOf ms m = Some i ->
  exists before after,
    ms = before ++ m :: after
    /\ ~ In m before
    /\ List.length before = i
    /\ splice1 ms i = before ++ after.
Proof.
  induction ms as [|x ms IH]; intros i H; cbn in H; [discriminate|].
  destruct (Nat.eqb_spec x m) as [->|Hne].
  - injection H as <-. exists [], ms. now repeat split.
  - destruct (indexOf ms m) as [j|] eqn:E; [|discriminate].
    injection H as <-.
    destruct (IH j eq_refl) as (before & after & -> & Hnin & Hlen & Hsp).
    exists (x :: before), after. cbn. rewrite Hsp, Hlen.
    repeat split; try reflexivity. intros [->|Hin]; contradiction.
Qed.

Lemma removeMarker__spec :
  forall {num : Type} {N : Number num} {M : Math num} (marker : MarkerRef)
    (mc : MarkerClusterer.t num) (st : Store num),
  exists removed mc' st',
    MarkerClusterer.removeMarker_ marker mc st = (removed, mc', st')
    /\ (removed = true <-> In marker (MarkerClusterer.markers mc))
    /\ (removed = false -> mc' = mc /\ st' = st)
    /\ (removed = true ->
        exists before after,
          MarkerClusterer.markers mc = before ++ marker :: after
          /\ ~ In marker before
          /\ MarkerClusterer.markers mc' = before ++ after
          /\ MarkerClusterer.clusters mc' = MarkerClusterer.clusters mc
          /\ getMap st' marker = None
          /\ forall r, r <> marker -> st' r = st r).
Proof.
  intros num N M marker mc st. unfold MarkerClusterer.removeMarker_.
  destruct (indexOf (MarkerClusterer.markers mc) marker) as [i|] eqn:E.
  - eexists _, _, _. split; [reflexivity|].
    destruct (indexOf_split _ _ _ E) as (before & after & Hms & Hnin & _ & Hsp).
    split; [|split; [discriminate|]].
    + split; [|reflexivity]. intros _. rewrite Hms.
      apply in_or_app. right. now left.
    + intros _. exists before, after. cbn. rewrite Hsp.
      repeat split; try assumption.
      * apply getMap_setMap_same.
      * intros r Hr. unfold setMap, update. now destruct (Nat.eqb_spec r marker).
  - exists false, mc, st. split; [reflexivity|].
    apply indexOf_None in E. split; [|split; [now split | discriminate]].
    split; [discriminate | contradiction].
Qed.

(** X9. [removeMarker_] returns [true] exactly when the marker is among the
    markers of the clusterer. It then takes the marker off the map and
    removes its first occurrence from the array, keeping the other markers
    in their order and touching no other marker and no cluster; when the
    marker is not found nothing changes. *)
Theorem removeMarker__removes_first_occurrence :
  forall {num : Type} {N : Number num} {M : Math num} (marker : MarkerRef)
    (mc : MarkerClusterer.t num) (st : Store num),
  exists removed mc' st',
    MarkerClusterer.removeMarker_ marker mc st = (removed, mc', st')
    /\ (removed = true <-> In marker (MarkerClusterer.markers mc))
    /\ (removed = false -> mc' = mc /\ st' = st)
    /\ (removed = true ->
        exists before after,
          MarkerClusterer.markers mc = before ++ marker :: after
          /\ ~ In marker before
          /\ MarkerClusterer.markers mc' = before ++ after
          /\ MarkerClusterer.clusters mc' = MarkerClusterer.clusters mc
          /\ getMap st' marker = None
          /\ forall r, r <> marker -> st' r = st r).
Proof.
  intros num N M marker mc st. exact (removeMarker__spec marker mc st).
Qed.

Section RemovalWithRedraw.
Context {num : Type} {N : Number num} {M : Math num}.
Variable host : Host num.

(** [resetViewport()] and [redraw()] in a row leave the markers of the
    clusterer as they are. *)
Lemma reset_then_redraw_markers (mc : MarkerClusterer.t num)
    (st : Store num) :
  consistent mc ->
  exists mc' st',
    (' (mc, st) <- MarkerClusterer.resetViewport false mc st ;;
     MarkerClusterer.redraw host mc st) = Returns (mc', st')
    /\ consistent mc'
    /\ clusters_within_markers mc'
    /\ MarkerClusterer.markers mc' = MarkerClusterer.markers mc.
Proof.
  intros Hc. destruct (resetViewport_returns false mc st Hc) as (st1 & ->).
  cbn [bind]. unfold MarkerClusterer.redraw.
  destruct (set_clusters_nil_consistent mc Hc) as [Hc0 Hw0].
  destruct (createClusters_consistent host _ st1 Hc0)
    as (mc' & st' & Hrun & Hc' & Hs & Hw).
  exists mc', st'. split; [exact Hrun|]. split; [exact Hc'|].
  split; [now apply Hw|].
  apply same_but_clusters_fields in Hs. now destruct Hs as (-> & _).
Qed.

End RemovalWithRedraw.

(** X10. On a consistent clusterer [removeMarker(marker, false)] returns:
    [true] exactly when the marker was among the markers, in which case its
    first occurrence is gone from the array, the clusterer is consistent
    again and every member of a cluster is one of the remaining markers;
    [false] otherwise, and then nothing has changed. *)
Theorem removeMarker_with_redraw_tells_found :
  forall {num : Type} {N : Number num} {M : Math num} (host : Host num)
    (marker : MarkerRef) (mc : MarkerClusterer.t num) (st : Store num),
  consistent mc ->
  exists removed mc' st',
    MarkerClusterer.removeMarker host marker false mc st
    = Returns (removed, mc', st')
    /\ (removed = true <-> In marker (MarkerClusterer.markers mc))
    /\ (removed = false -> mc' = mc /\ st' = st)
    /\ (removed = true ->
        consistent mc' /\ clusters_within_markers mc'
        /\ exists before after,
             MarkerClusterer.markers mc = before ++ marker :: after
             /\ ~ In marker before
             /\ MarkerClusterer.markers mc' = before ++ after).
Proof.
  intros num N M host marker mc st Hc. unfold MarkerClusterer.removeMarker.
  pose proof (removeMarker__consistent marker mc st Hc) as [Hc1 _].
  destruct (removeMarker__spec marker mc st)
    as (removed & mc1 & st1 & E & Hiff & Hsame & Hfound).
  rewrite E in Hc1 |- *. cbn [fst snd] in Hc1.
  cbn [negb andb]. destruct removed.
  - destruct (Hfound eq_refl) as (before & after & Hms & Hnin & Hms1 & Hcs).
    destruct (reset_then_redraw_markers host mc1 st1 Hc1)
      as (mc2 & st2 & Hrun & Hc2 & Hw2 & Hms2).
    destruct (MarkerClusterer.resetViewport false mc1 st1)
      as [[mc3 st3]| |]; cbn [bind] in *; try discriminate.
    rewrite Hrun. cbn [bind]. exists true, mc2, st2.
    split; [reflexivity|]. split; [exact Hiff|]. split; [discriminate|].
    intros _. split; [exact Hc2|]. split; [exact Hw2|].
    exists before, after. rewrite Hms2. now repeat split.
  - exists false, mc1, st1. split; [reflexivity|]. split; [exact Hiff|].
    split; [exact Hsame | discriminate].
Qed.

Lemma removeMarker_with_redraw_tells_found_witness :
  exists removed mc' st',
    MarkerClusterer.removeMarker demo_host 1%nat false
      counting_clusterer counting_store = Returns (removed, mc', st')
    /\ (removed = true <-> In 1%nat (MarkerClusterer.markers counting_clusterer))
    /\ (removed = false -> mc' = counting_clusterer /\ st' = counting_store)
    /\ (removed = true ->
        consistent (M := Math_series) mc' /\ clusters_within_markers mc'
        /\ exists before after,
             MarkerClusterer.markers counting_clusterer
             = before ++ 1%nat :: after
             /\ ~ In 1%nat before
             /\ MarkerClusterer.markers mc' = before ++ after).
Proof.
  apply (removeMarker_with_redraw_tells_found (M := Math_series) demo_host
           1%nat counting_clusterer counting_store).
  exact (proj1 counting_clusterer_consistent).
Defined.

(** ** Resetting the viewport *)

Section Reset.
Context {num : Type} {N : Number num}.

(** What [resetViewport] makes of a marker of the clusterer. *)
Definition reset_marker (hideMarker : bool) (s : MarkerState num)
  : MarkerState num :=
  {| position := position s; isAdded := false; draggable := draggable s;
     marker_map := if hideMarker then None else marker_map s |}.

Lemma reset_markers_pointwise (hideMarker : bool) (ms : list MarkerRef) :
  forall (st : Store num) (r : MarkerRef),
  fold_left (fun st marker =>
               let st := set_isAdded marker false st in
               if hideMarker then setMap marker None st else st)
    ms st r
  = if in_dec Nat.eq_dec r ms then reset_marker hideMarker (st r) else st r.
Proof.
  induction ms as [|m ms IH]; intros st r; cbn [fold_left].
  - reflexivity.
  - rewrite IH.
    assert (Hstep : forall x,
               (let st0 := set_isAdded m false st in
                if hideMarker then setMap m None st0 else st0) x
               = if Nat.eqb x m then reset_marker hideMarker (st m)
                 else st x).
    { intros x. cbv zeta. unfold reset_marker.
      destruct hideMarker; unfold setMap, set_isAdded, update;
        destruct (Nat.eqb_spec x m) as [->|]; cbn;
        rewrite ?Nat.eqb_refl; reflexivity. }
    rewrite Hstep.
    destruct (in_dec Nat.eq_dec r ms) as [Hr|Hr];
      destruct (in_dec Nat.eq_dec r (m :: ms)) as [Hm|Hm];
      destruct (Nat.eqb_spec r m) as [->|Hne]; try reflexivity;
      try (unfold reset_marker; cbn; now destruct hideMarker);
      exfalso; cbn in Hm; intuition congruence.
Qed.

Lemma forEach_remove_throws (cs : list (Cluster.t num)) :
  (exists c, In c cs /\ Cluster.markers_ c = None) ->
  forEach (fun cluster (_ : unit) => _ <- Cluster.remove cluster ;; Returns tt)
    cs tt = TypeError.
Proof.
  induction cs as [|c cs IH]; intros (c0 & Hin & Hnone); [destruct Hin|].
  cbn [forEach]. unfold Cluster.remove at 1. cbn.
  destruct (Cluster.markers_ c) as [ms|] eqn:E; cbn; [|reflexivity].
  apply IH. destruct Hin as [->|Hin]; [congruence|]. now exists c0.
Qed.

End Reset.

(** X11. [resetViewport(hideMarker)] on a clusterer none of whose clusters
    has been removed returns with an empty array of clusters; every marker
    of the clusterer has [isAdded] false afterwards and, when [hideMarker]
    is set, is off the map, and is on the map it was on otherwise; positions
    do not change and markers that are not of the clusterer are not touched.
    When a cluster of the clusterer has been removed before, the call throws
    a [TypeError]. *)
Theorem resetViewport_unflags_markers :
  forall {num : Type} {N : Number num} (hideMarker : bool)
    (mc : MarkerClusterer.t num) (st : Store num),
  (Forall live (MarkerClusterer.clusters mc) ->
   exists mc' st',
     MarkerClusterer.resetViewport hideMarker mc st = Returns (mc', st')
     /\ MarkerClusterer.clusters mc' = []
     /\ MarkerClusterer.markers mc' = MarkerClusterer.markers mc
     /\ (forall m, In m (MarkerClusterer.markers mc) ->
           isAdded (st' m) = false
           /\ getMap st' m = (if hideMarker then None else getMap st m))
     /\ (forall m, ~ In m (MarkerClusterer.markers mc) -> st' m = st m)
     /\ (forall m, getPosition st' m = getPosition st m))
  /\ ((exists c, In c (MarkerClusterer.clusters mc)
                 /\ Cluster.markers_ c = None) ->
      MarkerClusterer.resetViewport hideMarker mc st = TypeError).
Proof.
  intros num N hideMarker mc st. unfold MarkerClusterer.resetViewport.
  split.
  - intros Hlive. rewrite (forEach_remove _ Hlive). cbn [bind].
    eexists _, _. split; [reflexivity|]. cbn.
    split; [reflexivity|]. split; [reflexivity|].
    split; [|split].
    + intros m Hm. unfold getMap. rewrite reset_markers_pointwise.
      destruct (in_dec Nat.eq_dec m (MarkerClusterer.markers mc));
        [|contradiction].
      split; [reflexivity|]. cbn. now destruct hideMarker.
    + intros m Hm. rewrite reset_markers_pointwise.
      now destruct (in_dec Nat.eq_dec m (MarkerClusterer.markers mc)).
    + intros m. unfold getPosition. rewrite reset_markers_pointwise.
      now destruct (in_dec Nat.eq_dec m (MarkerClusterer.markers mc)).
  - intros Hdead. now rewrite (forEach_remove_throws _ Hdead).
Qed.

Lemma resetViewport_unflags_markers_witness :
  exists mc' st',
    MarkerClusterer.resetViewport true counting_clusterer counting_store
    = Returns (mc', st')
    /\ MarkerClusterer.clusters mc' = []
    /\ MarkerClusterer.markers mc' = MarkerClusterer.markers counting_clusterer
    /\ (forall m, In m (MarkerClusterer.markers counting_clusterer) ->
          isAdded (st' m) = false
          /\ getMap st' m = (if true then None else getMap counting_store m))
    /\ (forall m, ~ In m (MarkerClusterer.markers counting_clusterer) ->
          st' m = counting_store m)
    /\ (forall m, getPosition st' m = getPosition counting_store m).
Proof.
  apply (proj1 (resetViewport_unflags_markers true
                  counting_clusterer counting_store)).
  eapply Forall_impl;
    [|apply (proj1 (proj1 counting_clusterer_consistent))].
  now intros c [Hl _].
Defined.

(** X12. [clearMarkers()] on a clusterer none of whose clusters has been
    removed leaves it without markers and without clusters, and every
    marker it had is off the map with [isAdded] false. *)
Theorem clearMarkers_empties_clusterer :
  forall {num : Type} {N : Number num}
    (mc : MarkerClusterer.t num) (st : Store num),
  Forall live (MarkerClusterer.clusters mc) ->
  exists mc' st',
    MarkerClusterer.clearMarkers mc st = Returns (mc', st')
    /\ MarkerClusterer.markers mc' = []
    /\ MarkerClusterer.clusters mc' = []
    /\ MarkerClusterer.getTotalMarkers mc' = 0
    /\ MarkerClusterer.getTotalClusters mc' = 0
    /\ (forall m, In m (MarkerClusterer.markers mc) ->
          isAdded (st' m) = false /\ getMap st' m = None).
Proof.
  intros num N mc st Hlive.
  unfold MarkerClusterer.clearMarkers, MarkerClusterer.resetViewport.
  rewrite (forEach_remove _ Hlive). cbn [bind].
  eexists _, _. split; [reflexivity|].
  unfold MarkerClusterer.getTotalMarkers, MarkerClusterer.getTotalClusters.
  do 4 (split; [reflexivity|]).
  intros m Hm. unfold getMap. rewrite (reset_markers_pointwise true).
  destruct (in_dec Nat.eq_dec m (MarkerClusterer.markers mc));
    [|contradiction].
  now split.
Qed.

Lemma clearMarkers_empties_clusterer_witness :
  exists mc' st',
    MarkerClusterer.clearMarkers counting_clusterer counting_store
    = Returns (mc', st')
    /\ MarkerClusterer.markers mc' = []
    /\ MarkerClusterer.clusters mc' = []
    /\ MarkerClusterer.getTotalMarkers mc' = 0
    /\ MarkerClusterer.getTotalClusters mc' = 0
    /\ (forall m, In m (MarkerClusterer.markers counting_clusterer) ->
          isAdded (st' m) = false /\ getMap st' m = None).
Proof.
  apply (clearMarkers_empties_clusterer
           counting_clusterer counting_store).
  eapply Forall_impl;
    [|apply (proj1 (proj1 counting_clusterer_consistent))].
  now intros c [Hl _].
Defined.

(** ** The styles of the icons *)

Lemma nth_error_combine_seq {A : Type} (l : list A) :
  forall (a i : nat),
  nth_error (combine (seq a (List.length l)) l) i
  = option_map (fun x => ((a + i)%nat, x)) (nth_error l i).
Proof.
  induction l as [|x l IH]; intros a [|i]; cbn; try reflexivity.
  - now rewrite Nat.add_0_r.
  - rewrite IH. destruct (nth_error l i); cbn; [|reflexivity].
    do 2 f_equal. lia.
Qed.

(** X13. [setupStyles()] leaves styles that were given as they are.  When
    none was given it makes one style per size, in the order of the sizes:
    the style at index [i] has the size at index [i] as height and as width,
    and its url is the image path, the decimal numeral of [i + 1], a dot and
    the image extension. *)
Theorem setupStyles_one_style_per_size :
  forall (imagePath imageExtension : string) (sizes : list Z)
    (styles : list IconStyle),
  (styles <> [] ->
   MarkerClusterer.setupStyles imagePath imageExtension sizes styles = styles)
  /\ (styles = [] ->
      List.length
        (MarkerClusterer.setupStyles imagePath imageExtension sizes styles)
      = List.length sizes
      /\ forall (i : nat) (sizeNumber : Z),
           nth_error sizes i = Some sizeNumber ->
           nth_error
             (MarkerClusterer.setupStyles imagePath imageExtension sizes
                styles) i
           = Some {| url := String.append imagePath
                              (String.append
                                 (NilEmpty.string_of_uint
                                    (Nat.to_uint (i + 1)))
                                 (String.append "." imageExtension));
                     height := sizeNumber; width := sizeNumber |}).
Proof.
  intros imagePath imageExtension sizes styles.
  unfold MarkerClusterer.setupStyles. split.
  - intros Hne. destruct styles as [|s styles]; [contradiction|].
    reflexivity.
  - intros ->. cbn [List.length Z.of_nat Z.ltb Z.compare app]. split.
    + rewrite length_map, length_combine, length_seq. apply Nat.min_id.
    + intros i sizeNumber Hi.
      rewrite nth_error_map, nth_error_combine_seq, Hi. reflexivity.
Qed.

(** ** The listener of [zoom_changed] *)

(** X14. The listener of [zoom_changed] on a clusterer none of whose
    clusters has been removed returns and leaves [prevZoom] at the zoom of
    the map.  When the zoom is the one it saw last, nothing changes.
    Otherwise the clusters are dropped and every marker of the clusterer has
    [isAdded] false and stays on the map it was on.  A second event at the
    same zoom changes nothing. *)
Theorem zoom_changed_resets_once :
  forall {num : Type} {N : Number num} (host : Host num)
    (mc : MarkerClusterer.t num) (st : Store num),
  Forall live (MarkerClusterer.clusters mc) ->
  exists mc' st',
    MarkerClusterer.on_zoom_changed host mc st = Returns (mc', st')
    /\ MarkerClusterer.prevZoom mc' = getZoom host
    /\ MarkerClusterer.markers mc' = MarkerClusterer.markers mc
    /\ (MarkerClusterer.prevZoom mc = getZoom host -> mc' = mc /\ st' = st)
    /\ (MarkerClusterer.prevZoom mc <> getZoom host ->
        MarkerClusterer.clusters mc' = []
        /\ forall m, In m (MarkerClusterer.markers mc) ->
             isAdded (st' m) = false /\ getMap st' m = getMap st m)
    /\ MarkerClusterer.on_zoom_changed host mc' st' = Returns (mc', st').
Proof.
  intros num N host mc st Hlive.
  assert (Hsame : forall mc0 st0,
             MarkerClusterer.prevZoom mc0 = getZoom host ->
             MarkerClusterer.on_zoom_changed host mc0 st0
             = Returns (mc0, st0)).
  { intros mc0 st0 E. unfold MarkerClusterer.on_zoom_changed.
    cbv zeta. now rewrite E, Z.eqb_refl. }
  destruct (Z.eq_dec (MarkerClusterer.prevZoom mc) (getZoom host)) as [E|E].
  - exists mc, st. rewrite (Hsame mc st E).
    repeat split; try assumption; try reflexivity; contradiction.
  - unfold MarkerClusterer.on_zoom_changed at 1. cbv zeta.
    apply Z.eqb_neq in E. rewrite E. cbn [negb].
    unfold MarkerClusterer.resetViewport. cbn [MarkerClusterer.set_prevZoom
      MarkerClusterer.clusters MarkerClusterer.markers].
    rewrite (forEach_remove _ Hlive). cbn [bind].
    eexists _, _. split; [reflexivity|].
    split; [reflexivity|]. split; [reflexivity|].
    split; [intros E'; apply Z.eqb_neq in E; contradiction|].
    split; [|now apply Hsame].
    intros _. split; [reflexivity|].
    intros m Hm. unfold getMap. rewrite (reset_markers_pointwise false).
    destruct (in_dec Nat.eq_dec m (MarkerClusterer.markers mc));
      [|contradiction].
    now split.
Qed.

Lemma zoom_changed_resets_once_witness :
  exists mc' st',
    MarkerClusterer.on_zoom_changed (flat_host 4 whole_map) counting_clusterer
      counting_store = Returns (mc', st')
    /\ MarkerClusterer.prevZoom mc' = getZoom (flat_host 4 whole_map)
    /\ MarkerClusterer.markers mc' = MarkerClusterer.markers counting_clusterer
    /\ (MarkerClusterer.prevZoom counting_clusterer
        = getZoom (flat_host 4 whole_map) ->
        mc' = counting_clusterer /\ st' = counting_store)
    /\ (MarkerClusterer.prevZoom counting_clusterer
        <> getZoom (flat_host 4 whole_map) ->
        MarkerClusterer.clusters mc' = []
        /\ forall m, In m (MarkerClusterer.markers counting_clusterer) ->
             isAdded (st' m) = false
             /\ getMap st' m = getMap counting_store m)
    /\ MarkerClusterer.on_zoom_changed (flat_host 4 whole_map) mc' st'
       = Returns (mc', st').
Proof.
  apply (zoom_changed_resets_once (flat_host 4 whole_map) counting_clusterer
           counting_store).
  eapply Forall_impl;
    [|apply (proj1 (proj1 counting_clusterer_consistent))].
  now intros c [Hl _].
Defined.

(** ** Calls in a row *)

Section Calls.
Context {num : Type} {N : Number num}.
Variable host : Host num.

(** A call of a public method of the clusterer, or an event of the map or
    of a marker that one of its listeners takes. *)
Inductive call : Type :=
| call_addMarker (marker : MarkerRef) (noRedraw : bool)
| call_addMarkers (markers : list MarkerRef) (noRedraw : bool)
| call_removeMarker (marker : MarkerRef) (noRedraw : bool)
| call_removeMarkers (markers : list MarkerRef) (noRedraw : bool)
| call_redraw
| call_repaint
| call_resetViewport (hideMarker : bool)
| call_clearMarkers
| event_zoom_changed
| event_idle
| event_dragend (marker : MarkerRef).

Definition run_call (c : call) (mc : MarkerClusterer.t num) (st : Store num)
  : outcome (MarkerClusterer.t num * Store num) :=
  match c with
  | call_addMarker marker noRedraw =>
      MarkerClusterer.addMarker host marker noRedraw mc st
  | call_addMarkers markers noRedraw =>
      MarkerClusterer.addMarkers host markers noRedraw mc st
  | call_removeMarker marker noRedraw =>
      ' (_, mc, st) <- MarkerClusterer.removeMarker host marker noRedraw mc st ;;
      Returns (mc, st)
  | call_removeMarkers markers noRedraw =>
      MarkerClusterer.removeMarkers host markers noRedraw mc st
  | call_redraw => MarkerClusterer.redraw host mc st
  | call_repaint => MarkerClusterer.repaint host mc st
  | call_resetViewport hideMarker =>
      MarkerClusterer.resetViewport hideMarker mc st
  | call_clearMarkers => MarkerClusterer.clearMarkers mc st
  | event_zoom_changed => MarkerClusterer.on_zoom_changed host mc st
  | event_idle => MarkerClusterer.on_idle host mc st
  | event_dragend marker => MarkerClusterer.on_dragend host marker mc st
  end.

Definition run_calls (cs : list call) (mc : MarkerClusterer.t num)
    (st : Store num) : outcome (MarkerClusterer.t num * Store num) :=
  forEach (fun c '(mc, st) => run_call c mc st) cs (mc, st).

(** The overlay has not been added to the map, and there is no cluster. *)
Definition dormant (mc : MarkerClusterer.t num) : Prop :=
  MarkerClusterer.ready mc = false /\ MarkerClusterer.clusters mc = [].

Lemma pushMarkers_fields (ms : list MarkerRef) :
  forall (mc : MarkerClusterer.t num) (st : Store num),
  fst (fold_left
         (fun '(mc, st) marker => MarkerClusterer.pushMarkerTo marker mc st)
         ms (mc, st))
  = MarkerClusterer.set_markers (MarkerClusterer.markers mc ++ ms) mc.
Proof.
  induction ms as [|m ms IH]; intros mc st; cbn [fold_left].
  - rewrite app_nil_r. now destruct mc.
  - unfold MarkerClusterer.pushMarkerTo at 2. rewrite IH.
    unfold MarkerClusterer.set_markers. cbn. now rewrite <- app_assoc.
Qed.

Lemma removeMarker__dormant (marker : MarkerRef)
    (mc : MarkerClusterer.t num) (st : Store num) :
  dormant mc ->
  dormant (snd (fst (MarkerClusterer.removeMarker_ marker mc st))).
Proof.
  intros H. unfold MarkerClusterer.removeMarker_.
  now destruct (indexOf _ _).
Qed.

Lemma removeMarkers_dormant (ms : list MarkerRef) :
  forall (removed : bool) (mc : MarkerClusterer.t num) (st : Store num),
  dormant mc ->
  dormant
    (snd (fst (fold_left
                 (fun '(removed, mc, st) marker =>
                    let '(r, mc, st) :=
                      MarkerClusterer.removeMarker_ marker mc st in
                    (removed || r, mc, st))
                 ms (removed, mc, st)))).
Proof.
  induction ms as [|m ms IH]; intros removed mc st H; cbn [fold_left].
  - exact H.
  - pose proof (removeMarker__dormant m mc st H) as H1.
    destruct (MarkerClusterer.removeMarker_ m mc st) as [[r mc1] st1].
    now apply IH.
Qed.

Lemma redraw_dormant (mc : MarkerClusterer.t num) (st : Store num) :
  MarkerClusterer.ready mc = false ->
  MarkerClusterer.redraw host mc st = Returns (mc, st).
Proof.
  intros H. unfold MarkerClusterer.redraw, MarkerClusterer.createClusters_.
  now rewrite H.
Qed.

Lemma resetViewport_dormant (hideMarker : bool)
    (mc : MarkerClusterer.t num) (st : Store num) :
  dormant mc ->
  exists st',
    MarkerClusterer.resetViewport hideMarker mc st = Returns (mc, st').
Proof.
  intros [Hr Hc]. unfold MarkerClusterer.resetViewport. rewrite Hc.
  cbn [forEach bind]. eexists. f_equal. f_equal.
  destruct mc. cbn in *. now subst.
Qed.

Lemma run_call_dormant (c : call) (mc : MarkerClusterer.t num)
    (st : Store num) :
  dormant mc ->
  exists mc' st', run_call c mc st = Returns (mc', st') /\ dormant mc'.
Proof.
  intros H.
  assert (Hreset_redraw : forall mc0 st0, dormant mc0 ->
            exists st1,
              (' (mc, st) <- MarkerClusterer.resetViewport false mc0 st0 ;;
               MarkerClusterer.redraw host mc st) = Returns (mc0, st1)).
  { intros mc0 st0 H0.
    destruct (resetViewport_dormant false mc0 st0 H0) as (st1 & ->).
    cbn [bind]. exists st1. apply redraw_dormant, H0. }
  destruct c as [marker noRedraw|ms noRedraw|marker noRedraw|ms noRedraw
                | | |hideMarker| | | |marker]; cbn [run_call].
  - unfold MarkerClusterer.addMarker, MarkerClusterer.pushMarkerTo.
    destruct noRedraw; cbn [negb]; [|rewrite redraw_dormant by apply H];
      eexists _, _; (split; [reflexivity | exact H]).
  - unfold MarkerClusterer.addMarkers.
    pose proof (pushMarkers_fields ms mc st) as E.
    destruct (fold_left _ ms (mc, st)) as [mc1 st1]. cbn [fst] in E.
    assert (H1 : dormant mc1) by (subst mc1; exact H).
    destruct noRedraw; cbn [negb]; [|rewrite redraw_dormant by apply H1];
      eexists _, _; (split; [reflexivity | exact H1]).
  - unfold MarkerClusterer.removeMarker.
    pose proof (removeMarker__dormant marker mc st H) as H1.
    destruct (MarkerClusterer.removeMarker_ marker mc st) as [[r mc1] st1].
    cbn [fst snd] in H1.
    destruct (negb noRedraw && r).
    + destruct (Hreset_redraw mc1 st1 H1) as (st2 & E).
      destruct (MarkerClusterer.resetViewport false mc1 st1)
        as [[mc3 st3]| |]; cbn [bind] in *; try discriminate.
      rewrite E. cbn [bind]. now exists mc1, st2.
    + cbn [bind]. now exists mc1, st1.
  - unfold MarkerClusterer.removeMarkers.
    pose proof (removeMarkers_dormant ms false mc st H) as H1.
    destruct (fold_left _ ms (false, mc, st)) as [[r mc1] st1].
    cbn [fst snd] in H1.
    destruct (negb noRedraw && r).
    + destruct (Hreset_redraw mc1 st1 H1) as (st2 & E).
      rewrite E. now exists mc1, st2.
    + now exists mc1, st1.
  - rewrite redraw_dormant by apply H. now exists mc, st.
  - unfold MarkerClusterer.repaint. cbv zeta.
    assert (H0 : dormant (MarkerClusterer.set_clusters [] mc))
      by (split; [apply H | reflexivity]).
    destruct (resetViewport_dormant false _ st H0) as (st1 & ->).
    cbn [bind]. rewrite redraw_dormant by apply H0. cbn [bind].
    eexists _, _. split; [reflexivity|]. exact H0.
  - destruct (resetViewport_dormant hideMarker mc st H) as (st1 & ->).
    now exists mc, st1.
  - unfold MarkerClusterer.clearMarkers.
    destruct (resetViewport_dormant true mc st H) as (st1 & ->).
    cbn [bind]. eexists _, _. split; [reflexivity|]. exact H.
  - unfold MarkerClusterer.on_zoom_changed. cbv zeta.
    destruct (negb _).
    + assert (H0 : dormant
                     (MarkerClusterer.set_prevZoom (getZoom host) mc))
        by exact H.
      destruct (resetViewport_dormant false _ st H0) as (st1 & ->).
      eexists _, _. split; [reflexivity | exact H0].
    + now exists mc, st.
  - unfold MarkerClusterer.on_idle. rewrite redraw_dormant by apply H.
    now exists mc, st.
  - unfold MarkerClusterer.on_dragend, MarkerClusterer.repaint. cbv zeta.
    assert (H0 : dormant (MarkerClusterer.set_clusters [] mc))
      by (split; [apply H | reflexivity]).
    destruct (resetViewport_dormant false _
                (set_isAdded marker false st) H0) as (st1 & ->).
    cbn [bind]. rewrite redraw_dormant by apply H0. cbn [bind].
    eexists _, _. split; [reflexivity|]. exact H0.
Qed.

End Calls.

(** X15. Until the map calls [onAdd] the clusterer makes no cluster: on a
    clusterer that is not ready and has no cluster, every sequence of calls
    of [addMarker], [addMarkers], [removeMarker], [removeMarkers], [redraw],
    [repaint], [resetViewport] and [clearMarkers], with either value of
    their flag, and of events [zoom_changed], [idle] and [dragend], returns
    and leaves it not ready and without a cluster. *)
Theorem no_cluster_before_onAdd :
  forall {num : Type} {N : Number num} (host : Host num) (cs : list call)
    (mc : MarkerClusterer.t num) (st : Store num),
  MarkerClusterer.ready mc = false ->
  MarkerClusterer.clusters mc = [] ->
  exists mc' st',
    run_calls host cs mc st = Returns (mc', st')
    /\ MarkerClusterer.ready mc' = false
    /\ MarkerClusterer.clusters mc' = []
    /\ MarkerClusterer.getTotalClusters mc' = 0.
Proof.
  intros num N host cs mc st Hr Hc. unfold run_calls.
  destruct (forEach_invariant (fun s => dormant (fst s))
              (fun c '(mc, st) => run_call host c mc st) cs)
    with (s := (mc, st)) as ([mc' st'] & Hrun & Hr' & Hc').
  - intros c [mc1 st1] _ H1. cbn [fst] in H1.
    destruct (run_call_dormant host c mc1 st1 H1) as (mc2 & st2 & E & H2).
    now exists (mc2, st2).
  - now split.
  - exists mc', st'. cbn [fst] in *. split; [exact Hrun|].
    split; [exact Hr'|]. split; [exact Hc'|].
    unfold MarkerClusterer.getTotalClusters. now rewrite Hc'.
Qed.

Lemma no_cluster_before_onAdd_witness :
  exists mc' st',
    run_calls demo_host
      [call_addMarkers [0; 1; 2]%nat false; call_removeMarker 1%nat false;
       event_idle; call_repaint]
      (empty_clusterer count_calculator) tenths = Returns (mc', st')
    /\ MarkerClusterer.ready mc' = false
    /\ MarkerClusterer.clusters mc' = []
    /\ MarkerClusterer.getTotalClusters mc' = 0.
Proof.
  apply (no_cluster_before_onAdd demo_host
           [call_addMarkers [0; 1; 2]%nat false; call_removeMarker 1%nat false;
            event_idle; call_repaint]
           (empty_clusterer count_calculator) tenths); reflexivity.
Defined.

(** X16. [addMarkers(markers, noRedraw)] on a consistent clusterer returns,
    and the array of markers is the old one followed by the given markers in
    their order: a marker that is given twice, or that the clusterer has
    already, is in the array once more, and [getTotalMarkers()] grows by the
    number of markers given. *)
Theorem addMarkers_appends :
  forall {num : Type} {N : Number num} {M : Math num} (host : Host num)
    (ms : list MarkerRef) (noRedraw : bool) (mc : MarkerClusterer.t num)
    (st : Store num),
  consistent mc ->
  exists mc' st',
    MarkerClusterer.addMarkers host ms noRedraw mc st = Returns (mc', st')
    /\ consistent mc'
    /\ MarkerClusterer.markers mc' = MarkerClusterer.markers mc ++ ms
    /\ MarkerClusterer.getTotalMarkers mc'
       = MarkerClusterer.getTotalMarkers mc + Z.of_nat (List.length ms).
Proof.
  intros num N M host ms noRedraw mc st Hc.
  assert (Hlen : forall mc' : MarkerClusterer.t num,
             MarkerClusterer.markers mc' = MarkerClusterer.markers mc ++ ms ->
             MarkerClusterer.getTotalMarkers mc'
             = MarkerClusterer.getTotalMarkers mc
               + Z.of_nat (List.length ms)).
  { intros mc' E. unfold MarkerClusterer.getTotalMarkers.
    rewrite E, length_app. lia. }
  unfold MarkerClusterer.addMarkers.
  pose proof (pushMarkers_fields ms mc st) as E.
  pose proof (pushMarkers_consistent ms mc st Hc) as [Hc1 _].
  destruct (fold_left _ ms (mc, st)) as [mc1 st1]. cbn [fst] in E, Hc1.
  assert (Hms1 : MarkerClusterer.markers mc1
                 = MarkerClusterer.markers mc ++ ms) by now subst mc1.
  destruct noRedraw; cbn [negb].
  - exists mc1, st1. split; [reflexivity|]. split; [exact Hc1|].
    split; [exact Hms1 | now apply Hlen].
  - unfold MarkerClusterer.redraw.
    destruct (createClusters_consistent host mc1 st1 Hc1)
      as (mc2 & st2 & Hrun & Hc2 & Hs & _).
    apply same_but_clusters_fields in Hs. destruct Hs as (Hms2 & _).
    exists mc2, st2. split; [exact Hrun|]. split; [exact Hc2|].
    rewrite Hms2. split; [exact Hms1|]. apply Hlen. congruence.
Qed.

Lemma addMarkers_appends_witness :
  exists mc' st',
    MarkerClusterer.addMarkers demo_host [1; 1]%nat false counting_clusterer
      counting_store = Returns (mc', st')
    /\ consistent (M := Math_series) mc'
    /\ MarkerClusterer.markers mc'
       = MarkerClusterer.markers counting_clusterer ++ [1; 1]%nat
    /\ MarkerClusterer.getTotalMarkers mc'
       = MarkerClusterer.getTotalMarkers counting_clusterer
         + Z.of_nat (List.length [1; 1]%nat).
Proof.
  apply (addMarkers_appends (M := Math_series) demo_host [1; 1]%nat false
           counting_clusterer counting_store).
  exact (proj1 counting_clusterer_consistent).
Defined.

(** ** What [redraw] does to the markers in view *)

Section Redraw.
Context {num : Type} {N : Number num} {M : Math num}.
Variable host : Host num.

(** The members of a cluster; a removed cluster has none. *)
Definition members_of (c : Cluster.t num) : list MarkerRef :=
  match Cluster.markers_ c with
  | Some ms => ms
  | None => []
  end.

(** The members of the clusters, cluster after cluster. *)
Definition all_members (cs : list (Cluster.t num)) : list MarkerRef :=
  flat_map members_of cs.

(** No marker is a member twice, and every member has [isAdded] set. *)
Definition tidy (cs : list (Cluster.t num)) (st : Store num) : Prop :=
  NoDup (all_members cs)
  /\ forall m, In m (all_members cs) -> isAdded (st m) = true.

(** The bounds [createClusters_] tests the markers against. *)
Definition viewport (s : Settings num) : LatLngBounds num :=
  getExtendedBounds host s
    {| getSouthWest := getSouthWest (getBounds host);
       getNorthEast := getNorthEast (getBounds host) |}.

Definition in_viewport (s : Settings num) (st : Store num) (m : MarkerRef)
  : bool :=
  isMarkerInBounds_ host st m (viewport s).

Lemma all_members_replace_nth (m : MarkerRef) (c c' : Cluster.t num)
    (cs : list (Cluster.t num)) :
  forall i : nat,
  nth_error cs i = Some c ->
  members_of c' = members_of c ++ [m] ->
  Permutation (m :: all_members cs)
    (all_members (MarkerClusterer.replace_nth i c' cs)).
Proof.
  induction cs as [|x cs IH]; intros [|i] Hnth Hc'; cbn in Hnth;
    try discriminate.
  - injection Hnth as ->. cbn. rewrite Hc', <- app_assoc. cbn.
    apply Permutation_middle.
  - cbn. fold (all_members cs).
    fold (all_members (MarkerClusterer.replace_nth i c' cs)).
    eapply Permutation_trans; [apply Permutation_middle|].
    apply Permutation_app_head. now apply IH.
Qed.

Lemma forEach_prefix {A S : Type} (I : list A -> S -> Prop)
    (f : A -> S -> outcome S) (all : list A) :
  (forall pre x post s, all = pre ++ x :: post -> I pre s ->
     exists s', f x s = Returns s' /\ I (pre ++ [x]) s') ->
  forall xs pre s, all = pre ++ xs -> I pre s ->
  exists s', forEach f xs s = Returns s' /\ I all s'.
Proof.
  intros Hf. induction xs as [|x xs IH]; intros pre s E HI; cbn [forEach].
  - exists s. rewrite app_nil_r in E. now subst.
  - destruct (Hf pre x xs s E HI) as (s1 & -> & H1). cbn [bind].
    apply (IH (pre ++ [x])); [|exact H1]. now rewrite <- app_assoc.
Qed.

Lemma forEach_skip {A S : Type} (f : A -> S -> outcome S) (xs : list A)
    (s : S) :
  (forall x, In x xs -> f x s = Returns s) -> forEach f xs s = Returns s.
Proof.
  induction xs as [|x xs IH]; intros H; cbn [forEach]; [reflexivity|].
  rewrite (H x (or_introl eq_refl)). cbn [bind]. apply IH.
  intros y Hy. apply H. now right.
Qed.

(** The default clusterizer on a marker that is not flagged. *)
Lemma default_clusterizer_takes (s : Settings num)
    (cs : list (Cluster.t num)) (marker : MarkerRef) (st : Store num) :
  Forall well_formed cs ->
  (forall ms, calculator_returns s ms) ->
  tidy cs st ->
  isAdded (st marker) = false ->
  exists cs' st',
    MarkerClusterer.DEFAULT_CLUSTERIZER_FUNCTION marker cs s host st
    = Returns (cs', st')
    /\ Forall well_formed cs'
    /\ Permutation (marker :: all_members cs) (all_members cs')
    /\ isAdded (st' marker) = true
    /\ (forall r, r <> marker -> isAdded (st' r) = isAdded (st r))
    /\ (forall r, getPosition st' r = getPosition st r).
Proof.
  intros Hwf Hcalc [Hnd Hflag] Hm.
  destruct (default_clusterizer_sound host s cs marker st Hwf Hcalc)
    as (cs' & st' & Hrun & Hwf' & _).
  destruct (default_clusterizer_step host s cs marker st Hwf Hcalc)
    as (cs2 & st2 & Hrun2 & Hstep).
  rewrite Hrun in Hrun2. injection Hrun2 as <- <-.
  exists cs', st'. split; [exact Hrun|]. split; [exact Hwf'|].
  destruct Hstep as [(i & c & ok & c' & Hnth & Hwfc & Hadd & ->)
                    |(c' & Hadd & Hms & ->)].
  - destruct Hwfc as [[ms Hmsc] _].
    assert (Hnin : ~ In marker ms).
    { intros Hin. assert (isAdded (st marker) = true); [|congruence].
      apply Hflag. unfold all_members. apply in_flat_map. exists c.
      split; [eapply nth_error_In; eassumption|].
      unfold members_of. now rewrite Hmsc. }
    destruct (addMarker_joined host s c marker st ms Hmsc Hnin)
      as (c2 & st3 & Hadd2 & _ & Hms2 & _); [right; right; apply Hcalc|].
    rewrite Hadd in Hadd2. injection Hadd2 as -> -> ->.
    destruct (addMarker_isAdded host s _ _ _ _ _ _ Hadd) as (Ht & _ & Ho).
    split; [|split; [now apply Ht|split; [exact Ho|]]].
    + apply (all_members_replace_nth marker c c2 cs i Hnth).
      unfold members_of. now rewrite Hms2, Hmsc.
    + eapply addMarker_position; eassumption.
  - destruct (addMarker_isAdded host s _ _ _ _ _ _ Hadd) as (Ht & _ & Ho).
    split; [|split; [now apply Ht|split; [exact Ho|]]].
    + unfold all_members. rewrite flat_map_app. cbn.
      unfold members_of at 3. rewrite Hms, app_nil_r.
      apply Permutation_cons_append.
    + eapply addMarker_position; eassumption.
Qed.

(** [redraw] on a ready clusterer whose clusters are tidy. *)
Lemma redraw_spec (mc : MarkerClusterer.t num) (st : Store num) :
  consistent mc ->
  MarkerClusterer.ready mc = true ->
  tidy (MarkerClusterer.clusters mc) st ->
  exists mc' st',
    MarkerClusterer.redraw host mc st = Returns (mc', st')
    /\ consistent mc'
    /\ same_but_clusters mc mc'
    /\ tidy (MarkerClusterer.clusters mc') st'
    /\ (forall r, getPosition st' r = getPosition st r)
    /\ (forall m,
          In m (all_members (MarkerClusterer.clusters mc'))
          <-> In m (all_members (MarkerClusterer.clusters mc))
              \/ (In m (MarkerClusterer.markers mc)
                  /\ isAdded (st m) = false
                  /\ in_viewport (MarkerClusterer.settings mc) st m = true))
    /\ (forall r,
          isAdded (st' r) = true
          <-> isAdded (st r) = true
              \/ (In r (MarkerClusterer.markers mc)
                  /\ in_viewport (MarkerClusterer.settings mc) st r = true)).
Proof.
  intros Hc Hready Htidy.
  unfold MarkerClusterer.redraw, MarkerClusterer.createClusters_.
  rewrite Hready. cbn [negb]. cbv zeta.
  fold (viewport (MarkerClusterer.settings mc)).
  set (J := fun (pre : list MarkerRef)
                (s : MarkerClusterer.t num * Store num) =>
              consistent (fst s)
              /\ same_but_clusters mc (fst s)
              /\ tidy (MarkerClusterer.clusters (fst s)) (snd s)
              /\ (forall r, getPosition (snd s) r = getPosition st r)
              /\ (forall m,
                    In m (all_members (MarkerClusterer.clusters (fst s)))
                    <-> In m (all_members (MarkerClusterer.clusters mc))
                        \/ (In m pre
                            /\ isAdded (st m) = false
                            /\ in_viewport (MarkerClusterer.settings mc) st m
                               = true))
              /\ (forall r,
                    isAdded (snd s r) = true
                    <-> isAdded (st r) = true
                        \/ (In r pre
                            /\ in_viewport (MarkerClusterer.settings mc) st r
                               = true))).
  match goal with
  | |- context [forEach ?body ?markers ?init] =>
      destruct (forEach_prefix J body markers)
        with (xs := markers) (pre := @nil MarkerRef) (s := init)
        as ([mc' st'] & Hrun & HJ)
  end.
  - intros pre x post [mc1 st1] Hall (Hc1 & Hs1 & Ht1 & Hp1 & Hm1 & Hf1).
    cbn [fst snd] in *.
    assert (Hinb : isMarkerInBounds_ host st1 x
                     (viewport (MarkerClusterer.settings mc))
                   = in_viewport (MarkerClusterer.settings mc) st x).
    { unfold in_viewport, isMarkerInBounds_. now rewrite Hp1. }
    rewrite Hinb.
    destruct (isAdded (st1 x)) eqn:Ex; cbn [negb andb];
      [|destruct (in_viewport (MarkerClusterer.settings mc) st x) eqn:Ev].
    + exists (mc1, st1). split; [reflexivity|]. unfold J. cbn [fst snd].
      split; [exact Hc1|]. split; [exact Hs1|]. split; [exact Ht1|].
      split; [exact Hp1|]. split.
      * intros m. rewrite Hm1. split.
        -- intros [H|(Hin & Hu & Hv)]; [now left|].
           right. split; [apply in_or_app; now left | now split].
        -- intros [H|(Hin & Hu & Hv)]; [now left|].
           apply in_app_or in Hin. destruct Hin as [Hin|[<-|[]]].
           ++ right. now repeat split.
           ++ apply Hf1 in Ex. destruct Ex as [Ex|[Hin _]]; [congruence|].
              right. now repeat split.
      * intros r. rewrite Hf1. split.
        -- intros [H|(Hin & Hv)]; [now left|].
           right. split; [apply in_or_app; now left | exact Hv].
        -- intros [H|(Hin & Hv)]; [now left|].
           apply in_app_or in Hin. destruct Hin as [Hin|[<-|[]]].
           ++ right. now split.
           ++ now apply Hf1.
    + assert (Hux : isAdded (st x) = false).
      { destruct (isAdded (st x)) eqn:E0; [|reflexivity].
        assert (isAdded (st1 x) = true) by (apply Hf1; now left).
        congruence. }
      assert (Hnx : ~ In x (all_members (MarkerClusterer.clusters mc1))).
      { intros Hin. apply (proj2 Ht1) in Hin. congruence. }
      unfold MarkerClusterer.addToClosestCluster_.
      destruct Hc1 as (Hwf1 & Hto1 & Hcf1 & Hcalc1).
      rewrite Hcf1.
      destruct (default_clusterizer_takes (MarkerClusterer.settings mc1)
                  (MarkerClusterer.clusters mc1) x st1 Hwf1 Hcalc1 Ht1 Ex)
        as (cs' & st2 & -> & Hwf' & Hperm & Hfx & Hfo & Hp2).
      cbn [bind]. eexists (_, _). split; [reflexivity|]. unfold J.
      cbn [fst snd].
      split; [|split; [|split; [|split; [|split]]]].
      * split; [exact Hwf'|]. split; [exact Hto1|]. split; [exact Hcf1|].
        exact Hcalc1.
      * unfold same_but_clusters in *. rewrite Hs1. reflexivity.
      * cbn [MarkerClusterer.set_clusters MarkerClusterer.clusters]. split.
        -- eapply Permutation_NoDup; [exact Hperm|].
           constructor; [exact Hnx | apply Ht1].
        -- intros m Hin.
           apply (Permutation_in _ (Permutation_sym Hperm)) in Hin.
           destruct (Nat.eq_dec m x) as [->|Hne]; [exact Hfx|].
           rewrite (Hfo m Hne). apply Ht1.
           destruct Hin as [<-|Hin]; [contradiction | exact Hin].
      * intros r. now rewrite Hp2.
      * intros m.
        cbn [MarkerClusterer.set_clusters MarkerClusterer.clusters]. split.
        -- intros Hin.
           apply (Permutation_in _ (Permutation_sym Hperm)) in Hin.
           destruct Hin as [<-|Hin].
           ++ right. split; [apply in_or_app; right; now left | now split].
           ++ apply Hm1 in Hin. destruct Hin as [H|(Hin & Hu & Hv)];
                [now left|].
              right. split; [apply in_or_app; now left | now split].
        -- intros H. apply (Permutation_in _ Hperm).
           destruct H as [H|(Hin & Hu & Hv)].
           ++ right. apply Hm1. now left.
           ++ apply in_app_or in Hin. destruct Hin as [Hin|[<-|[]]].
              ** right. apply Hm1. right. now repeat split.
              ** now left.
      * intros r. destruct (Nat.eq_dec r x) as [->|Hne].
        -- split; [|intros _; exact Hfx].
           intros _. right. split; [apply in_or_app; right; now left|].
           exact Ev.
        -- rewrite (Hfo r Hne), Hf1. split.
           ++ intros [H|(Hin & Hv)]; [now left|].
              right. split; [apply in_or_app; now left | exact Hv].
           ++ intros [H|(Hin & Hv)]; [now left|].
              apply in_app_or in Hin. destruct Hin as [Hin|[<-|[]]];
                [|contradiction].
              right. now split.
    + exists (mc1, st1). split; [reflexivity|]. unfold J. cbn [fst snd].
      split; [exact Hc1|]. split; [exact Hs1|]. split; [exact Ht1|].
      split; [exact Hp1|]. split.
      * intros m. rewrite Hm1. split.
        -- intros [H|(Hin & Hu & Hv)]; [now left|].
           right. split; [apply in_or_app; now left | now split].
        -- intros [H|(Hin & Hu & Hv)]; [now left|].
           apply in_app_or in Hin. destruct Hin as [Hin|[<-|[]]].
           ++ right. now repeat split.
           ++ congruence.
      * intros r. rewrite Hf1. split.
        -- intros [H|(Hin & Hv)]; [now left|].
           right. split; [apply in_or_app; now left | exact Hv].
        -- intros [H|(Hin & Hv)]; [now left|].
           apply in_app_or in Hin. destruct Hin as [Hin|[<-|[]]].
           ++ right. now split.
           ++ congruence.
  - reflexivity.
  - unfold J. cbn [fst snd]. split; [exact Hc|].
    split; [apply same_but_clusters_refl|]. split; [exact Htidy|].
    split; [reflexivity|]. split.
    + intros m. split; [now left|]. now intros [H|([] & _)].
    + intros r. split; [now left|]. now intros [H|([] & _)].
  - exists mc', st'. split; [exact Hrun|]. exact HJ.
Qed.

End Redraw.

(** The clusterer of markers 0, 1 and 2 after its clusters were dropped. *)
Definition counting_clusterer_reset : MarkerClusterer.t float :=
  MarkerClusterer.set_clusters [] counting_clusterer.

Lemma counting_clusterer_reset_ready :
  consistent (M := Math_series) counting_clusterer_reset
  /\ MarkerClusterer.ready counting_clusterer_reset = true
  /\ tidy (MarkerClusterer.clusters counting_clusterer_reset) tenths.
Proof.
  split; [|split].
  - apply set_clusters_nil_consistent, counting_clusterer_consistent.
  - vm_compute. reflexivity.
  - split; [constructor | intros m []].
Qed.

(** X17. [redraw()] on a ready, consistent clusterer in which no marker is
    a member of two clusters, or twice of one, and every member has
    [isAdded] set: the call returns and leaves the clusters in that state
    and the markers of the clusterer and all positions as they were.  The
    members of the clusters are then the members from before and the markers
    of the clusterer that had [isAdded] unset and lie inside the extended
    bounds of the map; a marker has [isAdded] set afterwards exactly when
    it had it before or is a marker of the clusterer inside these bounds. *)
Theorem redraw_clusters_unflagged_markers_in_view :
  forall {num : Type} {N : Number num} {M : Math num} (host : Host num)
    (mc : MarkerClusterer.t num) (st : Store num),
  consistent mc ->
  MarkerClusterer.ready mc = true ->
  tidy (MarkerClusterer.clusters mc) st ->
  exists mc' st',
    MarkerClusterer.redraw host mc st = Returns (mc', st')
    /\ MarkerClusterer.markers mc' = MarkerClusterer.markers mc
    /\ tidy (MarkerClusterer.clusters mc') st'
    /\ (forall r, getPosition st' r = getPosition st r)
    /\ (forall m,
          In m (all_members (MarkerClusterer.clusters mc'))
          <-> In m (all_members (MarkerClusterer.clusters mc))
              \/ (In m (MarkerClusterer.markers mc)
                  /\ isAdded (st m) = false
                  /\ in_viewport host (MarkerClusterer.settings mc) st m
                     = true))
    /\ (forall r,
          isAdded (st' r) = true
          <-> isAdded (st r) = true
              \/ (In r (MarkerClusterer.markers mc)
                  /\ in_viewport host (MarkerClusterer.settings mc) st r
                     = true)).
Proof.
  intros num N M host mc st Hc Hready Htidy.
  destruct (redraw_spec host mc st Hc Hready Htidy)
    as (mc' & st' & Hrun & _ & Hs & Ht & Hp & Hm & Hf).
  exists mc', st'. split; [exact Hrun|].
  split; [now apply same_but_clusters_fields in Hs|].
  split; [exact Ht|]. split; [exact Hp|]. split; [exact Hm | exact Hf].
Qed.

Lemma redraw_clusters_unflagged_markers_in_view_witness :
  exists mc' st',
    MarkerClusterer.redraw demo_host counting_clusterer_reset tenths
    = Returns (mc', st')
    /\ MarkerClusterer.markers mc'
       = MarkerClusterer.markers counting_clusterer_reset
    /\ tidy (MarkerClusterer.clusters mc') st'
    /\ (forall r, getPosition st' r = getPosition tenths r)
    /\ (forall m,
          In m (all_members (MarkerClusterer.clusters mc'))
          <-> In m (all_members
                      (MarkerClusterer.clusters counting_clusterer_reset))
              \/ (In m (MarkerClusterer.markers counting_clusterer_reset)
                  /\ isAdded (tenths m) = false
                  /\ in_viewport demo_host
                       (MarkerClusterer.settings counting_clusterer_reset)
                       tenths m = true))
    /\ (forall r,
          isAdded (st' r) = true
          <-> isAdded (tenths r) = true
              \/ (In r (MarkerClusterer.markers counting_clusterer_reset)
                  /\ in_viewport demo_host
                       (MarkerClusterer.settings counting_clusterer_reset)
                       tenths r = true)).
Proof.
  apply (redraw_clusters_unflagged_markers_in_view (M := Math_series)
           demo_host counting_clusterer_reset tenths).
  - exact (proj1 counting_clusterer_reset_ready).
  - exact (proj1 (proj2 counting_clusterer_reset_ready)).
  - exact (proj2 (proj2 counting_clusterer_reset_ready)).
Defined.

(** X18. On a ready, consistent clusterer in which no marker is a member
    of two clusters, or twice of one, and every member has [isAdded] set,
    [redraw()] returns and a second [redraw()] right after it changes
    nothing: neither the clusterer nor any marker. *)
Theorem redraw_twice_is_redraw_once :
  forall {num : Type} {N : Number num} {M : Math num} (host : Host num)
    (mc : MarkerClusterer.t num) (st : Store num),
  consistent mc ->
  MarkerClusterer.ready mc = true ->
  tidy (MarkerClusterer.clusters mc) st ->
  exists mc' st',
    MarkerClusterer.redraw host mc st = Returns (mc', st')
    /\ MarkerClusterer.redraw host mc' st' = Returns (mc', st').
Proof.
  intros num N M host mc st Hc Hready Htidy.
  destruct (redraw_spec host mc st Hc Hready Htidy)
    as (mc' & st' & Hrun & _ & Hs & _ & Hp & _ & Hf).
  exists mc', st'. split; [exact Hrun|].
  assert (Hr' : MarkerClusterer.ready mc' = true)
    by (rewrite Hs; exact Hready).
  assert (Hset : MarkerClusterer.settings mc' = MarkerClusterer.settings mc)
    by (rewrite Hs; reflexivity).
  assert (Hms : MarkerClusterer.markers mc' = MarkerClusterer.markers mc)
    by (rewrite Hs; reflexivity).
  unfold MarkerClusterer.redraw, MarkerClusterer.createClusters_.
  rewrite Hr'. cbn [negb]. cbv zeta. apply forEach_skip.
  intros x Hx. cbv beta iota.
  destruct (isAdded (st' x)) eqn:Ex; [reflexivity|]. cbn [negb andb].
  assert (Hinb : isMarkerInBounds_ host st' x
                   (getExtendedBounds host (MarkerClusterer.settings mc')
                      {| getSouthWest := getSouthWest (getBounds host);
                         getNorthEast := getNorthEast (getBounds host) |})
                 = in_viewport host (MarkerClusterer.settings mc) st x).
  { unfold in_viewport, viewport, isMarkerInBounds_. now rewrite Hset, Hp. }
  rewrite Hinb.
  destruct (in_viewport host (MarkerClusterer.settings mc) st x) eqn:Ev;
    [|reflexivity].
  assert (isAdded (st' x) = true); [|congruence].
  apply Hf. right. split; [congruence | exact Ev].
Qed.

Lemma redraw_twice_is_redraw_once_witness :
  exists mc' st',
    MarkerClusterer.redraw demo_host counting_clusterer_reset tenths
    = Returns (mc', st')
    /\ MarkerClusterer.redraw demo_host mc' st' = Returns (mc', st').
Proof.
  apply (redraw_twice_is_redraw_once (M := Math_series) demo_host
           counting_clusterer_reset tenths).
  - exact (proj1 counting_clusterer_reset_ready).
  - exact (proj1 (proj2 counting_clusterer_reset_ready)).
  - exact (proj2 (proj2 counting_clusterer_reset_ready)).
Defined.

(** ** From the constructor to the first clusters *)

Section FirstClusters.
Context {num : Type} {N : Number num} {M : Math num}.
Variable host : Host num.

Lemma pushMarkers_store (ms : list MarkerRef) :
  forall (mc : MarkerClusterer.t num) (st : Store num) (r : MarkerRef),
  let st' :=
    snd (fold_left
           (fun '(mc, st) marker => MarkerClusterer.pushMarkerTo marker mc st)
           ms (mc, st)) in
  getPosition st' r = getPosition st r
  /\ isAdded (st' r)
     = if in_dec Nat.eq_dec r ms then false else isAdded (st r).
Proof.
  induction ms as [|m ms IH]; intros mc st r; cbn [fold_left].
  - now split.
  - unfold MarkerClusterer.pushMarkerTo at 2 4.
    destruct (IH (MarkerClusterer.set_markers
                    (MarkerClusterer.markers mc ++ [m]) mc)
                 (set_isAdded m false st) r) as [Hp Hf].
    cbv zeta in *. rewrite Hp, Hf. split.
    + unfold getPosition, set_isAdded, update.
      now destruct (Nat.eqb_spec r m) as [->|].
    + rewrite isAdded_set_isAdded.
      destruct (in_dec Nat.eq_dec r ms) as [Hr|Hr];
        destruct (in_dec Nat.eq_dec r (m :: ms)) as [Hm|Hm];
        destruct (Nat.eqb_spec r m) as [->|Hne]; try reflexivity;
        exfalso; cbn in Hm; intuition congruence.
Qed.

Lemma addMarkers_dormant (ms : list MarkerRef) (noRedraw : bool)
    (mc : MarkerClusterer.t num) (st : Store num) :
  MarkerClusterer.ready mc = false ->
  MarkerClusterer.addMarkers host ms noRedraw mc st
  = Returns
      (MarkerClusterer.set_markers (MarkerClusterer.markers mc ++ ms) mc,
       snd (fold_left
              (fun '(mc, st) marker =>
                 MarkerClusterer.pushMarkerTo marker mc st)
              ms (mc, st))).
Proof.
  intros Hr. unfold MarkerClusterer.addMarkers.
  pose proof (pushMarkers_fields ms mc st) as E.
  destruct (fold_left _ ms (mc, st)) as [mc1 st1]. cbn [fst snd] in *.
  subst mc1. destruct noRedraw; cbn [negb]; [reflexivity|].
  now apply redraw_dormant.
Qed.

Lemma resetViewport_live (hideMarker : bool) (mc : MarkerClusterer.t num)
    (st : Store num) :
  Forall live (MarkerClusterer.clusters mc) ->
  MarkerClusterer.resetViewport hideMarker mc st
  = Returns
      (MarkerClusterer.set_clusters [] mc,
       fold_left (fun st marker =>
                    let st := set_isAdded marker false st in
                    if hideMarker then setMap marker None st else st)
         (MarkerClusterer.markers mc) st).
Proof.
  intros Hlive. unfold MarkerClusterer.resetViewport.
  now rewrite (forEach_remove _ Hlive).
Qed.

(** [onAdd] on a consistent clusterer that is not ready, has no cluster and
    whose markers are not flagged. *)
Lemma onAdd_spec (mc : MarkerClusterer.t num) (st st0 : Store num) :
  consistent mc ->
  MarkerClusterer.ready mc = false ->
  MarkerClusterer.clusters mc = [] ->
  (forall r, getPosition st0 r = getPosition st r) ->
  (forall m, In m (MarkerClusterer.markers mc) -> isAdded (st0 m) = false) ->
  exists mc' st',
    MarkerClusterer.onAdd host mc st0 = Returns (mc', st')
    /\ MarkerClusterer.ready mc' = true
    /\ MarkerClusterer.markers mc' = MarkerClusterer.markers mc
    /\ MarkerClusterer.settings mc' = MarkerClusterer.settings mc
    /\ tidy (MarkerClusterer.clusters mc') st'
    /\ (forall m,
          In m (all_members (MarkerClusterer.clusters mc'))
          <-> In m (MarkerClusterer.markers mc)
              /\ in_viewport host (MarkerClusterer.settings mc) st m = true).
Proof.
  intros Hc Hr Hcs Hp0 Hf0.
  unfold MarkerClusterer.onAdd, MarkerClusterer.setReady_.
  rewrite Hr. cbn [negb].
  assert (Hc1 : consistent (MarkerClusterer.set_ready true mc)) by exact Hc.
  assert (Ht1 : tidy (MarkerClusterer.clusters
                        (MarkerClusterer.set_ready true mc)) st0).
  { cbn [MarkerClusterer.set_ready MarkerClusterer.clusters]. rewrite Hcs.
    split; [constructor | intros m []]. }
  destruct (redraw_spec host _ st0 Hc1 eq_refl Ht1)
    as (mc' & st' & Hrun & _ & Hs & Ht & _ & Hm & _).
  exists mc', st'. split; [exact Hrun|].
  split; [now rewrite Hs|]. split; [now rewrite Hs|].
  split; [now rewrite Hs|]. split; [exact Ht|].
  intros m. rewrite Hm.
  cbn [MarkerClusterer.set_ready MarkerClusterer.clusters
       MarkerClusterer.markers MarkerClusterer.settings].
  rewrite Hcs.
  assert (Hv : in_viewport host (MarkerClusterer.settings mc) st0 m
               = in_viewport host (MarkerClusterer.settings mc) st m).
  { unfold in_viewport, isMarkerInBounds_. now rewrite Hp0. }
  rewrite Hv. split.
  - intros [[]|(Hin & _ & Hin')]. now split.
  - intros (Hin & Hin'). right. split; [exact Hin|].
    split; [now apply Hf0 | exact Hin'].
Qed.

End FirstClusters.

(** X19. [new MarkerClusterer(map, markers, options, calculator)] with the
    default clusterizer and a calculator that always returns makes a
    clusterer that holds the markers and has no cluster; when the map then
    calls [onAdd()], the clusterer is ready and the members of its clusters
    are exactly the given markers that lie inside the extended bounds of
    the map, each of them a member once, also when it was given twice. *)
Theorem constructor_then_onAdd_clusters_markers_in_view :
  forall {num : Type} {N : Number num} {M : Math num} (host : Host num)
    (map : MapRef) (ms : list MarkerRef)
    (options : MarkerClustererOptions num) (calculator : SumCalculatorFunc)
    (st : Store num),
  (forall markers numStyles, calculator markers numStyles <> None) ->
  exists mc0 st0 mc' st',
    MarkerClusterer.constructor host map ms options calculator
      MarkerClusterer.DEFAULT_CLUSTERIZER_FUNCTION st = Returns (mc0, st0)
    /\ MarkerClusterer.markers mc0 = ms
    /\ MarkerClusterer.clusters mc0 = []
    /\ MarkerClusterer.onAdd host mc0 st0 = Returns (mc', st')
    /\ MarkerClusterer.ready mc' = true
    /\ MarkerClusterer.markers mc' = ms
    /\ NoDup (all_members (MarkerClusterer.clusters mc'))
    /\ (forall m,
          In m (all_members (MarkerClusterer.clusters mc'))
          <-> In m ms
              /\ in_viewport host (MarkerClusterer.settings mc') st m = true).
Proof.
  intros num N M host map ms options calculator st Hcalc.
  unfold MarkerClusterer.constructor.
  match goal with
  | |- context [match ms with [] => Returns (?mc0, _) | _ => _ end] =>
      assert (Hc0 : consistent mc0)
        by (repeat split; try constructor; intros ?; apply Hcalc);
      assert (Hr0 : MarkerClusterer.ready mc0 = false) by reflexivity;
      assert (Hcs0 : MarkerClusterer.clusters mc0 = []) by reflexivity;
      assert (Hms0 : MarkerClusterer.markers mc0 = []) by reflexivity;
      set (mc := mc0) in *
  end.
  assert (Hrun : match ms with
                 | [] => Returns (mc, st)
                 | _ :: _ => MarkerClusterer.addMarkers host ms false mc st
                 end
                 = Returns
                     (MarkerClusterer.set_markers ms mc,
                      snd (fold_left
                             (fun '(mc, st) marker =>
                                MarkerClusterer.pushMarkerTo marker mc st)
                             ms (mc, st)))).
  { destruct ms as [|m ms]; [reflexivity|].
    rewrite (addMarkers_dormant host (m :: ms) false mc st Hr0).
    now rewrite Hms0. }
  rewrite Hrun. clear Hrun.
  set (st0 := snd (fold_left _ ms (mc, st))).
  assert (Hc1 : consistent (MarkerClusterer.set_markers ms mc))
    by exact Hc0.
  destruct (onAdd_spec host (MarkerClusterer.set_markers ms mc) st st0 Hc1)
    as (mc' & st' & Hadd & Hr' & Hms' & Hset' & Ht' & Hm');
    [exact Hr0 | exact Hcs0 | | |].
  - intros r. apply (pushMarkers_store ms mc st r).
  - intros m Hin. cbn [MarkerClusterer.set_markers MarkerClusterer.markers]
      in Hin.
    destruct (pushMarkers_store ms mc st m) as [_ Hf]. fold st0 in Hf.
    rewrite Hf. now destruct (in_dec Nat.eq_dec m ms).
  - exists (MarkerClusterer.set_markers ms mc), st0, mc', st'.
    split; [reflexivity|]. split; [reflexivity|]. split; [exact Hcs0|].
    split; [exact Hadd|]. split; [exact Hr'|]. split; [exact Hms'|].
    split; [apply Ht'|]. intros m. rewrite Hset'. apply Hm'.
Qed.

Lemma constructor_then_onAdd_clusters_markers_in_view_witness :
  exists mc0 st0 mc' st',
    MarkerClusterer.constructor demo_host 0%nat [0; 1; 1; 2]%nat no_options
      count_calculator
      (MarkerClusterer.DEFAULT_CLUSTERIZER_FUNCTION (M := Math_series)) tenths
    = Returns (mc0, st0)
    /\ MarkerClusterer.markers mc0 = [0; 1; 1; 2]%nat
    /\ MarkerClusterer.clusters mc0 = []
    /\ MarkerClusterer.onAdd demo_host mc0 st0 = Returns (mc', st')
    /\ MarkerClusterer.ready mc' = true
    /\ MarkerClusterer.markers mc' = [0; 1; 1; 2]%nat
    /\ NoDup (all_members (MarkerClusterer.clusters mc'))
    /\ (forall m,
          In m (all_members (MarkerClusterer.clusters mc'))
          <-> In m [0; 1; 1; 2]%nat
              /\ in_viewport demo_host (MarkerClusterer.settings mc') tenths m
                 = true).
Proof.
  apply (constructor_then_onAdd_clusters_markers_in_view (M := Math_series)
           demo_host 0%nat [0; 1; 1; 2]%nat no_options count_calculator
           tenths).
  intros markers numStyles. discriminate.
Defined.

(** X20. [repaint()] on a ready, consistent clusterer returns; the clusters
    it had are queued for the deferred removal and new clusters are made
    from scratch: their members are exactly the markers of the clusterer
    inside the extended bounds of the map, whatever [isAdded] said before,
    each of them a member once. *)
Theorem repaint_reclusters_markers_in_view :
  forall {num : Type} {N : Number num} {M : Math num} (host : Host num)
    (mc : MarkerClusterer.t num) (st : Store num),
  consistent mc ->
  MarkerClusterer.ready mc = true ->
  exists mc' st',
    MarkerClusterer.repaint host mc st = Returns (mc', st')
    /\ MarkerClusterer.markers mc' = MarkerClusterer.markers mc
    /\ MarkerClusterer.timeouts mc'
       = MarkerClusterer.timeouts mc ++ [MarkerClusterer.clusters mc]
    /\ NoDup (all_members (MarkerClusterer.clusters mc'))
    /\ (forall m,
          In m (all_members (MarkerClusterer.clusters mc'))
          <-> In m (MarkerClusterer.markers mc)
              /\ in_viewport host (MarkerClusterer.settings mc) st m = true).
Proof.
  intros num N M host mc st Hc Hready.
  unfold MarkerClusterer.repaint. cbv zeta.
  destruct (set_clusters_nil_consistent mc Hc) as [Hc0 _].
  rewrite (resetViewport_live false (MarkerClusterer.set_clusters [] mc) st)
    by constructor.
  cbn [bind].
  set (st1 := fold_left _ _ st).
  assert (Hst1 : forall r,
             st1 r = if in_dec Nat.eq_dec r (MarkerClusterer.markers mc)
                     then reset_marker false (st r) else st r)
    by (intros r; apply (reset_markers_pointwise false)).
  destruct (set_clusters_nil_consistent _ Hc0) as [Hc1 _].
  destruct (redraw_spec host _ st1 Hc1 Hready)
    as (mc2 & st2 & Hrun & _ & Hs & Ht & _ & Hm & _);
    [split; [constructor | intros m []]|].
  rewrite Hrun. cbn [bind]. eexists _, _. split; [reflexivity|].
  cbn [MarkerClusterer.set_timeouts MarkerClusterer.markers
       MarkerClusterer.timeouts MarkerClusterer.clusters].
  apply same_but_clusters_fields in Hs. destruct Hs as (Hms & Hto & Hset).
  split; [exact Hms|]. split; [now rewrite Hto|]. split; [apply Ht|].
  intros m. rewrite Hm.
  cbn [MarkerClusterer.set_clusters MarkerClusterer.clusters
       MarkerClusterer.markers MarkerClusterer.settings all_members flat_map].
  assert (Hv : in_viewport host (MarkerClusterer.settings mc) st1 m
               = in_viewport host (MarkerClusterer.settings mc) st m).
  { unfold in_viewport, isMarkerInBounds_, getPosition. rewrite Hst1.
    now destruct (in_dec Nat.eq_dec m (MarkerClusterer.markers mc)). }
  rewrite Hv. split.
  - intros [[]|(Hin & _ & Hin')]. now split.
  - intros (Hin & Hin'). right. split; [exact Hin|]. split; [|exact Hin'].
    rewrite Hst1.
    now destruct (in_dec Nat.eq_dec m (MarkerClusterer.markers mc)).
Qed.

Lemma repaint_reclusters_markers_in_view_witness :
  exists mc' st',
    MarkerClusterer.repaint demo_host counting_clusterer counting_store
    = Returns (mc', st')
    /\ MarkerClusterer.markers mc' = MarkerClusterer.markers counting_clusterer
    /\ MarkerClusterer.timeouts mc'
       = MarkerClusterer.timeouts counting_clusterer
         ++ [MarkerClusterer.clusters counting_clusterer]
    /\ NoDup (all_members (MarkerClusterer.clusters mc'))
    /\ (forall m,
          In m (all_members (MarkerClusterer.clusters mc'))
          <-> In m (MarkerClusterer.markers counting_clusterer)
              /\ in_viewport demo_host
                   (MarkerClusterer.settings counting_clusterer)
                   counting_store m = true).
Proof.
  apply (repaint_reclusters_markers_in_view (M := Math_series) demo_host
           counting_clusterer counting_store).
  - exact (proj1 counting_clusterer_consistent).
  - vm_compute. reflexivity.
Defined.
